(** * IABonner: the news analysis pipeline of [src/news_analyzer.py]

    A shallow embedding of [NewsAnalyzer]: provider set-up with the Ollama
    health check, the fallback loop of [analyze_news], the translation step,
    the prompt builder, the response parser and the keyword-driven local
    analysis, followed by the properties the specification states about
    them. *)

From Stdlib Require Import ZArith NArith Ascii String List Bool Lia.
From stdpp Require Import base option list strings gmap.

Local Open Scope N_scope.
Set Warnings "-clear-no-such-hyp".

(** ** Python strings

    A Python [str] is a sequence of Unicode code points.  Literals are
    written as in the source and decoded from the UTF-8 bytes of the file. *)

Module PyStr.

Abbreviation codepoint := N.
Abbreviation pystr := (list N).

Fixpoint utf8_decode (bs : list N) : pystr :=
  match bs with
  | [] => []
  | b :: rest =>
      if b <? 128 then b :: utf8_decode rest
      else if b <? 224 then
        match rest with
        | b1 :: r => ((b - 192) * 64 + (b1 - 128)) :: utf8_decode r
        | _ => []
        end
      else if b <? 240 then
        match rest with
        | b1 :: b2 :: r =>
            ((b - 224) * 4096 + (b1 - 128) * 64 + (b2 - 128)) :: utf8_decode r
        | _ => []
        end
      else
        match rest with
        | b1 :: b2 :: b3 :: r =>
            ((b - 240) * 262144 + (b1 - 128) * 4096 + (b2 - 128) * 64 + (b3 - 128))
              :: utf8_decode r
        | _ => []
        end
  end.

Definition py (s : string) : pystr :=
  utf8_decode (map N_of_ascii (list_ascii_of_string s)).

Definition LF : codepoint := 10.

Definition str_eqb (a b : pystr) : bool := bool_decide (a = b).

(** [s.startswith(p)] *)
Fixpoint startswith (s p : pystr) {struct p} : bool :=
  match p, s with
  | [], _ => true
  | _ :: _, [] => false
  | x :: p', y :: s' => (x =? y) && startswith s' p'
  end.

(** [sub in s] *)
Fixpoint contains (sub s : pystr) : bool :=
  startswith s sub ||
  match s with
  | [] => false
  | _ :: s' => contains sub s'
  end.

(** [s.split(sep)] for a one-character separator: never the empty list. *)
Fixpoint split_on (sep : codepoint) (s : pystr) : list pystr :=
  match s with
  | [] => [[]]
  | c :: s' =>
      if c =? sep then [] :: split_on sep s'
      else match split_on sep s' with
           | [] => [[c]]
           | w :: ws => (c :: w) :: ws
           end
  end.

(** [str.isspace] on one character, as CPython's [_PyUnicode_IsWhitespace]. *)
Definition isspace (c : codepoint) : bool :=
  ((9 <=? c) && (c <=? 13)) || ((28 <=? c) && (c <=? 32))
  || (c =? 133) || (c =? 160) || (c =? 5760)
  || ((8192 <=? c) && (c <=? 8202))
  || (c =? 8232) || (c =? 8233) || (c =? 8239) || (c =? 8287) || (c =? 12288).

Fixpoint lstrip (s : pystr) : pystr :=
  match s with
  | c :: s' => if isspace c then lstrip s' else s
  | [] => []
  end.

Definition rstrip (s : pystr) : pystr := rev (lstrip (rev s)).

(** [s.strip()] *)
Definition strip (s : pystr) : pystr := rstrip (lstrip s).

(** [s.split()]: the maximal runs of non-whitespace characters. *)
Fixpoint split_ws_aux (cur : pystr) (s : pystr) : list pystr :=
  match s with
  | [] => match cur with [] => [] | _ => [rev cur] end
  | c :: s' =>
      if isspace c
      then match cur with
           | [] => split_ws_aux [] s'
           | _ => rev cur :: split_ws_aux [] s'
           end
      else split_ws_aux (c :: cur) s'
  end.

Definition split_ws (s : pystr) : list pystr := split_ws_aux [] s.

(** [s.replace(old, new)]: every non-overlapping occurrence, left to right.
    [skip] counts the characters of a replaced occurrence still to pass. *)
Fixpoint replace_from (old new : pystr) (skip : nat) (s : pystr) : pystr :=
  match s with
  | [] => []
  | c :: s' =>
      match skip with
      | S k => replace_from old new k s'
      | O =>
          if startswith s old
          then new ++ replace_from old new (length old - 1)%nat s'
          else c :: replace_from old new 0 s'
      end
  end.

Definition replace (s old new : pystr) : pystr :=
  match old with
  | [] => new ++ concat (map (fun c => c :: new) s)
  | _ => replace_from old new 0 s
  end.

(** [sep.join(parts)] *)
Fixpoint join (sep : pystr) (parts : list pystr) : pystr :=
  match parts with
  | [] => []
  | [p] => p
  | p :: ps => p ++ sep ++ join sep ps
  end.

(** [s[:n]] *)
Definition slice_to (n : nat) (s : pystr) : pystr := take n s.

(** The case mappings [str.upper] and [str.lower] of Unicode are tables of
    the Python runtime.  The analyzer is parameterised by them; this
    instance is the mapping on U+0000..U+00FF (Basic Latin and Latin-1),
    the range of every constant of the analyzer, and leaves other code
    points as they are. *)
Definition latin1_lower_char (c : codepoint) : codepoint :=
  if (65 <=? c) && (c <=? 90) then c + 32
  else if (192 <=? c) && (c <=? 222) && negb (c =? 215) then c + 32
  else c.

Definition latin1_upper_char (c : codepoint) : pystr :=
  if (97 <=? c) && (c <=? 122) then [c - 32]
  else if (224 <=? c) && (c <=? 254) && negb (c =? 247) then [c - 32]
  else if c =? 223 then [83; 83]
  else if c =? 181 then [924]
  else if c =? 255 then [376]
  else [c].

Definition latin1_lower (s : pystr) : pystr := map latin1_lower_char s.
Definition latin1_upper (s : pystr) : pystr := concat (map latin1_upper_char s).

End PyStr.
Import PyStr.


(** ** Values, failures and the outside world *)

(** A decoded JSON document, as [response.json()] returns it. *)
#[warnings="-register-all"]
Inductive json : Type :=
| JNull
| JBool (b : bool)
| JNum (z : Z)
| JStr (s : pystr)
| JArr (items : list json)
| JObj (fields : list (pystr * json)).

(** Python truthiness of a decoded value. *)
Definition truthy (v : json) : bool :=
  match v with
  | JNull => false
  | JBool b => b
  | JNum z => negb (z =? 0)%Z
  | JStr s => negb (str_eqb s [])
  | JArr l => match l with [] => false | _ => true end
  | JObj d => match d with [] => false | _ => true end
  end.

(** A Python exception of class [Exception], the ones [except Exception]
    catches: its class name and [str(e)]. *)
Record exn := Exn { exn_type : string; exn_msg : pystr }.

Definition AttributeError : exn := Exn "AttributeError" [].
Definition TypeError : exn := Exn "TypeError" [].

(** [len(v)]; numbers, booleans and [None] have no length. *)
Definition py_len (v : json) : exn + nat :=
  match v with
  | JStr s => inr (length s)
  | JArr l => inr (length l)
  | JObj d => inr (length d)
  | _ => inl TypeError
  end.

(** [d.get(key, dflt)] on a decoded value; only objects have [get].  Of a
    repeated key the decoder keeps the last value. *)
Fixpoint assoc_get (key : pystr) (d : list (pystr * json)) : option json :=
  match d with
  | [] => None
  | (k, v) :: d' =>
      match assoc_get key d' with
      | Some v' => Some v'
      | None => if str_eqb k key then Some v else None
      end
  end.

Definition json_get (v : json) (key : pystr) (dflt : json) : exn + json :=
  match v with
  | JObj d => inr (default dflt (assoc_get key d))
  | _ => inl AttributeError
  end.

(** An HTTP response of [requests]: the status and what [.json()] gives. *)
Record http_response := { status_code : Z; response_json : exn + json }.

(** A client built by [OpenAI(api_key=..., base_url=...)]. *)
Record OpenAI_client := { client_api_key : pystr; client_base_url : pystr }.

(** The arguments of [client.chat.completions.create]; the temperature is
    kept in tenths (0.5 is 5). *)
Record chat_request := {
  req_model : pystr;
  req_system : pystr;
  req_user : pystr;
  req_max_tokens : Z;
  req_temperature : Z }.

(** What the analyzer does to the outside world, in order. *)
Inductive event : Type :=
| EvGet (url : pystr)
| EvTrying (provider_name : pystr)
| EvChat (c : OpenAI_client) (r : chat_request)
| EvPost (url authorization inputs : pystr).

Definition trace := list event.

(** The outside world answers each call from what happened before it.  A
    chat completion yields [response.choices[0].message.content], which may
    be [None]; every failure on the way is an exception.  [openai_installed]
    tells whether the import of the client library succeeded, and
    [openai_init] gives the exception the constructor of the client raises
    on an API key and a base URL, if it raises one. *)
Record backend := {
  requests_get : trace -> pystr -> exn + http_response;
  chat_completions_create : trace -> OpenAI_client -> chat_request -> exn + option pystr;
  requests_post : trace -> pystr -> pystr -> pystr -> exn + http_response;
  openai_installed : bool;
  openai_init : pystr -> pystr -> option exn }.

(** Computations that extend the trace and either raise or return. *)
Definition io (A : Type) : Type := trace -> trace * (exn + A).

#[global] Instance io_ret : MRet io := fun A x tr => (tr, inr x).

#[global] Instance io_bind : MBind io := fun A B f m tr =>
  match m tr with
  | (tr', inl e) => (tr', inl e)
  | (tr', inr x) => f x tr'
  end.

Definition raise {A} (e : exn) : io A := fun tr => (tr, inl e).

Definition lift {A} (r : exn + A) : io A := fun tr => (tr, r).

(** [try: body except Exception as e: handler(e)] *)
Definition try_except {A} (body : io A) (handler : exn -> io A) : io A :=
  fun tr =>
    match body tr with
    | (tr', inl e) => handler e tr'
    | r => r
    end.

Definition emit (e : event) : io unit := fun tr => (tr ++ [e], inr tt).

Section World.

Variable world : backend.

Definition http_get (url : pystr) : io http_response :=
  fun tr => (tr ++ [EvGet url], requests_get world tr url).

Definition chat_create (c : OpenAI_client) (r : chat_request) : io (option pystr) :=
  fun tr => (tr ++ [EvChat c r], chat_completions_create world tr c r).

Definition http_post (url authorization inputs : pystr) : io http_response :=
  fun tr => (tr ++ [EvPost url authorization inputs],
             requests_post world tr url authorization inputs).

(** [OpenAI(...)]: when the import failed the name is [None] and the call
    raises; otherwise the constructor raises on the values it rejects and
    returns a client on the others. *)
Definition OpenAI (api_key base_url : pystr) : io OpenAI_client :=
  if openai_installed world
  then
    match openai_init world api_key base_url with
    | Some e => raise e
    | None => mret {| client_api_key := api_key; client_base_url := base_url |}
    end
  else raise TypeError.

End World.

(** ** Providers *)

Record provider_config := {
  api_key : option pystr;
  base_url : pystr;
  model : pystr;
  free : bool;
  priority : Z }.

Inductive provider_type := openai_compatible | huggingface.

Record provider := {
  name : pystr;
  config : provider_config;
  client : option OpenAI_client;
  ptype : provider_type }.

Record NewsAnalyzer := {
  available_providers : list provider;
  analysis_enabled : bool }.

(** [os.getenv(key)] and [os.getenv(key, dflt)] over the environment as
    [load_dotenv] leaves it. *)
Definition getenv (environ : gmap string pystr) (key : string) : option pystr :=
  environ !! key.

Definition getenv_or (environ : gmap string pystr) (key : string) (dflt : pystr) : pystr :=
  default dflt (environ !! key).

(** [self.providers], in the order of the dictionary literal. *)
Definition providers (environ : gmap string pystr) : list (pystr * provider_config) :=
  [ (py "ollama",
     {| api_key := Some (py "local");
        base_url := getenv_or environ "OLLAMA_BASE_URL" (py "http://localhost:11434/v1");
        model := getenv_or environ "OLLAMA_MODEL" (py "llama3:latest");
        free := true; priority := 1 |});
    (py "openrouter",
     {| api_key := getenv environ "OPENROUTER_API_KEY";
        base_url := py "https://openrouter.ai/api/v1";
        model := getenv_or environ "DEFAULT_MODEL" (py "meta-llama/llama-3.3-70b-instruct:free");
        free := true; priority := 2 |});
    (py "groq",
     {| api_key := getenv environ "GROQ_API_KEY";
        base_url := py "https://api.groq.com/openai/v1";
        model := getenv_or environ "GROQ_MODEL" (py "llama3-8b-8192");
        free := true; priority := 3 |});
    (py "together",
     {| api_key := getenv environ "TOGETHER_API_KEY";
        base_url := py "https://api.together.xyz/v1";
        model := getenv_or environ "TOGETHER_MODEL" (py "meta-llama/Llama-2-7b-chat-hf");
        free := false; priority := 4 |});
    (py "huggingface",
     {| api_key := getenv environ "HUGGINGFACE_API_KEY";
        base_url := py "https://api-inference.huggingface.co/models";
        model := getenv_or environ "HUGGINGFACE_MODEL" (py "microsoft/DialoGPT-medium");
        free := true; priority := 5 |}) ].

(** [sorted(items, key=priority)]: a stable sort. *)
Fixpoint insert_by_priority (x : pystr * provider_config)
    (l : list (pystr * provider_config)) : list (pystr * provider_config) :=
  match l with
  | [] => [x]
  | y :: l' =>
      if (priority (snd y) <=? priority (snd x))%Z
      then y :: insert_by_priority x l'
      else x :: l
  end.

Definition sorted_by_priority (l : list (pystr * provider_config))
    : list (pystr * provider_config) :=
  foldl (fun acc x => insert_by_priority x acc) [] l.

Section Setup.

Variable world : backend.
Variable environ : gmap string pystr.

Definition _check_ollama_availability : io bool :=
  try_except
    (let ollama_url := getenv_or environ "OLLAMA_BASE_URL" (py "http://localhost:11434") in
     let health_url := replace ollama_url (py "/v1") [] ++ py "/api/tags" in
     response ← http_get world health_url;
     if (status_code response =? 200)%Z then
       body ← lift (response_json response);
       models ← lift (json_get body (py "models") (JArr []));
       if truthy models then
         (* the log line formats len(models) *)
         _ ← lift (py_len models);
         mret true
       else mret false
     else mret false)
    (fun e => mret false).

(** The body of the loop of [_setup_providers] for one provider; the result
    is [self.available_providers] after it. *)
Definition setup_provider (available : list provider)
    (provider_name : pystr) (cfg : provider_config) : io (list provider) :=
  if str_eqb provider_name (py "ollama") then
    ok ← _check_ollama_availability;
    if ok : bool then
      try_except
        (c ← OpenAI world (py "ollama") (base_url cfg);
         mret (available ++ [ {| name := provider_name; config := cfg;
                                 client := Some c; ptype := openai_compatible |} ]))
        (fun e => mret available)
    else mret available
  else
    match api_key cfg with
    | Some key =>
        if negb (str_eqb key []) && negb (str_eqb key (py "your_api_key_here")) then
          try_except
            (if str_eqb provider_name (py "huggingface") then
               mret (available ++ [ {| name := provider_name; config := cfg;
                                       client := None; ptype := huggingface |} ])
             else if openai_installed world then
               c ← OpenAI world key (base_url cfg);
               mret (available ++ [ {| name := provider_name; config := cfg;
                                       client := Some c; ptype := openai_compatible |} ])
             else mret available)
            (fun e => mret available)
        else mret available
    | None => mret available
    end.

Fixpoint setup_loop (sorted_providers : list (pystr * provider_config))
    (available : list provider) : io (list provider) :=
  match sorted_providers with
  | [] => mret available
  | (provider_name, cfg) :: rest =>
      available' ← setup_provider available provider_name cfg;
      setup_loop rest available'
  end.

Definition _setup_providers : io (list provider) :=
  setup_loop (sorted_by_priority (providers environ)) [].

End Setup.

(** ** The analyzer *)

(** A news item and an analysis are Python dictionaries.  The fields of a
    news item are strings; an analysis may carry any decoded value. *)
Abbreviation article := (gmap string pystr).
Abbreviation analysis := (gmap string json).

(** [d.get(key, dflt)] *)
Definition dict_get (d : gmap string pystr) (key : string) (dflt : pystr) : pystr :=
  default dflt (d !! key).

(** [sum(1 for x in l if p(x))] *)
Fixpoint count_if {A} (p : A -> bool) (l : list A) : nat :=
  match l with
  | [] => 0
  | x :: l' => ((if p x then 1 else 0) + count_if p l')%nat
  end.

(** [any(p(x) for x in l)] *)
Definition any {A} (p : A -> bool) (l : list A) : bool := existsb p l.

(** [x in l] for a list of strings *)
Definition str_in (x : pystr) (l : list pystr) : bool := existsb (str_eqb x) l.

(** A string where the code needs one: a method call on [None] raises. *)
Definition require_str (v : option pystr) : exn + pystr :=
  match v with
  | Some s => inr s
  | None => inl AttributeError
  end.

(** [provider['client'].chat]: the Hugging Face entry has no client. *)
Definition require_client (p : provider) : exn + OpenAI_client :=
  match client p with
  | Some c => inr c
  | None => inl AttributeError
  end.

(** An optional string inside an f-string. *)
Definition format_opt (v : option pystr) : pystr := default (py "None") v.

Definition portuguese_words : list pystr :=
  map py ["de"; "da"; "do"; "para"; "com"; "em"; "por"; "uma"; "um"; "que";
          "não"; "são"; "como"; "mais"; "sobre"; "pela"; "pelo"].

Definition high_relevance_keywords : list pystr :=
  map py ["openai"; "chatgpt"; "claude"; "gemini"; "breakthrough";
          "revolutionary"; "billion"; "funding"; "ipo"; "acquisition"].

Definition medium_relevance_keywords : list pystr :=
  map py ["ai"; "artificial intelligence"; "machine learning"; "deep learning";
          "neural"; "algorithm"; "automation"; "robot"].

Definition low_relevance_keywords : list pystr :=
  map py ["update"; "minor"; "patch"; "bug"; "fix"].

Definition section_markers : list pystr :=
  map py ["RESUMO EXECUTIVO"; "PONTOS-CHAVE"; "PONTOS CHAVE";
          "NÍVEL DE RELEVÂNCIA"; "NIVEL DE RELEVANCIA"].

Definition analyst_persona : pystr :=
  py "Você é um analista especializado em inteligência artificial e tecnologia. Sua tarefa é analisar notícias sobre IA e fornecer insights específicos para desenvolvedores de software e empresas do ramo imobiliário/shopping centers. Responda sempre em português brasileiro.".

Definition translator_persona : pystr :=
  py "Você é um tradutor. Traduza para português brasileiro.".

(** The fixed parts of the analysis prompt. *)
Definition prompt_head : pystr :=
  py "
Analise a seguinte notícia sobre inteligência artificial e tecnologia:

**Título:** ".

Definition prompt_middle : pystr :=
  py "

**Conteúdo:** ".

Definition prompt_tail : pystr :=
  py "

Por favor, forneça uma análise estruturada seguindo EXATAMENTE este formato (mantenha os cabeçalhos):

## RESUMO EXECUTIVO
[Resumo da notícia, em português brasileiro]

## PONTOS-CHAVE
[3-5 pontos principais desta notícia em formato de lista]

## NÍVEL DE RELEVÂNCIA
[Alto/Médio/Baixo] - [Justificativa em uma frase]

IMPORTANTE: Responda sempre em português brasileiro e mantenha exatamente os cabeçalhos mostrados acima.
".

Definition _create_analysis_prompt (news_item : article) : pystr :=
  let title := dict_get news_item "title" (py "N/A") in
  let content := dict_get news_item "content" (dict_get news_item "summary" (py "N/A")) in
  prompt_head ++ title ++ prompt_middle ++ content ++ prompt_tail.

(** The translation prompt around the title and the summary. *)
Definition translation_prompt (title summary : pystr) : pystr :=
  py "
Traduza para português brasileiro:

TÍTULO: " ++ title ++ py "
RESUMO: " ++ summary ++ py "

Responda apenas:
TÍTULO_TRADUZIDO: [título em português]
RESUMO_TRADUZIDO: [resumo em português]
".

(** The loop over the lines of the translation: the pair is
    [(translated_title, translated_summary)]. *)
Definition translation_line (acc : pystr * pystr) (line : pystr) : pystr * pystr :=
  if startswith line (py "TÍTULO_TRADUZIDO:") then
    (strip (replace line (py "TÍTULO_TRADUZIDO:") []), snd acc)
  else if startswith line (py "RESUMO_TRADUZIDO:") then
    (fst acc, strip (replace line (py "RESUMO_TRADUZIDO:") []))
  else acc.

Definition parse_translation (title summary translation_text : pystr) : pystr * pystr :=
  foldl translation_line (title, summary) (split_on LF translation_text).

Section Analyzer.

Variables str_upper str_lower : pystr -> pystr.
Variable world : backend.
Variable environ : gmap string pystr.

(** [NewsAnalyzer.__init__] *)
Definition __init__ : io NewsAnalyzer :=
  available ← _setup_providers world environ;
  mret {| available_providers := available;
          analysis_enabled :=
            str_eqb (str_lower (getenv_or environ "ANALYSIS_ENABLED" (py "true"))) (py "true") |}.

Definition _is_portuguese (text : pystr) : bool :=
  let words := split_ws (str_lower text) in
  let portuguese_count := count_if (fun word => str_in word portuguese_words) words in
  (2 <=? portuguese_count)%nat || (length words <? 5)%nat.

Definition _translate_news_item_simple (self : NewsAnalyzer) (news_item : article)
    : io article :=
  let title := dict_get news_item "title" [] in
  let summary := dict_get news_item "summary" (dict_get news_item "content" []) in
  if _is_portuguese title && _is_portuguese summary then mret news_item
  else
    match available_providers self with
    | provider :: _ =>
        try_except
          (match ptype provider with
           | openai_compatible =>
               c ← lift (require_client provider);
               content ← chat_create world c
                 {| req_model := model (config provider);
                    req_system := translator_persona;
                    req_user := translation_prompt title summary;
                    req_max_tokens := 1000;
                    req_temperature := 3 |};
               translation_text ← lift (require_str content);
               let '(translated_title, translated_summary) :=
                 parse_translation title summary translation_text in
               let translated_item := news_item in
               let translated_item := <["title" := translated_title]> translated_item in
               let translated_item := <["summary" := translated_summary]> translated_item in
               mret translated_item
           | huggingface => mret news_item
           end)
          (fun e => mret news_item)
    | [] => mret news_item
    end.

(** *** The response parser *)

Definition is_resumo_heading (upper_line : pystr) : bool :=
  contains (py "## RESUMO EXECUTIVO") upper_line
  || contains (py "**RESUMO EXECUTIVO**") upper_line
  || contains (py "RESUMO EXECUTIVO") upper_line.

Definition is_pontos_heading (upper_line : pystr) : bool :=
  contains (py "## PONTOS-CHAVE") upper_line || contains (py "## PONTOS CHAVE") upper_line
  || contains (py "**PONTOS-CHAVE**") upper_line || contains (py "**PONTOS CHAVE**") upper_line
  || contains (py "PONTOS-CHAVE") upper_line || contains (py "PONTOS CHAVE") upper_line.

Definition is_nivel_heading (upper_line : pystr) : bool :=
  contains (py "## NÍVEL DE RELEVÂNCIA") upper_line
  || contains (py "## NIVEL DE RELEVANCIA") upper_line
  || contains (py "**NÍVEL DE RELEVÂNCIA**") upper_line
  || contains (py "**NIVEL DE RELEVANCIA**") upper_line
  || contains (py "NÍVEL DE RELEVÂNCIA") upper_line
  || contains (py "NIVEL DE RELEVANCIA") upper_line.

(** The state of the scan: [current_section] and [sections]. *)
Definition parser_state : Type := option string * gmap string pystr.

(** One turn of the loop over the lines. *)
Definition parse_line (st : parser_state) (raw_line : pystr) : parser_state :=
  let '(current_section, sections) := st in
  let line := strip raw_line in
  if is_resumo_heading (str_upper line) then (Some "resumo_executivo"%string, sections)
  else if is_pontos_heading (str_upper line) then (Some "pontos_chave"%string, sections)
  else if is_nivel_heading (str_upper line) then (Some "nivel_relevancia"%string, sections)
  else
    match current_section with
    | Some key =>
        if negb (str_eqb line []) && negb (startswith line (py "##"))
           && negb (startswith line (py "**"))
        then
          if negb (any (fun marker => contains marker (str_upper line)) section_markers)
          then (current_section, <[key := (sections !!! key) ++ line ++ [LF]]> sections)
          else st
        else st
    | None => st
    end.

Definition empty_sections : gmap string pystr :=
  {[ "resumo_executivo"%string := []; "pontos_chave"%string := [];
     "nivel_relevancia"%string := [] ]}.

Definition _parse_analysis_response (analysis_text : pystr) : gmap string pystr :=
  let lines := split_on LF analysis_text in
  let '(_, sections) := foldl parse_line (None, empty_sections) lines in
  strip <$> sections.

(** *** The local analysis *)

Definition _local_analysis (news_item : article) : analysis :=
  let title := dict_get news_item "title" (py "N/A") in
  let content := dict_get news_item "content" (dict_get news_item "summary" []) in
  let text_lower := str_lower (title ++ py " " ++ content) in
  let high_count :=
    count_if (fun keyword => contains keyword text_lower) high_relevance_keywords in
  let medium_count :=
    count_if (fun keyword => contains keyword text_lower) medium_relevance_keywords in
  let low_count :=
    count_if (fun keyword => contains keyword text_lower) low_relevance_keywords in
  let relevancia :=
    if (2 <=? high_count)%nat then
      py "Alto - Contém múltiplas palavras-chave de alta relevância"
    else if (1 <=? high_count)%nat || (3 <=? medium_count)%nat then
      py "Médio - Relevância moderada para o setor de IA"
    else if (1 <=? medium_count)%nat then
      py "Médio - Relacionado à inteligência artificial"
    else
      py "Baixo - Relevância limitada para IA" in
  let pontos_chave : list pystr := [] in
  let pontos_chave :=
    if contains (py "openai") text_lower || contains (py "chatgpt") text_lower
    then pontos_chave ++ [py "• Desenvolvimento em OpenAI/ChatGPT"] else pontos_chave in
  let pontos_chave :=
    if contains (py "google") text_lower || contains (py "gemini") text_lower
    then pontos_chave ++ [py "• Inovação do Google em IA"] else pontos_chave in
  let pontos_chave :=
    if contains (py "microsoft") text_lower
    then pontos_chave ++ [py "• Iniciativa da Microsoft"] else pontos_chave in
  let pontos_chave :=
    if contains (py "funding") text_lower || contains (py "investment") text_lower
    then pontos_chave ++ [py "• Movimentação de investimentos"] else pontos_chave in
  let pontos_chave :=
    if contains (py "enterprise") text_lower || contains (py "business") text_lower
    then pontos_chave ++ [py "• Aplicação empresarial"] else pontos_chave in
  let pontos_chave :=
    if contains (py "developer") text_lower || contains (py "api") text_lower
    then pontos_chave ++ [py "• Ferramentas para desenvolvedores"] else pontos_chave in
  let pontos_chave :=
    match pontos_chave with
    | [] => [py "• Notícia relacionada à inteligência artificial";
             py "• Potencial impacto no setor de tecnologia";
             py "• Relevante para acompanhamento do mercado"]
    | _ => pontos_chave
    end in
  let resumo := py "Análise local da notícia: " ++ title ++ py ". " in
  let resumo :=
    if (0 <? high_count)%nat then
      resumo ++ py "Esta notícia apresenta desenvolvimentos significativos em IA com potencial impacto no mercado. "
    else if (0 <? medium_count)%nat then
      resumo ++ py "Esta notícia aborda temas relevantes de inteligência artificial. "
    else
      resumo ++ py "Esta notícia tem conexão com tecnologia e pode ser de interesse. " in
  let resumo :=
    resumo ++ py "Recomenda-se acompanhamento para avaliar oportunidades de aplicação em negócios e desenvolvimento." in
  {[ "resumo_executivo"%string := JStr resumo;
     "pontos_chave"%string := JStr (join [LF] pontos_chave);
     "nivel_relevancia"%string := JStr relevancia;
     "titulo_traduzido"%string := JStr title;
     "resumo_traduzido"%string :=
       JStr (dict_get news_item "summary" (py "Resumo não disponível"));
     "metodo_analise"%string := JStr (py "local") ]}.

(** *** The two provider paths *)

Definition _analyze_with_openai_compatible (self : NewsAnalyzer) (news_item : article)
    (provider : provider) : io (option analysis) :=
  translated_item ←
    (if negb (str_eqb (name provider) (py "ollama"))
     then _translate_news_item_simple self news_item
     else mret news_item);
  let prompt := _create_analysis_prompt translated_item in
  let max_tokens := if str_eqb (name provider) (py "ollama") then 1500%Z else 2000%Z in
  let temperature := if str_eqb (name provider) (py "ollama") then 5%Z else 7%Z in
  c ← lift (require_client provider);
  content ← chat_create world c
    {| req_model := model (config provider);
       req_system := analyst_persona;
       req_user := prompt;
       req_max_tokens := max_tokens;
       req_temperature := temperature |};
  analysis_text ← lift (require_str content);
  let parsed_analysis : analysis := JStr <$> _parse_analysis_response analysis_text in
  let parsed_analysis :=
    <["titulo_traduzido"%string :=
        JStr (dict_get translated_item "title" (dict_get news_item "title" []))]>
      parsed_analysis in
  let parsed_analysis :=
    <["resumo_traduzido"%string :=
        JStr (dict_get translated_item "summary" (dict_get news_item "summary" []))]>
      parsed_analysis in
  let parsed_analysis :=
    <["provedor_usado"%string := JStr (name provider)]> parsed_analysis in
  mret (Some parsed_analysis).

(** [analysis_text[:200] + '...' if len(analysis_text) > 200 else analysis_text] *)
Definition hf_resumo (analysis_text : json) : exn + json :=
  match py_len analysis_text with
  | inl e => inl e
  | inr n =>
      if (200 <? n)%nat then
        match analysis_text with
        | JStr s => inr (JStr (slice_to 200 s ++ py "..."))
        | _ => inl TypeError
        end
      else inr analysis_text
  end.

Definition _analyze_with_huggingface (news_item : article) (provider : provider)
    : io (option analysis) :=
  let authorization := py "Bearer " ++ format_opt (api_key (config provider)) in
  let title := dict_get news_item "title" [] in
  let content :=
    slice_to 500 (dict_get news_item "content" (dict_get news_item "summary" [])) in
  let prompt := py "Analise esta notícia de IA: " ++ title ++ py ". " ++ content in
  let api_url := base_url (config provider) ++ py "/" ++ model (config provider) in
  response ← http_post world api_url authorization prompt;
  if (status_code response =? 200)%Z then
    result ← lift (response_json response);
    match result with
    | JArr (first :: _) =>
        analysis_text ← lift (json_get first (py "generated_text") (JStr []));
        resumo ← lift (hf_resumo analysis_text);
        mret (Some
          ({[ "resumo_executivo"%string := resumo;
              "pontos_chave"%string :=
                JStr (py "• Análise via Hugging Face
• Conteúdo processado automaticamente
• Relevante para IA e tecnologia");
              "nivel_relevancia"%string :=
                JStr (py "Médio - Análise automática via Hugging Face");
              "titulo_traduzido"%string := JStr title;
              "resumo_traduzido"%string :=
                JStr (dict_get news_item "summary" (py "Resumo não disponível")) ]}
           : analysis))
    | _ => mret None
    end
  else mret None.

(** *** The fallback loop *)

(** [if result:] on what a provider path returned. *)
Definition result_truthy (result : option analysis) : bool :=
  match result with
  | Some r => bool_decide (r ≠ ∅)
  | None => false
  end.

(** The rate-limit test of the handler; both of its branches go on to the
    next provider. *)
Definition is_rate_limit (e : exn) : bool :=
  contains (py "429") (exn_msg e) || contains (py "rate") (str_lower (exn_msg e)).

(** The analysis path of a provider, by its type. *)
Definition analyze_with (self : NewsAnalyzer) (news_item : article) (provider : provider)
    : io (option analysis) :=
  match ptype provider with
  | huggingface => _analyze_with_huggingface news_item provider
  | openai_compatible => _analyze_with_openai_compatible self news_item provider
  end.

(** The [try] block of one turn of the loop: [Some r] when the turn returns
    [r], [None] when the loop goes on. *)
Definition try_provider (self : NewsAnalyzer) (news_item : article) (provider : provider)
    : io (option analysis) :=
  try_except
    (emit (EvTrying (name provider));;
     result ← analyze_with self news_item provider;
     if result_truthy result then mret result else mret None)
    (fun e => if is_rate_limit e then mret None else mret None).

Fixpoint try_providers (self : NewsAnalyzer) (news_item : article)
    (remaining : list provider) : io analysis :=
  match remaining with
  | [] => mret (_local_analysis news_item)
  | provider :: rest =>
      outcome ← try_provider self news_item provider;
      match outcome with
      | Some result => mret result
      | None => try_providers self news_item rest
      end
  end.

Definition analyze_news (self : NewsAnalyzer) (news_item : article) : io analysis :=
  if negb (analysis_enabled self) then mret (_local_analysis news_item)
  else try_providers self news_item (available_providers self).

End Analyzer.

(** ** Vocabulary of the properties *)

(** Reads a field of a dictionary written as a chain of insertions. *)
Ltac read_field :=
  repeat (rewrite lookup_insert_ne by discriminate);
  first [rewrite lookup_insert_eq | rewrite lookup_singleton_eq
        | rewrite lookup_singleton_ne by discriminate | rewrite lookup_empty].

(** The address the health check queries. *)
Definition health_url (environ : gmap string pystr) : pystr :=
  replace (getenv_or environ "OLLAMA_BASE_URL" (py "http://localhost:11434")) (py "/v1") []
    ++ py "/api/tags".

(** The response lists at least one installed model. *)
Definition reports_models (resp : http_response) : Prop :=
  ∃ body models n,
    response_json resp = inr body ∧
    json_get body (py "models") (JArr []) = inr models ∧
    py_len models = inr n ∧ (0 < n)%nat.

(** The response decodes and lists no model at all. *)
Definition zero_models (resp : http_response) : Prop :=
  ∃ body, response_json resp = inr body
          ∧ json_get body (py "models") (JArr []) = inr (JArr []).

Definition no_ollama (ps : list provider) : Prop :=
  ∀ p, p ∈ ps → name p ≠ py "ollama".

Definition section_keys : list string :=
  ["resumo_executivo"; "pontos_chave"; "nivel_relevancia"]%string.

(** The heading test the parser applies for each section. *)
Definition heading_of (key : string) (upper_line : pystr) : bool :=
  if decide (key = "resumo_executivo"%string) then is_resumo_heading upper_line
  else if decide (key = "pontos_chave"%string) then is_pontos_heading upper_line
  else if decide (key = "nivel_relevancia"%string) then is_nivel_heading upper_line
  else false.

(** No line of the text is a heading of the section. *)
Definition heading_never_occurs (str_upper : pystr → pystr) (key : string)
    (text : pystr) : Prop :=
  ∀ line, line ∈ split_on LF text → heading_of key (str_upper (strip line)) = false.

(** The cursor names a section and the three sections are there. *)
Definition cursor_ok (st : parser_state) : Prop :=
  (∀ key, st.1 = Some key → key ∈ section_keys)
  ∧ dom st.2 = list_to_set section_keys.

(** The scan has neither entered the section nor written to it. *)
Definition untouched (key : string) (st : parser_state) : Prop :=
  st.1 ≠ Some key ∧ st.2 !! key = Some [].

(** A line the parser takes for a section heading. *)
Definition is_heading_line (str_upper : pystr → pystr) (line : pystr) : bool :=
  is_resumo_heading (str_upper line) || is_pontos_heading (str_upper line)
  || is_nivel_heading (str_upper line).

(** The lines of a text that open a [##] heading. *)
Definition heading_lines (text : pystr) : list pystr :=
  List.filter (λ l, startswith l (py "##")) (split_on LF text).

(** The text the local analysis searches, and how many keywords of a list
    occur in it. *)
Definition text_lower_of (str_lower : pystr → pystr) (news_item : article) : pystr :=
  str_lower (dict_get news_item "title" (py "N/A") ++ py " "
             ++ dict_get news_item "content" (dict_get news_item "summary" [])).

Definition keyword_count (keywords : list pystr) (text : pystr) : nat :=
  count_if (λ keyword, contains keyword text) keywords.

Inductive level := Alto | Medio | Baixo.

(** The level a relevance text begins with. *)
Definition level_of (relevancia : pystr) : option level :=
  if startswith relevancia (py "Alto") then Some Alto
  else if startswith relevancia (py "Médio") then Some Medio
  else if startswith relevancia (py "Baixo") then Some Baixo
  else None.

(** The classification rule in the words of the specification, by
    priority. *)
Definition classify (high_count medium_count : nat) : level :=
  if (2 <=? high_count)%nat then Alto
  else if (1 <=? high_count)%nat || (3 <=? medium_count)%nat then Medio
  else if (1 <=? medium_count)%nat then Medio
  else Baixo.

(** Which of the six key-point triggers fire on a text. *)
Definition trigger_flags (text_lower : pystr) : list bool :=
  [ contains (py "openai") text_lower || contains (py "chatgpt") text_lower;
    contains (py "google") text_lower || contains (py "gemini") text_lower;
    contains (py "microsoft") text_lower;
    contains (py "funding") text_lower || contains (py "investment") text_lower;
    contains (py "enterprise") text_lower || contains (py "business") text_lower;
    contains (py "developer") text_lower || contains (py "api") text_lower ].

(** The relevance text for given counts of high and medium keywords. *)
Definition relevancia_text (high_count medium_count : nat) : pystr :=
  if (2 <=? high_count)%nat then
    py "Alto - Contém múltiplas palavras-chave de alta relevância"
  else if (1 <=? high_count)%nat || (3 <=? medium_count)%nat then
    py "Médio - Relevância moderada para o setor de IA"
  else if (1 <=? medium_count)%nat then
    py "Médio - Relacionado à inteligência artificial"
  else
    py "Baixo - Relevância limitada para IA".

(** A line of a translation that carries one of the two labels. *)
Definition is_label_line (line : pystr) : bool :=
  startswith line (py "TÍTULO_TRADUZIDO:") || startswith line (py "RESUMO_TRADUZIDO:").

(** No line of the text carries the label. *)
Definition label_missing (label text : pystr) : Prop :=
  ∀ line, line ∈ split_on LF text → startswith line label = false.

(** The last line of the text that starts with the label, if there is
    one. *)
Definition labelled_line (label text : pystr) : option pystr :=
  last (List.filter (λ line, startswith line label) (split_on LF text)).

(** What a line gives for its label: the line without the label, with no
    white space around it. *)
Definition label_value (label line : pystr) : pystr := strip (replace line label []).

(** The request the translation step sends. *)
Definition translation_request (p : provider) (title summary : pystr) : chat_request :=
  {| req_model := model (config p);
     req_system := translator_persona;
     req_user := translation_prompt title summary;
     req_max_tokens := 1000;
     req_temperature := 3 |}.

(** The record holds the three sections of an analysis. *)
Definition has_sections (r : analysis) : Prop :=
  is_Some (r !! "resumo_executivo"%string)
  ∧ is_Some (r !! "pontos_chave"%string)
  ∧ is_Some (r !! "nivel_relevancia"%string).

(** The providers the loop has entered, in order. *)
Fixpoint tried (tr : trace) : list pystr :=
  match tr with
  | [] => []
  | EvTrying n :: tr' => n :: tried tr'
  | _ :: tr' => tried tr'
  end.

(** How many generation calls a client has received. *)
Definition chat_calls (c : OpenAI_client) (tr : trace) : nat :=
  count_if (λ e, match e with
                 | EvChat c' _ => str_eqb (client_base_url c') (client_base_url c)
                                  && str_eqb (client_api_key c') (client_api_key c)
                 | _ => false
                 end) tr.

(** A computation that records no entry of the loop. *)
Definition quiet {A} (m : io A) : Prop :=
  ∀ tr, ∃ evs, (m tr).1 = tr ++ evs ∧ tried evs = [].

(** A computation that never raises. *)
Definition returns {A} (m : io A) : Prop :=
  ∀ tr, ∃ tr' x, m tr = (tr', inr x).

Section Attempts.

Variables str_upper str_lower : pystr → pystr.
Variable world : backend.
Variable self : NewsAnalyzer.
Variable news_item : article.

(** The trace once the loop has gone through a provider. *)
Definition trace_after (p : provider) (tr : trace) : trace :=
  (analyze_with str_upper str_lower world self news_item p (tr ++ [EvTrying (name p)])).1.

(** Invoking the provider fails: its path raises or returns an empty
    result. *)
Definition provider_fails (p : provider) (tr : trace) : Prop :=
  match analyze_with str_upper str_lower world self news_item p
          (tr ++ [EvTrying (name p)]) with
  | (_, inl _) => True
  | (_, inr result) => result_truthy result = false
  end.

(** Invoking the provider succeeds with the record [r]. *)
Definition provider_succeeds (p : provider) (tr : trace) (r : analysis) : Prop :=
  (analyze_with str_upper str_lower world self news_item p
     (tr ++ [EvTrying (name p)])).2 = inr (Some r)
  ∧ r ≠ ∅.

(** Every provider of the list fails when the loop comes to it. *)
Fixpoint every_provider_fails (ps : list provider) (tr : trace) : Prop :=
  match ps with
  | [] => True
  | p :: rest => provider_fails p tr ∧ every_provider_fails rest (trace_after p tr)
  end.

End Attempts.

(** ** Scenarios *)

Definition connection_error : exn := Exn "ConnectionError" (py "Connection refused").
Definition rate_limit_error : exn := Exn "RateLimitError" (py "Error code: 429").

(** Nothing answers. *)
Definition world_offline : backend :=
  {| requests_get := λ _ _, inl connection_error;
     chat_completions_create := λ _ _ _, inl connection_error;
     requests_post := λ _ _ _ _, inl connection_error;
     openai_installed := true;
     openai_init := λ _ _, None |}.

(** Ollama runs and has no model installed. *)
Definition world_ollama_no_models : backend :=
  {| requests_get := λ _ _,
       inr {| status_code := 200;
              response_json := inr (JObj [(py "models", JArr [])]) |};
     chat_completions_create := λ _ _ _, inl connection_error;
     requests_post := λ _ _ _ _, inl connection_error;
     openai_installed := true;
     openai_init := λ _ _, None |}.

(** The chat back ends are rate limited and Hugging Face answers. *)
Definition world_hf_answers : backend :=
  {| requests_get := λ _ _, inl connection_error;
     chat_completions_create := λ _ _ _, inl rate_limit_error;
     requests_post := λ _ _ _ _,
       inr {| status_code := 200;
              response_json :=
                inr (JArr [JObj [(py "generated_text", JStr (py "Texto gerado"))]]) |};
     openai_installed := true;
     openai_init := λ _ _, None |}.

(** Only the Together back end answers, with a well-formed analysis. *)
Definition world_together_answers : backend :=
  {| requests_get := λ _ _, inl connection_error;
     chat_completions_create := λ _ c _,
       if str_eqb (client_base_url c) (py "https://api.together.xyz/v1")
       then inr (Some (py "## RESUMO EXECUTIVO
Um resumo.
## PONTOS-CHAVE
- um ponto
## NÍVEL DE RELEVÂNCIA
Alto - motivo"))
       else inl rate_limit_error;
     requests_post := λ _ _ _ _, inl connection_error;
     openai_installed := true;
     openai_init := λ _ _, None |}.

(** Every chat completion answers with a translation. *)
Definition world_translator : backend :=
  {| requests_get := λ _ _, inl connection_error;
     chat_completions_create := λ _ _ _,
       inr (Some (py "Aqui está:
TÍTULO_TRADUZIDO: OpenAI lança modelo
nota"));
     requests_post := λ _ _ _ _, inl connection_error;
     openai_installed := true;
     openai_init := λ _ _, None |}.

(** Nothing answers, and the constructor of the client rejects the base URL
    of OpenRouter. *)
Definition invalid_url : exn := Exn "InvalidURL" (py "Invalid URL").

Definition world_rejects_openrouter : backend :=
  {| requests_get := λ _ _, inl connection_error;
     chat_completions_create := λ _ _ _, inl connection_error;
     requests_post := λ _ _ _ _, inl connection_error;
     openai_installed := true;
     openai_init := λ _ base_url,
       if str_eqb base_url (py "https://openrouter.ai/api/v1") then Some invalid_url
       else None |}.

Definition environ_with_huggingface : gmap string pystr :=
  {[ "OPENROUTER_API_KEY"%string := py "key-a"; "GROQ_API_KEY"%string := py "key-b";
     "HUGGINGFACE_API_KEY"%string := py "key-c" ]}.

Definition environ_with_together : gmap string pystr :=
  {[ "OPENROUTER_API_KEY"%string := py "key-a"; "GROQ_API_KEY"%string := py "key-b";
     "TOGETHER_API_KEY"%string := py "key-d" ]}.

(** The analyzer [NewsAnalyzer()] builds in a world and an environment. *)
Definition analyzer_in (world : backend) (environ : gmap string pystr) : NewsAnalyzer :=
  match __init__ latin1_lower world environ [] with
  | (_, inr self) => self
  | (_, inl _) => {| available_providers := []; analysis_enabled := true |}
  end.

Definition article_english : article :=
  {[ "title"%string := py "OpenAI releases a new reasoning model today";
     "content"%string := py "The lab announced funding for developer tools.";
     "summary"%string := py "The lab announced funding for developer tools.";
     "source"%string := py "TechCrunch";
     "url"%string := py "https://example.com/a";
     "author"%string := py "Staff";
     "published_date"%string := py "2025-01-01" ]}.

(** An English title over a summary of Portuguese function words. *)
Definition article_mixed : article :=
  {[ "title"%string := py "OpenAI releases a new reasoning model today";
     "summary"%string := py "de para com" ]}.

Definition article_portuguese : article :=
  {[ "title"%string := py "Modelo novo de IA para empresas do setor";
     "summary"%string := py "Resumo curto" ]}.

Definition article_minor_update : article := {[ "title"%string := py "minor update" ]}.
Definition article_nothing_here : article := {[ "title"%string := py "nothing here" ]}.

(** Same title, and maintenance words in the content of the first only. *)
Definition article_patch_notes : article :=
  {[ "title"%string := py "Release notes"; "content"%string := py "minor patch" ]}.
Definition article_plain_notes : article :=
  {[ "title"%string := py "Release notes"; "content"%string := py "nothing new" ]}.

Definition article_two_labs : article := {[ "title"%string := py "ChatGPT and Claude" ]}.

(** The record a run returned; empty when the run raised. *)
Definition record_of (run : trace * (exn + analysis)) : analysis :=
  match run.2 with
  | inr r => r
  | inl _ => ∅
  end.

(** The providers as the set-up builds them from the environments above. *)
Definition client_openrouter : OpenAI_client :=
  {| client_api_key := py "key-a"; client_base_url := py "https://openrouter.ai/api/v1" |}.

Definition provider_openrouter : provider :=
  {| name := py "openrouter";
     config := {| api_key := Some (py "key-a");
                  base_url := py "https://openrouter.ai/api/v1";
                  model := py "meta-llama/llama-3.3-70b-instruct:free";
                  free := true; priority := 2 |};
     client := Some client_openrouter;
     ptype := openai_compatible |}.

Definition provider_groq : provider :=
  {| name := py "groq";
     config := {| api_key := Some (py "key-b");
                  base_url := py "https://api.groq.com/openai/v1";
                  model := py "llama3-8b-8192";
                  free := true; priority := 3 |};
     client := Some {| client_api_key := py "key-b";
                       client_base_url := py "https://api.groq.com/openai/v1" |};
     ptype := openai_compatible |}.

Definition provider_together : provider :=
  {| name := py "together";
     config := {| api_key := Some (py "key-d");
                  base_url := py "https://api.together.xyz/v1";
                  model := py "meta-llama/Llama-2-7b-chat-hf";
                  free := false; priority := 4 |};
     client := Some {| client_api_key := py "key-d";
                       client_base_url := py "https://api.together.xyz/v1" |};
     ptype := openai_compatible |}.

Definition provider_huggingface : provider :=
  {| name := py "huggingface";
     config := {| api_key := Some (py "key-c");
                  base_url := py "https://api-inference.huggingface.co/models";
                  model := py "microsoft/DialoGPT-medium";
                  free := true; priority := 5 |};
     client := None;
     ptype := huggingface |}.


(** ** Vocabulary of the further properties *)

(** [config['api_key'] and config['api_key'] != 'your_api_key_here'] *)
Definition key_configured (k : option pystr) : bool :=
  match k with
  | Some key => negb (str_eqb key []) && negb (str_eqb key (py "your_api_key_here"))
  | None => false
  end.

(** The client library is importable and its constructor accepts the key
    and the base URL. *)
Definition client_built (world : backend) (key base_url : pystr) : bool :=
  openai_installed world
  && match openai_init world key base_url with
     | None => true
     | Some _ => false
     end.

(** The key of a hosted provider is configured and a client is built for
    it at the base URL. *)
Definition hosted_built (world : backend) (k : option pystr) (base_url : pystr) : bool :=
  match k with
  | Some key => key_configured k && client_built world key base_url
  | None => false
  end.

(** The names the set-up puts in the chain, in the order of the priorities,
    given the outcome of the health check. *)
Definition expected_chain (world : backend) (environ : gmap string pystr)
    (ollama_ok : bool) : list pystr :=
  (if ollama_ok
      && client_built world (py "ollama")
           (getenv_or environ "OLLAMA_BASE_URL" (py "http://localhost:11434/v1"))
   then [py "ollama"] else [])
  ++ (if hosted_built world (getenv environ "OPENROUTER_API_KEY")
           (py "https://openrouter.ai/api/v1")
      then [py "openrouter"] else [])
  ++ (if hosted_built world (getenv environ "GROQ_API_KEY")
           (py "https://api.groq.com/openai/v1")
      then [py "groq"] else [])
  ++ (if hosted_built world (getenv environ "TOGETHER_API_KEY")
           (py "https://api.together.xyz/v1")
      then [py "together"] else [])
  ++ (if key_configured (getenv environ "HUGGINGFACE_API_KEY")
      then [py "huggingface"] else []).

(** A provider as the set-up builds them: only the Hugging Face entry has
    the Hugging Face type, and it alone has no client. *)
Definition well_built (p : provider) : Prop :=
  (ptype p = huggingface ↔ name p = py "huggingface")
  ∧ (ptype p = openai_compatible → is_Some (client p)).

(** A computation that records no entry of the loop and at most [n] calls. *)
Definition at_most {A} (n : nat) (m : io A) : Prop :=
  ∀ tr, ∃ evs, (m tr).1 = tr ++ evs ∧ tried evs = [] ∧ (length evs ≤ n)%nat.

(** The lines of a section the parser keeps. *)
Definition kept_line (line : pystr) : bool :=
  negb (str_eqb (strip line) []) && negb (startswith (strip line) (py "##"))
  && negb (startswith (strip line) (py "**")).

(** What the lines of a section add to its accumulator. *)
Definition section_body (lines : list pystr) : pystr :=
  concat (map (λ line, strip line ++ [LF]) (List.filter kept_line lines)).

(** The bullets of the local analysis, by trigger, in the order of the
    checks. *)
Definition trigger_bullets : list pystr :=
  [ py "• Desenvolvimento em OpenAI/ChatGPT";
    py "• Inovação do Google em IA";
    py "• Iniciativa da Microsoft";
    py "• Movimentação de investimentos";
    py "• Aplicação empresarial";
    py "• Ferramentas para desenvolvedores" ].

Definition generic_bullets : list pystr :=
  [ py "• Notícia relacionada à inteligência artificial";
    py "• Potencial impacto no setor de tecnologia";
    py "• Relevante para acompanhamento do mercado" ].

(** The bullets whose trigger fired. *)
Fixpoint fired_bullets (flags : list bool) (bullets : list pystr) : list pystr :=
  match flags, bullets with
  | true :: flags', b :: bullets' => b :: fired_bullets flags' bullets'
  | false :: flags', _ :: bullets' => fired_bullets flags' bullets'
  | _, _ => []
  end.

(** The sentences of the executive summary of the local analysis. *)
Definition clause_significant : pystr :=
  py "Esta notícia apresenta desenvolvimentos significativos em IA com potencial impacto no mercado. ".
Definition clause_relevant : pystr :=
  py "Esta notícia aborda temas relevantes de inteligência artificial. ".
Definition clause_connection : pystr :=
  py "Esta notícia tem conexão com tecnologia e pode ser de interesse. ".
Definition closing_recommendation : pystr :=
  py "Recomenda-se acompanhamento para avaliar oportunidades de aplicação em negócios e desenvolvimento.".

(** The prompt the Hugging Face path posts. *)
Definition huggingface_inputs (news_item : article) : pystr :=
  py "Analise esta notícia de IA: " ++ dict_get news_item "title" [] ++ py ". "
  ++ slice_to 500 (dict_get news_item "content" (dict_get news_item "summary" [])).

(** The record holds a translated title and a translated summary. *)
Definition has_translations (r : analysis) : Prop :=
  is_Some (r !! "titulo_traduzido"%string) ∧ is_Some (r !! "resumo_traduzido"%string).

(** *** Further scenarios *)

Definition client_ollama : OpenAI_client :=
  {| client_api_key := py "ollama"; client_base_url := py "http://localhost:11434/v1" |}.

Definition provider_ollama : provider :=
  {| name := py "ollama";
     config := {| api_key := Some (py "local");
                  base_url := py "http://localhost:11434/v1";
                  model := py "llama3:latest";
                  free := true; priority := 1 |};
     client := Some client_ollama;
     ptype := openai_compatible |}.

Definition analyzer_ollama_only : NewsAnalyzer :=
  {| available_providers := [provider_ollama]; analysis_enabled := true |}.

(** An answer with a preamble and the three headed sections. *)
Definition well_formed_answer : pystr :=
  py "Segue a análise:
## RESUMO EXECUTIVO
Um resumo.

## PONTOS-CHAVE
- um ponto
- outro ponto
## NÍVEL DE RELEVÂNCIA
Alto - motivo".

(** ** The page generator and the main loop

    [HTMLGenerator] of [src/html_generator.py] and the loop of [main] in
    [main.py], which feed on the records of the analyzer. *)

(** [s.split(sep)] for a separator of one character or more. *)
Fixpoint split_str_from (sep : pystr) (skip : nat) (cur : pystr) (s : pystr)
    : list pystr :=
  match s with
  | [] => [rev cur]
  | c :: s' =>
      match skip with
      | S k => split_str_from sep k cur s'
      | O =>
          if startswith s sep
          then rev cur :: split_str_from sep (length sep - 1)%nat [] s'
          else split_str_from sep 0 (c :: cur) s'
      end
  end.

Definition split_str (s sep : pystr) : list pystr := split_str_from sep 0 [] s.

(** The separator the formatter splits on: a backslash and the letter n. *)
Definition backslash_n : pystr := [92; 110].

(** The list items the formatter makes of the lines. *)
Definition formatted_lines (pontos_chave : pystr) : list pystr :=
  let lines := split_str pontos_chave backslash_n in
  foldl (λ formatted_lines line,
           let line := strip line in
           if negb (str_eqb line [])
              && (startswith line (py "•") || startswith line (py "-"))
           then
             let text := strip (drop 1 line) in
             formatted_lines ++ [py "<li>" ++ text ++ py "</li>"]
           else formatted_lines)
        [] lines.

Definition _format_pontos_chave (pontos_chave : pystr) : pystr :=
  if str_eqb pontos_chave [] then py "<p>Pontos-chave não disponíveis</p>"
  else
    match formatted_lines pontos_chave with
    | [] => py "<p>" ++ pontos_chave ++ py "</p>"
    | items => py "<ul>" ++ concat items ++ py "</ul>"
    end.

(** The relevance of a card in [_generate_news_cards]: the class, the icon
    and the colour.  A relevance that is no string has no [lower]. *)
Definition card_relevancia (str_lower : pystr → pystr) (analysis : gmap string json)
    : exn + (pystr * pystr * pystr) :=
  match default (JStr (py "Médio")) (analysis !! "nivel_relevancia"%string) with
  | JStr s =>
      let relevancia := str_lower s in
      if contains (py "alto") relevancia
      then inr (py "alto", py "fas fa-fire", py "#e74c3c")
      else if contains (py "baixo") relevancia
      then inr (py "baixo", py "fas fa-leaf", py "#95a5a6")
      else inr (py "medio", py "fas fa-star", py "#f39c12")
  | _ => inl AttributeError
  end.

(** An item with its analysis, [{**news, 'analysis': analysis}]: the fields
    of the item other than [analysis], and the record under that key. *)
Record analyzed_item := {
  item_fields : gmap string pystr;
  item_analysis : gmap string json }.

Definition with_analysis (news : article) (analysis : gmap string json) : analyzed_item :=
  {| item_fields := delete "analysis"%string news; item_analysis := analysis |}.

Section Main.

Variables str_upper str_lower : pystr → pystr.
Variable world : backend.
Variable news_analyzer : NewsAnalyzer.

(** The loop of [main] over [news_data]; the accumulator is
    [analyzed_news]. *)
Fixpoint analyze_all (news_data : list article) (analyzed_news : list analyzed_item)
    : io (list analyzed_item) :=
  match news_data with
  | [] => mret analyzed_news
  | news :: rest =>
      analyzed_news' ←
        try_except
          (analysis ← analyze_news str_upper str_lower world news_analyzer news;
           if bool_decide (analysis ≠ ∅)
           then mret (analyzed_news ++ [with_analysis news analysis])
           else mret analyzed_news)
          (fun e => mret analyzed_news);
      analyze_all rest analyzed_news'
  end.

End Main.

(** The class of a level on the page. *)
Definition class_of_level (l : level) : pystr :=
  match l with
  | Alto => py "alto"
  | Medio => py "medio"
  | Baixo => py "baixo"
  end.

(** The record keeps its relevance as a string. *)
Definition relevance_is_text (r : gmap string json) : Prop :=
  ∃ s, r !! "nivel_relevancia"%string = Some (JStr s).


(** ** The crawlers

    [BaseCrawler] of [sources/base_crawler.py] and the sources built on it.
    The HTML parser and the feed parser are libraries: a page or a feed is
    given by what the queries of the code find in it. *)

(** [BaseCrawler.clean_text] *)
Definition clean_text (text : pystr) : pystr :=
  if str_eqb text [] then []
  else
    let text := join (py " ") (split_ws text) in
    strip text.

(** The dictionary every [extract_article_content] returns. *)
Definition extracted (title content author published_date : pystr) : article :=
  {[ "title"%string := title;
     "content"%string := slice_to 2000 content;
     "author"%string := author;
     "published_date"%string := published_date;
     "summary"%string :=
       if (300 <? length content)%nat then slice_to 300 content ++ py "..."
       else content ]}.

(** An article page of TechCrunch: the text of the heading, the texts of
    the paragraphs of the content element once scripts, styles, asides and
    navigation are removed, the [datetime] attribute of the date element,
    and the text of the author element, each [None] when it is not found. *)
Record techcrunch_page := {
  tc_title_elem : option pystr;
  tc_content_elem : option (list pystr);
  tc_date_elem : option (option pystr);
  tc_author_elem : option pystr }.

(** [TechCrunchCrawler.extract_article_content], on the answer of
    [make_request]. *)
Definition techcrunch_extract_article_content (response : option techcrunch_page)
    : option article :=
  match response with
  | None => None
  | Some soup =>
      let title :=
        match tc_title_elem soup with
        | Some t => clean_text t
        | None => py "Título não encontrado"
        end in
      let content :=
        match tc_content_elem soup with
        | Some paragraphs => join (py " ") (map clean_text paragraphs)
        | None => py "Conteúdo não encontrado"
        end in
      let published_date :=
        match tc_date_elem soup with
        | Some (Some d) => if negb (str_eqb d []) then d else py "Data não encontrada"
        | _ => py "Data não encontrada"
        end in
      let author :=
        match tc_author_elem soup with
        | Some a => clean_text a
        | None => py "Autor não encontrado"
        end in
      Some (extracted title content author published_date)
  end.

(** An article page of a feed source (MIT Technology Review, VentureBeat):
    as above, with the paragraphs of the whole page for the fallback, and
    the [datetime] attribute and the text of the date element. *)
Record feed_page := {
  page_title_elem : option pystr;
  page_content_elem : option (list pystr);
  page_paragraphs : list pystr;
  page_date_elem : option (option pystr * pystr);
  page_author_elem : option pystr }.

(** [p.get_text().strip()] as a condition *)
Definition nonblank (t : pystr) : bool := negb (str_eqb (strip t) []).

(** The paragraphs the content of a feed page is made of. *)
Definition feed_paragraphs (soup : feed_page) : list pystr :=
  match page_content_elem soup with
  | Some paragraphs => paragraphs
  | None => take 10 (page_paragraphs soup)
  end.

(** The content of a feed page, before it is cut. *)
Definition feed_content (soup : feed_page) : pystr :=
  let content :=
    join (py " ") (map clean_text (List.filter nonblank (feed_paragraphs soup))) in
  if negb (nonblank content) then py "Conteúdo não encontrado" else content.

(** [extract_article_content] of [MITTechnologyReviewCrawler] and of
    [VentureBeatCrawler], which differ in the selectors only. *)
Definition feed_extract_article_content (response : option feed_page) : option article :=
  match response with
  | None => None
  | Some soup =>
      let title :=
        match page_title_elem soup with
        | Some t => clean_text t
        | None => py "Título não encontrado"
        end in
      let content := feed_content soup in
      let published_date :=
        match page_date_elem soup with
        | Some (datetime, text) =>
            match datetime with
            | Some d =>
                if negb (str_eqb d []) then d
                else if negb (str_eqb text []) then clean_text text
                else py "Data não encontrada"
            | None =>
                if negb (str_eqb text []) then clean_text text
                else py "Data não encontrada"
            end
        | None => py "Data não encontrada"
        end in
      let author :=
        match page_author_elem soup with
        | Some a => clean_text a
        | None => py "Autor não encontrado"
        end in
      Some (extracted title content author published_date)
  end.




(** An entry of a parsed feed: an attribute that is not there is [None]. *)
Record feed_entry := {
  entry_title : option pystr;
  entry_link : option pystr;
  entry_summary : option pystr }.

Definition mit_ai_keywords : list pystr :=
  [py "artificial intelligence"; py "ai"; py "machine learning"; py "deep learning";
   py "neural network"; py "chatgpt"; py "openai"; py "llm"; py "large language model";
   py "generative ai"; py "automation"; py "robot"; py "algorithm"; py "data science";
   py "computer vision"; py "natural language"; py "nlp"; py "gpt"; py "claude";
   py "gemini"; py "anthropic"; py "microsoft ai"; py "google ai"; py "meta ai";
   py "agent"; py "ai agent"; py "autonomous"; py "intelligent system"].

Definition venturebeat_ai_keywords : list pystr :=
  [py "ai"; py "artificial intelligence"; py "machine learning"; py "llm"; py "gpt";
   py "openai"; py "anthropic"; py "claude"; py "gemini"; py "chatgpt"; py "generative";
   py "neural"; py "deep learning"].

Section Sources.

Variable str_lower : pystr → pystr.



(** The test of a feed entry against a list of keywords. *)
Definition is_ai_related (keywords : list pystr) (title : pystr) (entry : feed_entry) : bool :=
  let title := str_lower title in
  let summary := str_lower (default [] (entry_summary entry)) in
  any (λ keyword, contains keyword title || contains keyword summary) keywords.

(** The loop of [MITTechnologyReviewCrawler.get_news_urls]: an attribute
    that is not there raises. *)
Fixpoint mit_entries (entries : list feed_entry) (ai_urls : list pystr)
    : exn + list pystr :=
  match entries with
  | [] => inr ai_urls
  | entry :: rest =>
      match entry_title entry with
      | None => inl AttributeError
      | Some title =>
          if is_ai_related mit_ai_keywords title entry
          then
            match entry_link entry with
            | None => inl AttributeError
            | Some link => mit_entries rest (ai_urls ++ [link])
            end
          else mit_entries rest ai_urls
      end
  end.

(** [MITTechnologyReviewCrawler.get_news_urls], on the answer of the feed
    parser. *)
Definition mit_get_news_urls (feed : exn + list feed_entry) : list pystr :=
  match feed with
  | inl _ => []
  | inr [] => []
  | inr entries =>
      match mit_entries entries [] with
      | inr ai_urls => take 15 ai_urls
      | inl _ => []
      end
  end.

(** The loop of [VentureBeatCrawler.get_news_urls], which stops at the
    fifteenth address. *)
Fixpoint venturebeat_entries (entries : list feed_entry) (urls : list pystr) : list pystr :=
  match entries with
  | [] => urls
  | entry :: rest =>
      match entry_link entry, entry_title entry with
      | Some link, Some title =>
          if is_ai_related venturebeat_ai_keywords title entry
          then
            let urls := urls ++ [link] in
            if (15 <=? length urls)%nat then urls
            else venturebeat_entries rest urls
          else venturebeat_entries rest urls
      | _, _ => venturebeat_entries rest urls
      end
  end.

(** [VentureBeatCrawler.get_news_urls], on the answer of the feed parser. *)
Definition venturebeat_get_news_urls (feed : exn + list feed_entry) : list pystr :=
  match feed with
  | inl _ => []
  | inr [] => []
  | inr entries => venturebeat_entries entries []
  end.

End Sources.

(** [l[:n]] for an integer [n] of either sign. *)
Definition slice_to_int {A} (n : Z) (l : list A) : list A :=
  if (0 <=? n)%Z then take (Z.to_nat n) l
  else take (length l - Z.to_nat (- n))%nat l.

Section Crawl.

(** The state of the world outside, [world_state]; the two methods of the
    source; the clock. *)
Variable world_state : Type.
Variable source_name : pystr.
Variable get_news_urls : world_state → world_state * (exn + list pystr).
Variable extract_article_content :
  pystr → world_state → world_state * (exn + option article).
Variable now_isoformat : world_state → world_state * pystr.

(** The loop of [BaseCrawler.crawl] over [news_urls]. *)
Fixpoint crawl_articles (news_urls : list pystr) (articles : list article)
    (w : world_state) : world_state * list article :=
  match news_urls with
  | [] => (w, articles)
  | url :: rest =>
      let '(w, r) := extract_article_content url w in
      match r with
      | inr (Some article) =>
          if bool_decide (article ≠ ∅)
          then
            let article := <["source"%string := source_name]> article in
            let article := <["url"%string := url]> article in
            let '(w, now) := now_isoformat w in
            let article := <["crawled_at"%string := now]> article in
            crawl_articles rest (articles ++ [article]) w
          else crawl_articles rest articles w
      | inr None => crawl_articles rest articles w
      | inl _ => crawl_articles rest articles w
      end
  end.

(** [BaseCrawler.crawl] *)
Definition crawl (max_articles : Z) (w : world_state) : world_state * list article :=
  let '(w, r) := get_news_urls w in
  match r with
  | inl _ => (w, [])
  | inr [] => (w, [])
  | inr news_urls =>
      let news_urls := slice_to_int max_articles news_urls in
      crawl_articles news_urls [] w
  end.

(** The addresses [get_news_urls] finds in a state. *)
Definition found_urls (w : world_state) : list pystr :=
  match (get_news_urls w).2 with
  | inr news_urls => news_urls
  | inl _ => []
  end.

End Crawl.

Arguments crawl_articles {world_state}.
Arguments crawl {world_state}.
Arguments found_urls {world_state}.

(** A word: a non-empty run of characters that are no whitespace. *)
Definition word (w : pystr) : Prop := w ≠ [] ∧ Forall (λ c, isspace c = false) w.

(** The only whitespace of a text is the plain space. *)
Definition spaces_only (t : pystr) : Prop := Forall (λ c, isspace c = true → c = 32) t.

(** The words of a list of paragraphs. *)
Definition words_of (paragraphs : list pystr) : list pystr :=
  concat (map split_ws paragraphs).

(** An entry the loop of the MIT source cannot read. *)
Definition unreadable (str_lower : pystr → pystr) (entry : feed_entry) : bool :=
  match entry_title entry with
  | None => true
  | Some title =>
      is_ai_related str_lower mit_ai_keywords title entry
      && negb (bool_decide (is_Some (entry_link entry)))
  end.

(** The links of the entries that have a title and a link and pass the
    test. *)
Definition related_links (str_lower : pystr → pystr) (keywords : list pystr)
    (entries : list feed_entry) : list pystr :=
  omap (λ entry,
          match entry_link entry, entry_title entry with
          | Some link, Some title =>
              if is_ai_related str_lower keywords title entry then Some link else None
          | _, _ => None
          end) entries.



(** An address can be read on pages that answer [page]: its page gives a
    dictionary that is not empty. *)
Definition readable (page : pystr → exn + option article) (url : pystr) : bool :=
  match page url with
  | inr (Some article) => bool_decide (article ≠ ∅)
  | _ => false
  end.

(** *** Scenarios of the crawl *)

(** A TechCrunch page whose paragraphs carry line breaks and tabs. *)
Definition page_techcrunch : techcrunch_page :=
  {| tc_title_elem := Some (py "  OpenAI ships
   a new model ");
     tc_content_elem := Some [py "The lab  announced	funding."; []; py " More soon. "];
     tc_date_elem := Some (Some (py "2025-01-01T10:00:00+00:00"));
     tc_author_elem := None |}.

Definition article_of_page_techcrunch : article :=
  default ∅ (techcrunch_extract_article_content (Some page_techcrunch)).

(** A source of three addresses whose second page cannot be read. *)
Definition urls_three : list pystr :=
  [py "https://techcrunch.com/2025/01/01/a"; py "https://techcrunch.com/2025/01/01/b";
   py "https://techcrunch.com/2025/01/01/c"].

Definition source_three (w : nat) : nat * (exn + list pystr) := (w, inr urls_three).

Definition page_but_second (url : pystr) : exn + option article :=
  if str_eqb url (py "https://techcrunch.com/2025/01/01/b") then inl connection_error
  else inr (Some article_of_page_techcrunch).

Definition extract_but_second (url : pystr) (w : nat) : nat * (exn + option article) :=
  (S w, page_but_second url).

Definition clock_fixed (w : nat) : nat * pystr := (w, py "2025-01-02T08:00:00").

(** * Properties *)

Example analyzer_with_huggingface :
  available_providers (analyzer_in world_hf_answers environ_with_huggingface)
  = [provider_openrouter; provider_groq; provider_huggingface].
Proof. vm_compute. reflexivity. Qed.

Example analyzer_with_together :
  available_providers (analyzer_in world_together_answers environ_with_together)
  = [provider_openrouter; provider_groq; provider_together].
Proof. vm_compute. reflexivity. Qed.

(** ** The health check and the provider chain *)

Lemma truthy_len models n :
  py_len models = inr n → truthy models = bool_decide (0 < n)%nat.
Proof.
  destruct models as [| | |s|l|d]; simpl; try discriminate; intros [= <-].
  - unfold str_eqb. destruct s; [done|]. by case_bool_decide.
  - by destruct l.
  - by destruct d.
Qed.

Lemma sorted_providers environ :
  sorted_by_priority (providers environ) = providers environ.
Proof. reflexivity. Qed.

Lemma check_ollama_availability_spec world environ tr :
  ∃ b, _check_ollama_availability world environ tr
         = (tr ++ [EvGet (health_url environ)], inr b)
    ∧ (b = true ↔ ∃ resp, requests_get world tr (health_url environ) = inr resp
                     ∧ status_code resp = 200%Z ∧ reports_models resp).
Proof.
  unfold _check_ollama_availability, try_except, http_get, mbind, io_bind, lift, mret, io_ret.
  fold (health_url environ).
  destruct (requests_get world tr (health_url environ)) as [e|resp] eqn:Hget.
  { exists false. split; [done|]. split; [done|]. intros (r & ? & _); discriminate. }
  destruct (Z.eqb_spec (status_code resp) 200) as [Hs|Hs].
  2:{ exists false. split; [done|]. split; [done|]. intros (r & [= <-] & ? & _); done. }
  unfold reports_models.
  destruct (response_json resp) as [e|body] eqn:Hb.
  { exists false. split; [done|]. split; [done|].
    intros (r & [= <-] & _ & (?&?&?&?&_)); congruence. }
  destruct (json_get body (py "models") (JArr [])) as [e|models] eqn:Hm.
  { exists false. split; [done|]. split; [done|].
    intros (r & [= <-] & _ & (?&?&?&?&?&_)); congruence. }
  destruct (py_len models) as [e|n] eqn:Hl.
  { exists false. split; [by destruct (truthy models)|]. split; [done|].
    intros (r & [= <-] & _ & (?&?&?&?&?&?&_)); congruence. }
  rewrite (truthy_len _ _ Hl).
  destruct (decide (0 < n)%nat) as [Hn|Hn].
  - rewrite bool_decide_eq_true_2 by done. exists true. split; [done|]. split; [|done].
    intros _. exists resp. split; [done|]. split; [done|]. by exists body, models, n.
  - rewrite bool_decide_eq_false_2 by done. exists false. split; [done|]. split; [done|].
    intros (r & [= <-] & _ & (b'&m'&n'&?&?&?&?)).
    assert (b' = body) as -> by congruence. assert (m' = models) as -> by congruence.
    assert (n' = n) as -> by congruence. lia.
Qed.

Lemma setup_provider_other world environ available provider_name cfg tr :
  provider_name ≠ py "ollama" → no_ollama available →
  ∃ ps, setup_provider world environ available provider_name cfg tr = (tr, inr ps)
        ∧ no_ollama ps.
Proof.
  intros Hne Hav. unfold setup_provider, str_eqb.
  rewrite bool_decide_eq_false_2 by done.
  assert (Happ : ∀ c t, no_ollama (available ++
     [{| name := provider_name; config := cfg; client := c; ptype := t |}])).
  { intros c t p [Hp| ->%list_elem_of_singleton]%elem_of_app; [by apply Hav|done]. }
  destruct (api_key cfg) as [key|]; [|by eexists].
  destruct (_ && _); [|by eexists].
  unfold try_except, OpenAI, mbind, io_bind, mret, io_ret.
  destruct (bool_decide (provider_name = py "huggingface")); [by eexists|].
  destruct (openai_installed world); [|by eexists].
  destruct (openai_init world key (base_url cfg)); by eexists.
Qed.

Lemma setup_loop_others world environ l : ∀ available tr,
  Forall (λ x, x.1 ≠ py "ollama") l → no_ollama available →
  ∃ ps, setup_loop world environ l available tr = (tr, inr ps) ∧ no_ollama ps.
Proof.
  induction l as [|[n cfg] l IH]; intros available tr Hl Hav; simpl.
  - by eexists.
  - inversion Hl as [|?? Hn Hl']; subst. simpl in Hn.
    destruct (setup_provider_other world environ available n cfg tr Hn Hav)
      as (ps & Hps & Hno).
    unfold mbind, io_bind. rewrite Hps. by apply IH.
Qed.

Lemma setup_without_models world environ tr resp :
  requests_get world tr (health_url environ) = inr resp →
  status_code resp = 200%Z → zero_models resp →
  ∃ ps, _setup_providers world environ tr = (tr ++ [EvGet (health_url environ)], inr ps)
        ∧ no_ollama ps.
Proof.
  intros Hget Hs (body & Hb & Hm).
  destruct (check_ollama_availability_spec world environ tr) as (b & Hc & Hiff).
  assert (b = false) as ->.
  { destruct b; [|done]. destruct Hiff as [Hiff _].
    destruct (Hiff eq_refl) as (r & Hr & _ & (b' & m' & n' & ? & ? & Hlen & ?)).
    assert (r = resp) as -> by congruence. assert (b' = body) as -> by congruence.
    assert (m' = JArr []) as -> by congruence. simpl in Hlen. injection Hlen as <-. lia. }
  unfold _setup_providers. rewrite sorted_providers.
  destruct (providers environ) as [|[n0 cfg0] rest] eqn:Hp; [discriminate|].
  assert (n0 = py "ollama") as -> by (by injection Hp).
  assert (Hrest : Forall (λ x, x.1 ≠ py "ollama") rest).
  { injection Hp as _ <-. repeat constructor; simpl; by vm_compute. }
  cbn [setup_loop]. unfold mbind at 1, io_bind at 1. unfold setup_provider at 1.
  replace (str_eqb (py "ollama") (py "ollama")) with true by reflexivity.
  unfold mbind at 1, io_bind at 1. rewrite Hc.
  unfold mret at 1, io_ret at 1.
  destruct (setup_loop_others world environ rest []
              (tr ++ [EvGet (health_url environ)]) Hrest) as (ps & Hps & Hno).
  { intros p Hp'. by apply elem_of_nil in Hp'. }
  rewrite Hps. eauto.
Qed.

(** C7.  The health check returns, and returns true exactly when the status
    query comes back with HTTP 200 and lists at least one installed model;
    it is false for a transport failure, another status, an undecodable body
    or an empty model list.  When the query comes back with 200 and no
    model, no provider named ollama is in the chain the set-up builds. *)
Theorem health_check_gates_ollama world environ tr :
  (∃ b, _check_ollama_availability world environ tr
          = (tr ++ [EvGet (health_url environ)], inr b)
     ∧ (b = true ↔ ∃ resp, requests_get world tr (health_url environ) = inr resp
                      ∧ status_code resp = 200%Z ∧ reports_models resp))
  ∧ (∀ resp, requests_get world tr (health_url environ) = inr resp →
       status_code resp = 200%Z → zero_models resp →
       ∃ ps, _setup_providers world environ tr
               = (tr ++ [EvGet (health_url environ)], inr ps)
             ∧ no_ollama ps).
Proof.
  split; [apply check_ollama_availability_spec|].
  intros resp. apply setup_without_models.
Qed.

Lemma health_check_gates_ollama_witness :
  ∃ ps, _setup_providers world_ollama_no_models ∅ []
        = ([EvGet (health_url ∅)], inr ps)
        ∧ no_ollama ps.
Proof.
  apply (proj2 (health_check_gates_ollama world_ollama_no_models ∅ [])
           {| status_code := 200;
              response_json := inr (JObj [(py "models", JArr [])]) |}).
  - reflexivity.
  - reflexivity.
  - exists (JObj [(py "models", JArr [])]). split; [reflexivity|].
    vm_compute. reflexivity.
Defined.

(** ** The response parser *)

Section Parser.

Variable str_upper : pystr → pystr.

Lemma parse_line_cursor_ok st raw : cursor_ok st → cursor_ok (parse_line str_upper st raw).
Proof.
  destruct st as [cur secs]. intros [Hc Hd]. unfold parse_line.
  destruct (is_resumo_heading _); [split; [intros k [= <-]; set_solver|done]|].
  destruct (is_pontos_heading _); [split; [intros k [= <-]; set_solver|done]|].
  destruct (is_nivel_heading _); [split; [intros k [= <-]; set_solver|done]|].
  destruct cur as [key|]; [|done].
  destruct (_ && _); [|done]. destruct (negb _); [|done].
  split; [done|]. simpl in *. rewrite dom_insert_L, Hd.
  specialize (Hc _ eq_refl). set_solver.
Qed.

Lemma parse_line_untouched key st raw :
  heading_of key (str_upper (strip raw)) = false →
  untouched key st → untouched key (parse_line str_upper st raw).
Proof.
  destruct st as [cur secs]. intros Hh [Hc Hs]. unfold parse_line, heading_of in *.
  destruct (is_resumo_heading _).
  { split; [|done]. simpl. intros [= <-]. by rewrite decide_True in Hh. }
  destruct (is_pontos_heading _).
  { split; [|done]. simpl. intros [= <-]. by rewrite decide_False, decide_True in Hh. }
  destruct (is_nivel_heading _).
  { split; [|done]. simpl. intros [= <-].
    by rewrite decide_False, decide_False, decide_True in Hh. }
  destruct cur as [k|]; [|done].
  destruct (_ && _); [|done]. destruct (negb _); [|done].
  split; [done|]. simpl in *. rewrite lookup_insert_ne; [done|congruence].
Qed.

Lemma scan_invariants lines : ∀ st,
  cursor_ok st →
  cursor_ok (foldl (parse_line str_upper) st lines)
  ∧ ∀ key, (∀ line, line ∈ lines → heading_of key (str_upper (strip line)) = false) →
           untouched key st → untouched key (foldl (parse_line str_upper) st lines).
Proof.
  induction lines as [|l lines IH]; intros st Hok; simpl; [done|].
  destruct (IH (parse_line str_upper st l) (parse_line_cursor_ok _ _ Hok)) as [IH1 IH2].
  split; [done|]. intros key Hl Hu. apply IH2.
  - intros line Hin. apply Hl. by right.
  - apply parse_line_untouched; [apply Hl; by left|done].
Qed.

Lemma empty_sections_ok : cursor_ok (None, empty_sections).
Proof.
  split; [done|]. unfold empty_sections, section_keys. cbn [fst snd].
  rewrite !dom_insert_L, dom_singleton_L. set_solver.
Qed.

Lemma empty_sections_lookup key :
  key ∈ section_keys → empty_sections !! key = Some [].
Proof.
  unfold section_keys. intros Hk.
  repeat (apply elem_of_cons in Hk as [->|Hk]); try done. by apply elem_of_nil in Hk.
Qed.

Lemma parse_sections_dom text :
  dom (_parse_analysis_response str_upper text) = list_to_set section_keys.
Proof.
  unfold _parse_analysis_response.
  destruct (scan_invariants (split_on LF text) _ empty_sections_ok) as [[_ Hd] _].
  destruct (foldl _ _ _) as [cur secs]. cbn [snd] in Hd. by rewrite dom_fmap_L.
Qed.

Lemma parse_section_default text key :
  key ∈ section_keys → heading_never_occurs str_upper key text →
  _parse_analysis_response str_upper text !! key = Some [].
Proof.
  intros Hk Hn. unfold _parse_analysis_response.
  destruct (scan_invariants (split_on LF text) _ empty_sections_ok) as [_ Hun].
  destruct (Hun key Hn) as [_ Hs].
  { split; [done|]. by apply empty_sections_lookup. }
  destruct (foldl _ _ _) as [cur secs]. cbn [snd] in Hs.
  by rewrite lookup_fmap, Hs.
Qed.

Lemma parse_has_section text key :
  key ∈ section_keys → is_Some (_parse_analysis_response str_upper text !! key).
Proof.
  intros Hk. apply elem_of_dom. rewrite parse_sections_dom.
  by apply elem_of_list_to_set.
Qed.

(** A text none of whose lines is a heading of the section, by
    computation. *)
Lemma heading_never_occurs_by_scan text key :
  forallb (λ line, negb (heading_of key (str_upper (strip line)))) (split_on LF text) = true →
  heading_never_occurs str_upper key text.
Proof.
  intros Hall line Hin. rewrite forallb_forall in Hall.
  apply list_elem_of_In, Hall in Hin. by apply negb_true_iff in Hin.
Qed.

(** C3.  For every input the parser returns a record with exactly the
    three section keys; a section whose heading occurs on no line is the
    empty string; with no heading at all the three of them are empty. *)
Theorem parse_analysis_response_total_default text :
  dom (_parse_analysis_response str_upper text) = list_to_set section_keys
  ∧ (∀ key, key ∈ section_keys → heading_never_occurs str_upper key text →
       _parse_analysis_response str_upper text !! key = Some [])
  ∧ ((∀ key, key ∈ section_keys → heading_never_occurs str_upper key text) →
       _parse_analysis_response str_upper text = empty_sections).
Proof.
  split; [apply parse_sections_dom|]. split; [apply parse_section_default|].
  intros Hall. apply map_eq. intros key.
  destruct (decide (key ∈ section_keys)) as [Hk|Hk].
  - rewrite parse_section_default by auto. symmetry. by apply empty_sections_lookup.
  - transitivity (@None pystr).
    + apply not_elem_of_dom. rewrite parse_sections_dom. by rewrite elem_of_list_to_set.
    + symmetry. apply not_elem_of_dom.
      pose proof (proj2 empty_sections_ok) as Hd. cbn [snd] in Hd.
      rewrite Hd. by rewrite elem_of_list_to_set.
Qed.

Lemma heading_free_no_marker line :
  is_heading_line str_upper line = false →
  any (λ marker, contains marker (str_upper line)) section_markers = false.
Proof.
  unfold is_heading_line, is_resumo_heading, is_pontos_heading, is_nivel_heading.
  intros H.
  repeat match goal with Ho : _ || _ = false |- _ => apply orb_false_elim in Ho as [? ?] end.
  unfold any, section_markers. cbn [map existsb].
  repeat match goal with Hc : contains _ _ = false |- _ => rewrite Hc; clear Hc end.
  done.
Qed.

(** C4, as amended.  With a section active, a non-empty line that is not a
    heading line is appended to that section with a newline after it, unless
    it starts with [##] or [**], in which case it is dropped; a heading-free
    line holds no marker phrase, so the marker test drops nothing more. *)
Theorem parse_line_appends_or_drops key sections raw :
  strip raw ≠ [] → is_heading_line str_upper (strip raw) = false →
  parse_line str_upper (Some key, sections) raw =
    if startswith (strip raw) (py "##") || startswith (strip raw) (py "**")
    then (Some key, sections)
    else (Some key, <[key := (sections !!! key) ++ strip raw ++ [LF]]> sections).
Proof.
  intros Hne Hh. unfold parse_line. rewrite (heading_free_no_marker _ Hh).
  unfold is_heading_line in Hh.
  apply orb_false_elim in Hh as [Hh Hn]. apply orb_false_elim in Hh as [Hr Hp].
  rewrite Hr, Hp, Hn. unfold str_eqb. rewrite bool_decide_eq_false_2 by done.
  simpl negb at 1. cbn [andb].
  destruct (startswith (strip raw) (py "##")); [done|].
  by destruct (startswith (strip raw) (py "**")).
Qed.

End Parser.

Lemma parse_analysis_response_total_default_witness :
  _parse_analysis_response latin1_upper (py "nada aqui") = empty_sections.
Proof.
  apply (proj2 (proj2 (parse_analysis_response_total_default latin1_upper (py "nada aqui")))).
  intros key Hk. apply heading_never_occurs_by_scan. unfold section_keys in Hk.
  repeat (apply elem_of_cons in Hk as [->|Hk]);
    [vm_compute; reflexivity..|by apply elem_of_nil in Hk].
Defined.

Lemma parse_line_appends_or_drops_witness :
  parse_line latin1_upper (Some "resumo_executivo"%string, empty_sections)
    (py "  texto normal ")
  = if startswith (strip (py "  texto normal ")) (py "##")
       || startswith (strip (py "  texto normal ")) (py "**")
    then (Some "resumo_executivo"%string, empty_sections)
    else (Some "resumo_executivo"%string,
          <["resumo_executivo"%string :=
              (empty_sections !!! "resumo_executivo"%string)
              ++ strip (py "  texto normal ") ++ [LF]]> empty_sections).
Proof.
  apply (parse_line_appends_or_drops latin1_upper).
  - vm_compute. discriminate.
  - vm_compute. reflexivity.
Defined.

(** C4 as stated fails: a line in bold, with a section active and no
    marker phrase in it, is dropped. *)
Lemma bold_line_dropped :
  let raw := py "**Destaque:** modelo novo" in
  strip raw ≠ []
  ∧ is_heading_line latin1_upper (strip raw) = false
  ∧ any (λ marker, contains marker (latin1_upper (strip raw))) section_markers = false
  ∧ parse_line latin1_upper (Some "resumo_executivo"%string, empty_sections) raw
      = (Some "resumo_executivo"%string, empty_sections)
  ∧ _parse_analysis_response latin1_upper (py "## RESUMO EXECUTIVO
**Destaque:** modelo novo") !! "resumo_executivo"%string = Some [].
Proof.
  cbv zeta. split; [by vm_compute|]. split; [vm_compute; reflexivity|].
  split; [vm_compute; reflexivity|]. split; vm_compute; reflexivity.
Qed.

(** ** The prompt builder *)

Lemma startswith_app s t : startswith (s ++ t) s = true.
Proof. induction s as [|c s IH]; simpl; [done|]. rewrite N.eqb_refl. exact IH. Qed.

Lemma contains_unfold sub s :
  contains sub s
  = startswith s sub || match s with [] => false | _ :: s' => contains sub s' end.
Proof. by destruct s. Qed.

Lemma contains_app a sub b : contains sub (a ++ sub ++ b) = true.
Proof.
  induction a as [|c a IH].
  - cbn [app]. by rewrite contains_unfold, startswith_app.
  - cbn [app contains]. rewrite IH. apply orb_true_r.
Qed.

Lemma create_analysis_prompt_eq news_item :
  _create_analysis_prompt news_item
  = prompt_head ++ default (py "N/A") (news_item !! "title"%string) ++ prompt_middle
    ++ match news_item !! "content"%string with
       | Some c => c
       | None => default (py "N/A") (news_item !! "summary"%string)
       end ++ prompt_tail.
Proof.
  unfold _create_analysis_prompt, dict_get.
  destruct (news_item !! "content"%string); reflexivity.
Qed.

Lemma prompt_embeds_title (t c : pystr) :
  contains t (prompt_head ++ t ++ prompt_middle ++ c ++ prompt_tail) = true.
Proof. apply contains_app. Qed.

Lemma prompt_embeds_content (t c : pystr) :
  contains c (prompt_head ++ t ++ prompt_middle ++ c ++ prompt_tail) = true.
Proof. rewrite (app_assoc prompt_head), (app_assoc _ prompt_middle). apply contains_app. Qed.

Lemma prompt_headings :
  heading_lines prompt_tail
    = [py "## RESUMO EXECUTIVO"; py "## PONTOS-CHAVE"; py "## NÍVEL DE RELEVÂNCIA"]
  ∧ heading_lines prompt_head = [] ∧ heading_lines prompt_middle = [].
Proof. split; [vm_compute; reflexivity|]. split; vm_compute; reflexivity. Qed.

(** C8, as amended.  The prompt is the fixed template around the title, or
    N/A when the item has none, and the content, or the summary when the
    item has no content field, or N/A when it has neither; both texts occur
    in it; the template asks for the three headed sections RESUMO EXECUTIVO,
    PONTOS-CHAVE and NÍVEL DE RELEVÂNCIA in that order and for no other. *)
Theorem create_analysis_prompt_spec (news_item : article) :
  _create_analysis_prompt news_item
    = prompt_head ++ default (py "N/A") (news_item !! "title"%string) ++ prompt_middle
      ++ match news_item !! "content"%string with
         | Some c => c
         | None => default (py "N/A") (news_item !! "summary"%string)
         end ++ prompt_tail
  ∧ contains (default (py "N/A") (news_item !! "title"%string))
      (_create_analysis_prompt news_item) = true
  ∧ contains match news_item !! "content"%string with
             | Some c => c
             | None => default (py "N/A") (news_item !! "summary"%string)
             end
      (_create_analysis_prompt news_item) = true
  ∧ heading_lines prompt_tail
    = [py "## RESUMO EXECUTIVO"; py "## PONTOS-CHAVE"; py "## NÍVEL DE RELEVÂNCIA"]
  ∧ heading_lines prompt_head = [] ∧ heading_lines prompt_middle = [].
Proof.
  split; [apply create_analysis_prompt_eq|].
  rewrite create_analysis_prompt_eq.
  split; [apply prompt_embeds_title|].
  split; [apply prompt_embeds_content|].
  apply prompt_headings.
Qed.

(** C8 as stated fails: with an empty content the prompt embeds the empty
    content, and the summary is nowhere in it. *)
Lemma prompt_keeps_empty_content :
  _create_analysis_prompt
    {[ "title"%string := py "T"; "content"%string := [];
       "summary"%string := py "Resumo da noticia" ]}
    = prompt_head ++ py "T" ++ prompt_middle ++ [] ++ prompt_tail
  ∧ contains (py "Resumo da noticia")
      (_create_analysis_prompt
         {[ "title"%string := py "T"; "content"%string := [];
            "summary"%string := py "Resumo da noticia" ]}) = false.
Proof. split; vm_compute; reflexivity. Qed.

(** ** The local analysis *)

Section Local.

Variable str_lower : pystr → pystr.

Lemma local_nivel news_item :
  _local_analysis str_lower news_item !! "nivel_relevancia"%string
  = Some (JStr (relevancia_text
                  (keyword_count high_relevance_keywords (text_lower_of str_lower news_item))
                  (keyword_count medium_relevance_keywords (text_lower_of str_lower news_item)))).
Proof.
  unfold _local_analysis. cbv zeta. read_field. reflexivity.
Qed.

Lemma level_of_relevancia h m : level_of (relevancia_text h m) = Some (classify h m).
Proof.
  unfold relevancia_text, classify.
  destruct (2 <=? h)%nat; [vm_compute; reflexivity|].
  destruct ((1 <=? h)%nat || (3 <=? m)%nat); [vm_compute; reflexivity|].
  destruct (1 <=? m)%nat; vm_compute; reflexivity.
Qed.

(** C5.  The relevance text of the local analysis begins with the level the
    priority rules give for the number of high-tier and of medium-tier
    keywords that occur in the lowercased title and content: two high ones
    or more give Alto, otherwise one high or three medium give Médio,
    otherwise one medium gives Médio, otherwise Baixo.  So exactly two high
    keywords give Alto, exactly one gives Médio, and none of either tier
    gives Baixo. *)
Theorem local_relevance_classification news_item :
  let text := text_lower_of str_lower news_item in
  let high := keyword_count high_relevance_keywords text in
  let medium := keyword_count medium_relevance_keywords text in
  ∃ relevancia,
    _local_analysis str_lower news_item !! "nivel_relevancia"%string = Some (JStr relevancia)
    ∧ level_of relevancia = Some (classify high medium)
    ∧ (high = 2%nat → level_of relevancia = Some Alto)
    ∧ (high = 1%nat → level_of relevancia = Some Medio)
    ∧ (high = 0%nat → medium = 0%nat → level_of relevancia = Some Baixo).
Proof.
  intros text high medium. exists (relevancia_text high medium).
  split; [apply local_nivel|]. rewrite level_of_relevancia.
  split; [done|]. split; [by intros ->|]. split; [by intros ->|].
  by intros -> ->.
Qed.

(** C10, as amended.  Two items that agree on the title, on the number of
    high-tier and of medium-tier keywords and on which triggers fire get the
    same relevance level, key points and executive summary from the local
    analysis, whatever their low-tier counts are. *)
Theorem low_tier_count_has_no_effect a1 a2 :
  dict_get a1 "title" (py "N/A") = dict_get a2 "title" (py "N/A") →
  keyword_count high_relevance_keywords (text_lower_of str_lower a1)
    = keyword_count high_relevance_keywords (text_lower_of str_lower a2) →
  keyword_count medium_relevance_keywords (text_lower_of str_lower a1)
    = keyword_count medium_relevance_keywords (text_lower_of str_lower a2) →
  trigger_flags (text_lower_of str_lower a1) = trigger_flags (text_lower_of str_lower a2) →
  ∀ key, key ∈ section_keys →
    _local_analysis str_lower a1 !! key = _local_analysis str_lower a2 !! key.
Proof.
  intros Ht Hh Hm Hf key Hk.
  unfold trigger_flags in Hf. injection Hf as F1 F2 F3 F4 F5 F6.
  unfold keyword_count, text_lower_of in *.
  unfold section_keys in Hk.
  repeat (apply elem_of_cons in Hk as [->|Hk]); [| | |by apply elem_of_nil in Hk];
    unfold _local_analysis; cbv zeta; do 2 read_field.
  - by rewrite Hh, Hm, Ht.
  - by rewrite F1, F2, F3, F4, F5, F6.
  - by rewrite Hh, Hm.
Qed.
End Local.

(** ** The translation step *)

Section Translation.
Variable str_lower : pystr → pystr.
Variable world : backend.
Variable self : NewsAnalyzer.
Variable news_item : article.

Lemma is_portuguese_by_count text :
  (2 ≤ count_if (λ word, str_in word portuguese_words) (split_ws (str_lower text))
   ∨ length (split_ws (str_lower text)) < 5)%nat →
  _is_portuguese str_lower text = true.
Proof.
  intros H. unfold _is_portuguese. cbv zeta. apply orb_true_iff.
  destruct H as [H|H]; [left; by apply Nat.leb_le|right; by apply Nat.ltb_lt].
Qed.

(** C6, as amended.  When the title by itself and the summary by itself
    (the summary field, or the content when there is none) each hold, among
    their lowered and whitespace-split tokens, at least two function words
    of the fixed list, or fewer than five tokens in all, the translation
    step returns the item as it is and calls no provider: the trace is left
    as it was. *)
Theorem translation_skipped_when_portuguese tr :
  let title := dict_get news_item "title" [] in
  let summary := dict_get news_item "summary" (dict_get news_item "content" []) in
  (2 ≤ count_if (λ word, str_in word portuguese_words) (split_ws (str_lower title))
   ∨ length (split_ws (str_lower title)) < 5)%nat →
  (2 ≤ count_if (λ word, str_in word portuguese_words) (split_ws (str_lower summary))
   ∨ length (split_ws (str_lower summary)) < 5)%nat →
  _translate_news_item_simple str_lower world self news_item tr = (tr, inr news_item).
Proof.
  intros title summary Ht Hs. unfold _translate_news_item_simple. cbv zeta.
  fold title summary.
  by rewrite (is_portuguese_by_count _ Ht), (is_portuguese_by_count _ Hs).
Qed.

Lemma translation_line_ignores acc line :
  is_label_line line = false → translation_line acc line = acc.
Proof.
  unfold is_label_line, translation_line. intros [-> ->]%orb_false_elim. done.
Qed.

Lemma scan_ignores_other_lines lines : ∀ acc,
  foldl translation_line acc lines
  = foldl translation_line acc (List.filter is_label_line lines).
Proof.
  induction lines as [|l lines IH]; intros acc; [done|]. cbn [foldl List.filter].
  destruct (is_label_line l) eqn:E; cbn [foldl]; [apply IH|].
  rewrite (translation_line_ignores _ _ E). apply IH.
Qed.

Lemma scan_keeps_title lines : ∀ acc,
  (∀ line, line ∈ lines → startswith line (py "TÍTULO_TRADUZIDO:") = false) →
  (foldl translation_line acc lines).1 = acc.1.
Proof.
  induction lines as [|l lines IH]; intros acc Hl; [done|]. cbn [foldl].
  rewrite IH by (intros; apply Hl; by right).
  unfold translation_line. rewrite (Hl l) by (by left).
  by destruct (startswith l (py "RESUMO_TRADUZIDO:")).
Qed.

Lemma scan_keeps_summary lines : ∀ acc,
  (∀ line, line ∈ lines → startswith line (py "RESUMO_TRADUZIDO:") = false) →
  (foldl translation_line acc lines).2 = acc.2.
Proof.
  induction lines as [|l lines IH]; intros acc Hl; [done|]. cbn [foldl].
  rewrite IH by (intros; apply Hl; by right).
  unfold translation_line. rewrite (Hl l) by (by left).
  by destruct (startswith l (py "TÍTULO_TRADUZIDO:")).
Qed.

Lemma labels_exclusive line :
  startswith line (py "TÍTULO_TRADUZIDO:") = true →
  startswith line (py "RESUMO_TRADUZIDO:") = false.
Proof.
  destruct line as [|x line]; [intros H; vm_compute in H; discriminate|].
  remember (py "TÍTULO_TRADUZIDO:") as t eqn:Et. vm_compute in Et. subst t.
  remember (py "RESUMO_TRADUZIDO:") as r eqn:Er. vm_compute in Er. subst r.
  cbn [startswith]. intros [Hx _]%andb_true_iff. apply N.eqb_eq in Hx as <-. done.
Qed.

Lemma scan_takes_last lines : ∀ acc,
  foldl translation_line acc lines
  = (from_option (label_value (py "TÍTULO_TRADUZIDO:")) acc.1
       (last (List.filter (λ line, startswith line (py "TÍTULO_TRADUZIDO:")) lines)),
     from_option (label_value (py "RESUMO_TRADUZIDO:")) acc.2
       (last (List.filter (λ line, startswith line (py "RESUMO_TRADUZIDO:")) lines))).
Proof.
  induction lines as [|l lines IH]; intros [t r]; [done|].
  cbn [foldl List.filter]. rewrite IH. unfold translation_line.
  destruct (startswith l (py "TÍTULO_TRADUZIDO:")) eqn:Et.
  - rewrite (labels_exclusive _ Et), last_cons. cbn [fst snd].
    by destruct (last (List.filter _ lines)).
  - destruct (startswith l (py "RESUMO_TRADUZIDO:")) eqn:Er; [|done].
    rewrite last_cons. cbn [fst snd].
    by destruct (last (List.filter (λ line, startswith line (py "RESUMO_TRADUZIDO:")) lines)).
Qed.

(** C9.  When the step does call the first provider, the answer is read
    line by line.  The translated title is what the last line that starts
    with TÍTULO_TRADUZIDO: gives, that is the line without the label and
    stripped, and the title the step read when no line starts with it; the
    same holds of the summary with RESUMO_TRADUZIDO:.  So lines that start
    with neither label change nothing, and a field whose label is on no
    line keeps its value.  The item returned is the item with these two
    values as title and summary.  When the call raises, the item is
    returned as it is and nothing is raised. *)
Theorem translation_parse_and_failure provider rest c tr :
  let title := dict_get news_item "title" [] in
  let summary := dict_get news_item "summary" (dict_get news_item "content" []) in
  let request := translation_request provider title summary in
  let run := _translate_news_item_simple str_lower world self news_item tr in
  _is_portuguese str_lower title && _is_portuguese str_lower summary = false →
  available_providers self = provider :: rest →
  ptype provider = openai_compatible →
  client provider = Some c →
  (∀ text,
     parse_translation title summary text
     = foldl translation_line (title, summary)
         (List.filter is_label_line (split_on LF text))
     ∧ (label_missing (py "TÍTULO_TRADUZIDO:") text →
        (parse_translation title summary text).1 = title)
     ∧ (label_missing (py "RESUMO_TRADUZIDO:") text →
        (parse_translation title summary text).2 = summary)
     ∧ parse_translation title summary text
       = (from_option (label_value (py "TÍTULO_TRADUZIDO:")) title
            (labelled_line (py "TÍTULO_TRADUZIDO:") text),
          from_option (label_value (py "RESUMO_TRADUZIDO:")) summary
            (labelled_line (py "RESUMO_TRADUZIDO:") text)))
  ∧ (∀ text, chat_completions_create world tr c request = inr (Some text) →
       ∃ translated_item,
         run = (tr ++ [EvChat c request], inr translated_item)
         ∧ translated_item
           = <["summary"%string := (parse_translation title summary text).2]>
               (<["title"%string := (parse_translation title summary text).1]> news_item)
         ∧ (label_missing (py "TÍTULO_TRADUZIDO:") text →
            translated_item !! "title"%string = Some title)
         ∧ (label_missing (py "RESUMO_TRADUZIDO:") text →
            translated_item !! "summary"%string = Some summary)
         ∧ translated_item !! "title"%string
           = Some (from_option (label_value (py "TÍTULO_TRADUZIDO:")) title
                     (labelled_line (py "TÍTULO_TRADUZIDO:") text))
         ∧ translated_item !! "summary"%string
           = Some (from_option (label_value (py "RESUMO_TRADUZIDO:")) summary
                     (labelled_line (py "RESUMO_TRADUZIDO:") text)))
  ∧ (∀ e, chat_completions_create world tr c request = inl e →
       run = (tr ++ [EvChat c request], inr news_item)).
Proof.
  intros title summary request run Hpt Hps Hty Hc.
  assert (Hparse : ∀ text,
     parse_translation title summary text
     = foldl translation_line (title, summary)
         (List.filter is_label_line (split_on LF text))
     ∧ (label_missing (py "TÍTULO_TRADUZIDO:") text →
        (parse_translation title summary text).1 = title)
     ∧ (label_missing (py "RESUMO_TRADUZIDO:") text →
        (parse_translation title summary text).2 = summary)
     ∧ parse_translation title summary text
       = (from_option (label_value (py "TÍTULO_TRADUZIDO:")) title
            (labelled_line (py "TÍTULO_TRADUZIDO:") text),
          from_option (label_value (py "RESUMO_TRADUZIDO:")) summary
            (labelled_line (py "RESUMO_TRADUZIDO:") text))).
  { intros text. unfold parse_translation, labelled_line. split_and!.
    - apply scan_ignores_other_lines.
    - intros Hm. by rewrite scan_keeps_title.
    - intros Hm. by rewrite scan_keeps_summary.
    - apply scan_takes_last. }
  split_and!; [done| |].
  - intros text Hchat. destruct (Hparse text) as (_ & Hkt & Hks & Hlast).
    eexists. split_and!; [|reflexivity| | | |].
    + subst run. unfold _translate_news_item_simple. cbv zeta.
      fold title summary. rewrite Hpt, Hps, Hty.
      unfold try_except, mbind, io_bind, lift, require_client, chat_create.
      rewrite Hc. fold (translation_request provider title summary). fold request.
      rewrite Hchat. cbn [require_str].
      by destruct (parse_translation title summary text).
    + intros Hm. rewrite lookup_insert_ne by discriminate.
      by rewrite lookup_insert_eq, (Hkt Hm).
    + intros Hm. by rewrite lookup_insert_eq, (Hks Hm).
    + rewrite lookup_insert_ne by discriminate.
      by rewrite lookup_insert_eq, Hlast.
    + by rewrite lookup_insert_eq, Hlast.
  - intros e Hchat. subst run. unfold _translate_news_item_simple. cbv zeta.
    fold title summary. rewrite Hpt, Hps, Hty.
    unfold try_except, mbind, io_bind, lift, require_client, chat_create.
    rewrite Hc. fold (translation_request provider title summary). fold request.
    by rewrite Hchat.
Qed.
End Translation.

(** ** The effects of the analyzer *)

Lemma tried_app tr1 tr2 : tried (tr1 ++ tr2) = tried tr1 ++ tried tr2.
Proof.
  induction tr1 as [|e tr1 IH]; [done|]. destruct e; simpl; by rewrite ?IH.
Qed.

Lemma quiet_ret {A} (x : A) : quiet (mret x).
Proof. intros tr. exists []. by rewrite app_nil_r. Qed.

Lemma quiet_lift {A} (r : exn + A) : quiet (lift r).
Proof. intros tr. exists []. by rewrite app_nil_r. Qed.

Lemma quiet_bind {A B} (m : io A) (f : A → io B) :
  quiet m → (∀ x, quiet (f x)) → quiet (m ≫= f).
Proof.
  intros Hm Hf tr. destruct (Hm tr) as (evs & Hevs & Ht).
  unfold mbind, io_bind. destruct (m tr) as [tr1 [e|x]]; simpl in *.
  - by exists evs.
  - subst tr1. destruct (Hf x (tr ++ evs)) as (evs' & Hevs' & Ht').
    exists (evs ++ evs'). rewrite Hevs', app_assoc, tried_app, Ht, Ht'. done.
Qed.

Lemma quiet_try_except {A} (body : io A) (handler : exn → io A) :
  quiet body → (∀ e, quiet (handler e)) → quiet (try_except body handler).
Proof.
  intros Hm Hf tr. destruct (Hm tr) as (evs & Hevs & Ht).
  unfold try_except. destruct (body tr) as [tr1 [e|x]]; simpl in *.
  - subst tr1. destruct (Hf e (tr ++ evs)) as (evs' & Hevs' & Ht').
    exists (evs ++ evs'). rewrite Hevs', app_assoc, tried_app, Ht, Ht'. done.
  - by exists evs.
Qed.

Lemma quiet_chat_create world c r : quiet (chat_create world c r).
Proof. intros tr. by exists [EvChat c r]. Qed.

Lemma quiet_http_post world u a i : quiet (http_post world u a i).
Proof. intros tr. by exists [EvPost u a i]. Qed.

Lemma returns_ret {A} (x : A) : returns (mret x).
Proof. intros tr. by exists tr, x. Qed.

Lemma returns_try_except {A} (body : io A) (handler : exn → io A) :
  (∀ e, returns (handler e)) → returns (try_except body handler).
Proof.
  intros Hh tr. unfold try_except. destruct (body tr) as [tr1 [e|x]]; [apply Hh|by eexists _, _].
Qed.

Create HintDb effects.
#[local] Hint Resolve quiet_ret quiet_lift quiet_chat_create quiet_http_post
  returns_ret : effects.
#[local] Hint Extern 2 (quiet (_ ≫= _)) => apply quiet_bind; [|intros ?] : effects.
#[local] Hint Extern 2 (quiet (try_except _ _)) =>
  apply quiet_try_except; [|intros ?] : effects.
#[local] Hint Extern 2 (returns (try_except _ _)) =>
  apply returns_try_except; intros ? : effects.
#[local] Hint Extern 3 (quiet (match ?x with _ => _ end)) => destruct x : effects.
#[local] Hint Extern 3 (returns (match ?x with _ => _ end)) => destruct x : effects.

Section Effects.
Variables str_upper str_lower : pystr → pystr.
Variable world : backend.
Variable self : NewsAnalyzer.
Variable news_item : article.

Lemma translate_quiet : quiet (_translate_news_item_simple str_lower world self news_item).
Proof. unfold _translate_news_item_simple. auto 12 with effects. Qed.

Lemma translate_returns : returns (_translate_news_item_simple str_lower world self news_item).
Proof. unfold _translate_news_item_simple. auto 12 with effects. Qed.

Lemma openai_quiet p :
  quiet (_analyze_with_openai_compatible str_upper str_lower world self news_item p).
Proof.
  unfold _analyze_with_openai_compatible. pose proof translate_quiet.
  auto 12 with effects.
Qed.

Lemma huggingface_quiet p : quiet (_analyze_with_huggingface world news_item p).
Proof.
  unfold _analyze_with_huggingface. cbv zeta. apply quiet_bind; [auto with effects|].
  intros r. destruct (_ =? _)%Z; [|auto with effects].
  apply quiet_bind; [auto with effects|]. intros [| | | |[|first l]|]; auto 12 with effects.
Qed.

Lemma analyze_with_quiet p :
  quiet (analyze_with str_upper str_lower world self news_item p).
Proof. unfold analyze_with. destruct (ptype p); [apply openai_quiet|apply huggingface_quiet]. Qed.

Lemma tried_trace_after p tr :
  tried (trace_after str_upper str_lower world self news_item p tr) = tried tr ++ [name p].
Proof.
  unfold trace_after.
  destruct (analyze_with_quiet p (tr ++ [EvTrying (name p)])) as (evs & -> & Hq).
  rewrite !tried_app, Hq. simpl. by rewrite app_nil_r.
Qed.

Lemma local_analysis_has_sections :
  has_sections (_local_analysis str_lower news_item)
  ∧ _local_analysis str_lower news_item !! "metodo_analise"%string = Some (JStr (py "local")).
Proof.
  unfold has_sections, _local_analysis. cbv zeta.
  split_and!; read_field; by eauto.
Qed.

Lemma openai_result p tr r :
  (_analyze_with_openai_compatible str_upper str_lower world self news_item p tr).2
    = inr (Some r) →
  has_sections r ∧ r !! "provedor_usado"%string = Some (JStr (name p)).
Proof.
  unfold _analyze_with_openai_compatible. cbv zeta. unfold mbind, io_bind, lift, chat_create.
  destruct (if negb _ then _ else _) as [tr1 [e|item]]; [discriminate|].
  destruct (require_client p) as [e|c]; [discriminate|].
  destruct (chat_completions_create _ _ _ _) as [e|content]; [discriminate|].
  destruct (require_str content) as [e|text]; [discriminate|].
  cbn [snd]. intros [= <-]. unfold has_sections.
  split_and!; repeat (rewrite lookup_insert_ne by discriminate);
    [rewrite lookup_fmap; apply fmap_is_Some, parse_has_section; set_solver..
    |by rewrite lookup_insert_eq].
Qed.

Lemma huggingface_result p tr r :
  (_analyze_with_huggingface world news_item p tr).2 = inr (Some r) →
  has_sections r ∧ r !! "provedor_usado"%string = None.
Proof.
  unfold _analyze_with_huggingface. cbv zeta. unfold mbind, io_bind, lift, http_post.
  destruct (requests_post _ _ _ _ _) as [e|resp]; [discriminate|].
  destruct (_ =? _)%Z; [|discriminate].
  destruct (response_json resp) as [e|[| | | |[|first l]|]]; try discriminate.
  destruct (json_get first _ _) as [e|v]; [discriminate|].
  destruct (hf_resumo v) as [e|v']; [discriminate|].
  cbn [snd]. intros [= <-]. unfold has_sections.
  split_and!; read_field; by eauto.
Qed.

Lemma success_has_sections p tr r :
  provider_succeeds str_upper str_lower world self news_item p tr r → has_sections r.
Proof.
  intros [Hr _]. unfold analyze_with in Hr.
  destruct (ptype p); [by apply openai_result in Hr as [? _]|
                       by apply huggingface_result in Hr as [? _]].
Qed.

Lemma try_provider_fails p tr :
  provider_fails str_upper str_lower world self news_item p tr →
  try_provider str_upper str_lower world self news_item p tr
  = (trace_after str_upper str_lower world self news_item p tr, inr None).
Proof.
  unfold provider_fails, trace_after, try_provider, try_except, emit, mbind, io_bind.
  destruct (analyze_with _ _ _ _ _ _ _) as [tr1 [e|res]]; cbn [fst snd].
  - intros _. by destruct (is_rate_limit _ e).
  - by intros ->.
Qed.

Lemma try_provider_succeeds p tr r :
  provider_succeeds str_upper str_lower world self news_item p tr r →
  try_provider str_upper str_lower world self news_item p tr
  = (trace_after str_upper str_lower world self news_item p tr, inr (Some r)).
Proof.
  unfold provider_succeeds, trace_after, try_provider, try_except, emit, mbind, io_bind.
  destruct (analyze_with _ _ _ _ _ _ _) as [tr1 [e|res]]; cbn [fst snd];
    intros [[= ->] Hne].
  unfold result_truthy. by rewrite bool_decide_eq_true_2.
Qed.

Lemma fails_or_succeeds p tr :
  provider_fails str_upper str_lower world self news_item p tr
  ∨ ∃ r, provider_succeeds str_upper str_lower world self news_item p tr r.
Proof.
  unfold provider_fails, provider_succeeds.
  destruct (analyze_with _ _ _ _ _ _ _) as [tr1 [e|[r|]]]; cbn [fst snd result_truthy];
    [by left| |by left].
  destruct (decide (r = ∅)) as [->|Hne]; [left; apply bool_decide_eq_false_2; by intros []|].
  right. by exists r.
Qed.

Lemma try_providers_total ps : ∀ tr,
  ∃ tr' r, try_providers str_upper str_lower world self news_item ps tr = (tr', inr r)
    ∧ has_sections r
    ∧ (every_provider_fails str_upper str_lower world self news_item ps tr →
       r = _local_analysis str_lower news_item).
Proof.
  induction ps as [|p ps IH]; intros tr; cbn [try_providers].
  - eexists _, _. split; [done|]. split; [apply local_analysis_has_sections|done].
  - unfold mbind, io_bind.
    destruct (fails_or_succeeds p tr) as [Hf|[r Hs]].
    + rewrite (try_provider_fails _ _ Hf).
      destruct (IH (trace_after str_upper str_lower world self news_item p tr))
        as (tr' & r & Hrun & Hsec & Hloc).
      exists tr', r. split; [done|]. split; [done|]. intros [_ Hall]. by apply Hloc.
    + rewrite (try_provider_succeeds _ _ _ Hs). eexists _, r. split; [done|].
      split; [by eapply success_has_sections|].
      intros [Hf _]. exfalso. destruct Hs as [Hr Hne].
      unfold provider_fails in Hf.
      destruct (analyze_with _ _ _ _ _ _ _) as [tr1 [e|res]]; cbn [fst snd] in *; [done|].
      injection Hr as ->. by apply bool_decide_eq_false_1 in Hf.
Qed.

(** C1.  For every item with string fields [analyze_news] returns, without
    raising, a record with the executive summary, the key points and the
    relevance level; when the chain is empty or every provider of it fails,
    the record is the local analysis of the item and its method marker says
    local. *)
Theorem analyze_news_total tr :
  ∃ tr' r, analyze_news str_upper str_lower world self news_item tr = (tr', inr r)
    ∧ has_sections r
    ∧ (every_provider_fails str_upper str_lower world self news_item
         (available_providers self) tr →
       r = _local_analysis str_lower news_item
       ∧ r !! "metodo_analise"%string = Some (JStr (py "local"))).
Proof.
  unfold analyze_news. destruct (analysis_enabled self); simpl.
  - destruct (try_providers_total (available_providers self) tr)
      as (tr' & r & Hrun & Hsec & Hloc).
    exists tr', r. split; [done|]. split; [done|]. intros Hall.
    rewrite (Hloc Hall). split; [done|]. apply local_analysis_has_sections.
  - eexists _, _. split; [done|]. split; [apply local_analysis_has_sections|].
    intros _. split; [done|]. apply local_analysis_has_sections.
Qed.

(** C2, as amended.  With a chain that starts with A, B and C, where A and
    B fail and C succeeds, [analyze_news] returns the record of C as soon as
    C has succeeded: the loop has entered A, B and C once each, in this
    order, and no provider after C; when C is an OpenAI-compatible provider
    the provider marker of the record is the name of C. *)
Theorem fallback_reaches_third A B C rest tr r :
  analysis_enabled self = true →
  available_providers self = A :: B :: C :: rest →
  provider_fails str_upper str_lower world self news_item A tr →
  provider_fails str_upper str_lower world self news_item B
    (trace_after str_upper str_lower world self news_item A tr) →
  provider_succeeds str_upper str_lower world self news_item C
    (trace_after str_upper str_lower world self news_item B
       (trace_after str_upper str_lower world self news_item A tr)) r →
  ∃ tr', tr' = trace_after str_upper str_lower world self news_item C
                 (trace_after str_upper str_lower world self news_item B
                    (trace_after str_upper str_lower world self news_item A tr))
    ∧ analyze_news str_upper str_lower world self news_item tr = (tr', inr r)
    ∧ tried tr' = tried tr ++ [name A; name B; name C]
    ∧ (ptype C = openai_compatible →
       r !! "provedor_usado"%string = Some (JStr (name C))).
Proof.
  intros Hen Hps HA HB HC. unfold analyze_news. rewrite Hen, Hps. cbn [negb try_providers].
  unfold mbind, io_bind.
  rewrite (try_provider_fails _ _ HA). cbv beta iota.
  rewrite (try_provider_fails _ _ HB). cbv beta iota.
  rewrite (try_provider_succeeds _ _ _ HC). cbv beta iota.
  eexists. split; [reflexivity|]. split; [done|]. split.
  - rewrite !tried_trace_after, <- !app_assoc. done.
  - intros Ht. destruct HC as [Hr _]. unfold analyze_with in Hr. rewrite Ht in Hr.
    by apply openai_result in Hr as [_ ?].
Qed.
End Effects.


(** ** The properties on the scenarios *)

Lemma label_missing_by_scan label text :
  forallb (λ line, negb (startswith line label)) (split_on LF text) = true →
  label_missing label text.
Proof.
  intros Hall line Hin. rewrite forallb_forall in Hall.
  apply list_elem_of_In, Hall in Hin. by apply negb_true_iff in Hin.
Qed.

Lemma local_relevance_classification_witness :
  ∃ relevancia,
    _local_analysis latin1_lower article_two_labs !! "nivel_relevancia"%string
      = Some (JStr relevancia)
    ∧ level_of relevancia = Some Alto.
Proof.
  destruct (local_relevance_classification latin1_lower article_two_labs)
    as (relevancia & Hr & _ & Halto & _).
  exists relevancia. split; [exact Hr|]. apply Halto. vm_compute. reflexivity.
Defined.

Example relevance_boundaries :
  level_of (relevancia_text 2 0) = Some Alto
  ∧ level_of (relevancia_text 1 0) = Some Medio
  ∧ level_of (relevancia_text 0 3) = Some Medio
  ∧ level_of (relevancia_text 0 1) = Some Medio
  ∧ level_of (relevancia_text 0 0) = Some Baixo.
Proof. split_and!; vm_compute; reflexivity. Qed.

Lemma low_tier_count_has_no_effect_witness :
  keyword_count low_relevance_keywords (text_lower_of latin1_lower article_patch_notes) = 2%nat
  ∧ keyword_count low_relevance_keywords (text_lower_of latin1_lower article_plain_notes) = 0%nat
  ∧ _local_analysis latin1_lower article_patch_notes !! "resumo_executivo"%string
    = _local_analysis latin1_lower article_plain_notes !! "resumo_executivo"%string
  ∧ _local_analysis latin1_lower article_patch_notes !! "pontos_chave"%string
    = _local_analysis latin1_lower article_plain_notes !! "pontos_chave"%string
  ∧ _local_analysis latin1_lower article_patch_notes !! "nivel_relevancia"%string
    = _local_analysis latin1_lower article_plain_notes !! "nivel_relevancia"%string.
Proof.
  assert (H : ∀ key, key ∈ section_keys →
            _local_analysis latin1_lower article_patch_notes !! key
            = _local_analysis latin1_lower article_plain_notes !! key).
  { apply low_tier_count_has_no_effect; vm_compute; reflexivity. }
  split; [vm_compute; reflexivity|]. split; [vm_compute; reflexivity|].
  unfold section_keys in H. split_and!; apply H; repeat constructor.
Defined.

(** C10 as stated fails: the two items agree on the counts of high and
    medium keywords and on the triggers and differ in the low-tier count,
    and their executive summaries differ, each quoting its own title. *)
Lemma low_tier_inputs_differ_in_summary :
  keyword_count high_relevance_keywords (text_lower_of latin1_lower article_minor_update)
    = keyword_count high_relevance_keywords (text_lower_of latin1_lower article_nothing_here)
  ∧ keyword_count medium_relevance_keywords (text_lower_of latin1_lower article_minor_update)
    = keyword_count medium_relevance_keywords (text_lower_of latin1_lower article_nothing_here)
  ∧ trigger_flags (text_lower_of latin1_lower article_minor_update)
    = trigger_flags (text_lower_of latin1_lower article_nothing_here)
  ∧ keyword_count low_relevance_keywords (text_lower_of latin1_lower article_minor_update)
    = 2%nat
  ∧ keyword_count low_relevance_keywords (text_lower_of latin1_lower article_nothing_here)
    = 0%nat
  ∧ _local_analysis latin1_lower article_minor_update !! "resumo_executivo"%string
    ≠ _local_analysis latin1_lower article_nothing_here !! "resumo_executivo"%string.
Proof.
  split; [vm_compute; reflexivity|]. split; [vm_compute; reflexivity|].
  split; [vm_compute; reflexivity|]. split; [vm_compute; reflexivity|].
  split; [vm_compute; reflexivity|]. vm_compute. discriminate.
Qed.

Lemma translation_skipped_when_portuguese_witness :
  _translate_news_item_simple latin1_lower world_translator
    (analyzer_in world_translator environ_with_together) article_portuguese []
  = ([], inr article_portuguese).
Proof.
  apply (translation_skipped_when_portuguese latin1_lower world_translator
           (analyzer_in world_translator environ_with_together) article_portuguese []).
  - left. vm_compute. lia.
  - right. vm_compute. lia.
Defined.

(** C6 as stated fails: title and summary together hold three function
    words, and yet the step calls the first provider and returns another
    title, the title by itself being taken for a foreign one. *)
Lemma translation_runs_on_mixed_article :
  count_if (λ word, str_in word portuguese_words)
    (split_ws (latin1_lower (dict_get article_mixed "title" [] ++ py " "
                             ++ dict_get article_mixed "summary" []))) = 3%nat
  ∧ ∃ translated_item,
      _translate_news_item_simple latin1_lower world_translator
        (analyzer_in world_translator environ_with_together) article_mixed []
      = ([EvChat client_openrouter
            (translation_request provider_openrouter
               (dict_get article_mixed "title" []) (dict_get article_mixed "summary" []))],
         inr translated_item)
      ∧ translated_item !! "title"%string = Some (py "OpenAI lança modelo").
Proof.
  split; [vm_compute; reflexivity|]. eexists. split; vm_compute; reflexivity.
Qed.

(** The title the specification gives as already translated holds one
    function word of the list in six words: the step does call a
    provider for it. *)
Example sample_title_is_sent_for_translation :
  count_if (λ word, str_in word portuguese_words)
    (split_ws (latin1_lower (py "Relatório de IA no mercado brasileiro"))) = 1%nat
  ∧ _is_portuguese latin1_lower (py "Relatório de IA no mercado brasileiro") = false
  ∧ length (_translate_news_item_simple latin1_lower world_translator
              (analyzer_in world_translator environ_with_together)
              {[ "title"%string := py "Relatório de IA no mercado brasileiro";
                 "summary"%string := [] ]} []).1 = 1%nat.
Proof. split_and!; vm_compute; reflexivity. Qed.

Lemma translation_parse_and_failure_witness :
  ∃ translated_item,
    _translate_news_item_simple latin1_lower world_translator
      (analyzer_in world_translator environ_with_together) article_mixed []
    = ([] ++ [EvChat client_openrouter
                (translation_request provider_openrouter
                   (dict_get article_mixed "title" [])
                   (dict_get article_mixed "summary" (dict_get article_mixed "content" [])))],
       inr translated_item)
    ∧ translated_item !! "summary"%string
      = Some (dict_get article_mixed "summary" (dict_get article_mixed "content" []))
    ∧ translated_item !! "title"%string
      = Some (from_option (label_value (py "TÍTULO_TRADUZIDO:"))
                (dict_get article_mixed "title" [])
                (labelled_line (py "TÍTULO_TRADUZIDO:") (py "Aqui está:
TÍTULO_TRADUZIDO: OpenAI lança modelo
nota"))).
Proof.
  destruct (translation_parse_and_failure latin1_lower world_translator
              (analyzer_in world_translator environ_with_together) article_mixed
              provider_openrouter [provider_groq; provider_together] client_openrouter [])
    as (_ & Hok & _); [vm_compute; reflexivity..|].
  destruct (Hok (py "Aqui está:
TÍTULO_TRADUZIDO: OpenAI lança modelo
nota") eq_refl) as (translated_item & Hrun & _ & _ & Hsummary & Htitle & _).
  exists translated_item. split; [exact Hrun|]. split; [|exact Htitle].
  apply Hsummary, label_missing_by_scan. vm_compute. reflexivity.
Defined.

Lemma analyze_news_total_witness :
  ∃ tr' r,
    analyze_news latin1_upper latin1_lower world_hf_answers
      (analyzer_in world_hf_answers environ_with_together) article_english [] = (tr', inr r)
    ∧ r = _local_analysis latin1_lower article_english
    ∧ r !! "metodo_analise"%string = Some (JStr (py "local")).
Proof.
  destruct (analyze_news_total latin1_upper latin1_lower world_hf_answers
              (analyzer_in world_hf_answers environ_with_together) article_english [])
    as (tr' & r & Hrun & _ & Hlocal).
  exists tr', r. split; [exact Hrun|]. apply Hlocal. vm_compute. repeat split.
Defined.

Lemma fallback_reaches_third_witness :
  ∃ tr',
    analyze_news latin1_upper latin1_lower world_together_answers
      (analyzer_in world_together_answers environ_with_together) article_english []
    = (tr', inr (record_of
                   (analyze_news latin1_upper latin1_lower world_together_answers
                      (analyzer_in world_together_answers environ_with_together)
                      article_english [])))
    ∧ tried tr'
      = tried [] ++ [name provider_openrouter; name provider_groq; name provider_together]
    ∧ record_of
        (analyze_news latin1_upper latin1_lower world_together_answers
           (analyzer_in world_together_answers environ_with_together)
           article_english []) !! "provedor_usado"%string
      = Some (JStr (name provider_together)).
Proof.
  destruct (fallback_reaches_third latin1_upper latin1_lower world_together_answers
              (analyzer_in world_together_answers environ_with_together) article_english
              provider_openrouter provider_groq provider_together [] []
              (record_of
                 (analyze_news latin1_upper latin1_lower world_together_answers
                    (analyzer_in world_together_answers environ_with_together)
                    article_english [])))
    as (tr' & _ & Hrun & Htried & Hmarker).
  - vm_compute. reflexivity.
  - vm_compute. reflexivity.
  - vm_compute. exact I.
  - vm_compute. exact I.
  - split; [vm_compute; reflexivity|].
    intros Hempty. apply (f_equal (λ m : analysis, m !! "provedor_usado"%string)) in Hempty.
    vm_compute in Hempty. discriminate.
  - exists tr'. split; [exact Hrun|]. split; [exact Htried|].
    apply Hmarker. reflexivity.
Defined.

(** C2 as stated fails: with openrouter, groq and huggingface in the chain,
    the first two failing and the third succeeding, the record returned has
    no provider marker; and the client of openrouter has received three
    generation calls, two of them for translations. *)
Lemma huggingface_success_has_no_marker :
  available_providers (analyzer_in world_hf_answers environ_with_huggingface)
    = [provider_openrouter; provider_groq; provider_huggingface]
  ∧ provider_fails latin1_upper latin1_lower world_hf_answers
      (analyzer_in world_hf_answers environ_with_huggingface) article_english
      provider_openrouter []
  ∧ provider_fails latin1_upper latin1_lower world_hf_answers
      (analyzer_in world_hf_answers environ_with_huggingface) article_english
      provider_groq
      (trace_after latin1_upper latin1_lower world_hf_answers
         (analyzer_in world_hf_answers environ_with_huggingface) article_english
         provider_openrouter [])
  ∧ (analyze_with latin1_upper latin1_lower world_hf_answers
       (analyzer_in world_hf_answers environ_with_huggingface) article_english
       provider_huggingface
       (trace_after latin1_upper latin1_lower world_hf_answers
          (analyzer_in world_hf_answers environ_with_huggingface) article_english
          provider_groq
          (trace_after latin1_upper latin1_lower world_hf_answers
             (analyzer_in world_hf_answers environ_with_huggingface) article_english
             provider_openrouter [])
        ++ [EvTrying (name provider_huggingface)])).2
    = inr (Some (record_of
                   (analyze_news latin1_upper latin1_lower world_hf_answers
                      (analyzer_in world_hf_answers environ_with_huggingface)
                      article_english [])))
  ∧ (analyze_news latin1_upper latin1_lower world_hf_answers
       (analyzer_in world_hf_answers environ_with_huggingface) article_english []).2
    = inr (record_of
             (analyze_news latin1_upper latin1_lower world_hf_answers
                (analyzer_in world_hf_answers environ_with_huggingface)
                article_english []))
  ∧ record_of
      (analyze_news latin1_upper latin1_lower world_hf_answers
         (analyzer_in world_hf_answers environ_with_huggingface) article_english [])
      !! "resumo_executivo"%string = Some (JStr (py "Texto gerado"))
  ∧ record_of
      (analyze_news latin1_upper latin1_lower world_hf_answers
         (analyzer_in world_hf_answers environ_with_huggingface) article_english [])
      !! "provedor_usado"%string = None
  ∧ chat_calls client_openrouter
      (analyze_news latin1_upper latin1_lower world_hf_answers
         (analyzer_in world_hf_answers environ_with_huggingface) article_english []).1
    = 3%nat.
Proof.
  split; [vm_compute; reflexivity|]. split; [vm_compute; exact I|].
  split; [vm_compute; exact I|].
  split_and!; vm_compute; reflexivity.
Qed.

(** * Further properties *)

(** ** The chain the set-up builds *)

Lemma setup_provider_hosted world environ available provider_name cfg tr :
  provider_name ≠ py "ollama" →
  ∃ ps, setup_provider world environ available provider_name cfg tr = (tr, inr ps)
    ∧ map name ps
      = map name available
        ++ (if if str_eqb provider_name (py "huggingface")
               then key_configured (api_key cfg)
               else hosted_built world (api_key cfg) (base_url cfg)
            then [provider_name] else [])
    ∧ (Forall well_built available → Forall well_built ps).
Proof.
  intros Hne. unfold setup_provider, hosted_built, client_built, key_configured.
  replace (str_eqb provider_name (py "ollama")) with false
    by (symmetry; by apply bool_decide_eq_false_2).
  assert (Hsame : map name available = map name available ++ [] ∧
                  (Forall well_built available → Forall well_built available)).
  { by rewrite app_nil_r. }
  destruct (api_key cfg) as [key|];
    [|destruct (str_eqb provider_name (py "huggingface")); by eexists].
  destruct (negb (str_eqb key []) && negb (str_eqb key (py "your_api_key_here")));
    [|destruct (str_eqb provider_name (py "huggingface")); by eexists].
  unfold try_except, OpenAI, mbind, io_bind, mret, io_ret, raise. cbn [andb].
  destruct (str_eqb provider_name (py "huggingface")) eqn:Hhf; unfold str_eqb in Hhf.
  - apply bool_decide_eq_true_1 in Hhf.
    eexists. split; [done|]. rewrite map_app. split; [done|].
    intros Hav. apply Forall_app. split; [done|]. apply Forall_singleton.
    split; [done|]. discriminate.
  - apply bool_decide_eq_false_1 in Hhf.
    destruct (openai_installed world); [|by eexists].
    destruct (openai_init world key (base_url cfg)); [by eexists|]. cbn [andb].
    eexists. split; [done|]. rewrite map_app. split; [done|].
    intros Hav. apply Forall_app. split; [done|]. apply Forall_singleton.
    split; [split; [discriminate|done]|]. intros _. by eexists.
Qed.

Lemma setup_provider_ollama world environ available cfg tr b :
  _check_ollama_availability world environ tr = (tr ++ [EvGet (health_url environ)], inr b) →
  ∃ ps, setup_provider world environ available (py "ollama") cfg tr
        = (tr ++ [EvGet (health_url environ)], inr ps)
    ∧ map name ps
      = map name available
        ++ (if b && client_built world (py "ollama") (base_url cfg)
            then [py "ollama"] else [])
    ∧ (Forall well_built available → Forall well_built ps).
Proof.
  intros Hc. unfold setup_provider, client_built.
  replace (str_eqb (py "ollama") (py "ollama")) with true by reflexivity.
  unfold mbind at 1, io_bind at 1. rewrite Hc.
  assert (Hsame : map name available = map name available ++ [] ∧
                  (Forall well_built available → Forall well_built available)).
  { by rewrite app_nil_r. }
  destruct b; [|by eexists].
  unfold try_except, OpenAI, mbind, io_bind, mret, io_ret, raise. cbn [andb].
  destruct (openai_installed world); [|by eexists].
  destruct (openai_init world (py "ollama") (base_url cfg)); [by eexists|]. cbn [andb].
  eexists. split; [done|]. rewrite map_app. split; [done|].
  intros Hav. apply Forall_app. split; [done|]. apply Forall_singleton.
  split; [split; [discriminate|vm_compute; discriminate]|]. intros _. by eexists.
Qed.

(** X1.  The set-up never raises and sends exactly one health query; the
    chain it builds lists, in the order of the priorities, ollama when the
    health check passed and a client is built for it, each of openrouter,
    groq and together whose key is set, not empty and not the placeholder
    when a client is built for it, and huggingface under the same condition
    on its key alone.  A client is built when the client library is there
    and its constructor raises nothing on the key and the base URL: a
    provider whose client cannot be built is left out and the set-up goes
    on.  Only the Hugging Face entry has the Hugging Face type and every
    other entry has a client. *)
Theorem setup_providers_chain world environ tr :
  ∃ b ps,
    _check_ollama_availability world environ tr
      = (tr ++ [EvGet (health_url environ)], inr b)
    ∧ _setup_providers world environ tr = (tr ++ [EvGet (health_url environ)], inr ps)
    ∧ map name ps = expected_chain world environ b
    ∧ Forall well_built ps.
Proof.
  destruct (check_ollama_availability_spec world environ tr) as (b & Hc & _).
  exists b. unfold _setup_providers. rewrite sorted_providers. unfold providers.
  cbn [setup_loop]. unfold mbind, io_bind.
  match goal with |- context [setup_provider _ _ [] _ ?cfg tr] =>
    destruct (setup_provider_ollama world environ [] cfg tr b Hc) as (ps0 & -> & Hn0 & Hw0)
  end.
  match goal with |- context [setup_provider _ _ ps0 ?n ?cfg ?t] =>
    destruct (setup_provider_hosted world environ ps0 n cfg t)
      as (ps1 & -> & Hn1 & Hw1); [vm_compute; discriminate|]
  end.
  match goal with |- context [setup_provider _ _ ps1 ?n ?cfg ?t] =>
    destruct (setup_provider_hosted world environ ps1 n cfg t)
      as (ps2 & -> & Hn2 & Hw2); [vm_compute; discriminate|]
  end.
  match goal with |- context [setup_provider _ _ ps2 ?n ?cfg ?t] =>
    destruct (setup_provider_hosted world environ ps2 n cfg t)
      as (ps3 & -> & Hn3 & Hw3); [vm_compute; discriminate|]
  end.
  match goal with |- context [setup_provider _ _ ps3 ?n ?cfg ?t] =>
    destruct (setup_provider_hosted world environ ps3 n cfg t)
      as (ps4 & -> & Hn4 & Hw4); [vm_compute; discriminate|]
  end.
  exists ps4. split; [done|]. split; [done|]. split; [|apply Hw4, Hw3, Hw2, Hw1, Hw0, Forall_nil].
  assert (E1 : str_eqb (py "openrouter") (py "huggingface") = false)
    by (vm_compute; reflexivity).
  assert (E2 : str_eqb (py "groq") (py "huggingface") = false)
    by (vm_compute; reflexivity).
  assert (E3 : str_eqb (py "together") (py "huggingface") = false)
    by (vm_compute; reflexivity).
  assert (E4 : str_eqb (py "huggingface") (py "huggingface") = true)
    by (vm_compute; reflexivity).
  rewrite E1 in Hn1. rewrite E2 in Hn2. rewrite E3 in Hn3. rewrite E4 in Hn4.
  rewrite Hn4, Hn3, Hn2, Hn1, Hn0. unfold expected_chain.
  rewrite <- !app_assoc. 1: reflexivity. exact I.
Qed.

(** With the keys of OpenRouter, Groq and Together set and a constructor
    that rejects the base URL of OpenRouter, the chain is Groq, then
    Together. *)
Example setup_leaves_out_rejected_client :
  map name (available_providers (analyzer_in world_rejects_openrouter environ_with_together))
  = [py "groq"; py "together"].
Proof. vm_compute. reflexivity. Qed.

(** ** How many calls a run sends *)

Lemma at_most_ret {A} (x : A) n : at_most n (mret x).
Proof. intros tr. exists []. rewrite app_nil_r. split_and!; [done..|simpl; lia]. Qed.

Lemma at_most_lift {A} (r : exn + A) n : at_most n (lift r).
Proof. intros tr. exists []. rewrite app_nil_r. split_and!; [done..|simpl; lia]. Qed.

Lemma at_most_weaken {A} (m : io A) n n' : (n ≤ n')%nat → at_most n m → at_most n' m.
Proof. intros Hle Hm tr. destruct (Hm tr) as (evs & ? & ? & ?). exists evs. split_and!; [done..|lia]. Qed.

Lemma at_most_bind {A B} (m : io A) (f : A → io B) n k :
  at_most n m → (∀ x, at_most k (f x)) → at_most (n + k) (m ≫= f).
Proof.
  intros Hm Hf tr. destruct (Hm tr) as (evs & Hevs & Ht & Hl).
  unfold mbind, io_bind. destruct (m tr) as [tr1 [e|x]]; cbn [fst] in *.
  - exists evs. split_and!; [done..|lia].
  - subst tr1. destruct (Hf x (tr ++ evs)) as (evs' & Hevs' & Ht' & Hl').
    exists (evs ++ evs'). rewrite Hevs', app_assoc, tried_app, Ht, Ht', length_app.
    split_and!; [done..|lia].
Qed.

Lemma at_most_try_except {A} (body : io A) (handler : exn → io A) n k :
  at_most n body → (∀ e, at_most k (handler e)) → at_most (n + k) (try_except body handler).
Proof.
  intros Hm Hf tr. destruct (Hm tr) as (evs & Hevs & Ht & Hl).
  unfold try_except. destruct (body tr) as [tr1 [e|x]]; cbn [fst] in *.
  - subst tr1. destruct (Hf e (tr ++ evs)) as (evs' & Hevs' & Ht' & Hl').
    exists (evs ++ evs'). rewrite Hevs', app_assoc, tried_app, Ht, Ht', length_app.
    split_and!; [done..|lia].
  - exists evs. split_and!; [done..|lia].
Qed.

Lemma at_most_chat_create world c r : at_most 1 (chat_create world c r).
Proof. intros tr. by exists [EvChat c r]. Qed.

Lemma at_most_http_post world u a i : at_most 1 (http_post world u a i).
Proof. intros tr. by exists [EvPost u a i]. Qed.

Section Calls.
Variables str_upper str_lower : pystr → pystr.
Variable world : backend.
Variable self : NewsAnalyzer.
Variable news_item : article.

Lemma translate_at_most :
  at_most 1 (_translate_news_item_simple str_lower world self news_item).
Proof.
  unfold _translate_news_item_simple. cbv zeta.
  destruct (_ && _); [apply at_most_ret|].
  destruct (available_providers self) as [|p ps]; [apply at_most_ret|].
  apply (at_most_try_except _ _ 1 0); [|intros; apply at_most_ret].
  destruct (ptype p); [|apply at_most_ret].
  apply (at_most_bind _ _ 0 1); [apply at_most_lift|]. intros c.
  apply (at_most_bind _ _ 1 0); [apply at_most_chat_create|]. intros content.
  apply (at_most_bind _ _ 0 0); [apply at_most_lift|]. intros text.
  destruct (parse_translation _ _ _). apply at_most_ret.
Qed.

Lemma openai_at_most p :
  at_most 2 (_analyze_with_openai_compatible str_upper str_lower world self news_item p).
Proof.
  unfold _analyze_with_openai_compatible. cbv zeta.
  apply (at_most_bind _ _ 1 1).
  { destruct (negb _); [apply translate_at_most|apply at_most_ret]. }
  intros item. apply (at_most_bind _ _ 0 1); [apply at_most_lift|]. intros c.
  apply (at_most_bind _ _ 1 0); [apply at_most_chat_create|]. intros content.
  apply (at_most_bind _ _ 0 0); [apply at_most_lift|]. intros text. apply at_most_ret.
Qed.

Lemma huggingface_at_most p : at_most 1 (_analyze_with_huggingface world news_item p).
Proof.
  unfold _analyze_with_huggingface. cbv zeta.
  apply (at_most_bind _ _ 1 0); [apply at_most_http_post|]. intros r.
  destruct (_ =? _)%Z; [|apply at_most_ret].
  apply (at_most_bind _ _ 0 0); [apply at_most_lift|].
  intros [| | | |[|first l]|]; try apply at_most_ret.
  apply (at_most_bind _ _ 0 0); [apply at_most_lift|]. intros v.
  apply (at_most_bind _ _ 0 0); [apply at_most_lift|]. intros v'. apply at_most_ret.
Qed.

Lemma trace_after_shape p tr :
  ∃ evs, trace_after str_upper str_lower world self news_item p tr
         = tr ++ EvTrying (name p) :: evs
    ∧ tried evs = [] ∧ (length evs ≤ 2)%nat.
Proof.
  unfold trace_after, analyze_with.
  assert (H : at_most 2 (match ptype p with
     | openai_compatible => _analyze_with_openai_compatible str_upper str_lower world self news_item p
     | huggingface => _analyze_with_huggingface world news_item p end)).
  { destruct (ptype p); [apply openai_at_most|].
    eapply at_most_weaken; [|apply huggingface_at_most]. lia. }
  destruct (H (tr ++ [EvTrying (name p)])) as (evs & -> & Ht & Hl).
  exists evs. by rewrite <- app_assoc.
Qed.

Lemma try_providers_trace ps : ∀ tr,
  ∃ evs k, (try_providers str_upper str_lower world self news_item ps tr).1 = tr ++ evs
    ∧ (k ≤ length ps)%nat
    ∧ tried evs = map name (take k ps)
    ∧ (length evs ≤ 3 * k)%nat.
Proof.
  induction ps as [|p ps IH]; intros tr; cbn [try_providers].
  - exists [], 0%nat. rewrite app_nil_r. by split_and!.
  - unfold mbind, io_bind.
    destruct (trace_after_shape p tr) as (evs1 & Htr1 & Ht1 & Hl1).
    destruct (fails_or_succeeds str_upper str_lower world self news_item p tr) as [Hf|[r Hs]].
    + rewrite (try_provider_fails _ _ _ _ _ _ _ Hf), Htr1.
      destruct (IH (tr ++ EvTrying (name p) :: evs1)) as (evs & k & -> & Hk & Ht & Hl).
      exists ((EvTrying (name p) :: evs1) ++ evs), (S k).
      rewrite app_assoc, tried_app, length_app. cbn [tried firstn map length].
      rewrite Ht1, Ht. split_and!; [done|lia|done|lia].
    + rewrite (try_provider_succeeds _ _ _ _ _ _ _ _ Hs), Htr1. cbn [fst].
      exists (EvTrying (name p) :: evs1), 1%nat. cbn [tried firstn map length].
      rewrite Ht1. split_and!; [done|lia|done|lia].
Qed.

(** X2.  A run of [analyze_news] only adds to the trace; it enters the first
    [k] providers of the chain, in the order of the chain and once each, and
    adds at most three events for each of them (the entry, at most one
    translation call and one analysis call); with the analysis disabled it
    adds nothing. *)
Theorem analyze_news_trace tr :
  ∃ evs k, (analyze_news str_upper str_lower world self news_item tr).1 = tr ++ evs
    ∧ (k ≤ length (available_providers self))%nat
    ∧ tried evs = map name (take k (available_providers self))
    ∧ (length evs ≤ 3 * k)%nat
    ∧ (analysis_enabled self = false → evs = []).
Proof.
  unfold analyze_news. destruct (analysis_enabled self); cbn [negb].
  - destruct (try_providers_trace (available_providers self) tr) as (evs & k & H).
    exists evs, k. by split_and!; try apply H.
  - exists [], 0%nat. rewrite app_nil_r. split_and!; [done|lia|done|simpl; lia|done].
Qed.

(** X3.  The translation step never raises, sends at most one generation
    call, leaves every field other than the title and the summary as it
    was, and returns the item itself when it sent no call. *)
Theorem translate_frame tr :
  ∃ evs translated_item,
    _translate_news_item_simple str_lower world self news_item tr
      = (tr ++ evs, inr translated_item)
    ∧ (length evs ≤ 1)%nat
    ∧ (∀ key, key ≠ "title"%string → key ≠ "summary"%string →
         translated_item !! key = news_item !! key)
    ∧ (evs = [] → translated_item = news_item).
Proof.
  assert (Hsame : ∃ evs translated_item,
    (tr, @inr exn _ news_item) = (tr ++ evs, inr translated_item)
    ∧ (length evs ≤ 1)%nat
    ∧ (∀ key, key ≠ "title"%string → key ≠ "summary"%string →
         translated_item !! key = news_item !! key)
    ∧ (evs = [] → translated_item = news_item)).
  { exists [], news_item. rewrite app_nil_r. split_and!; [done|simpl; lia|done..]. }
  unfold _translate_news_item_simple. cbv zeta.
  destruct (_ && _); [done|].
  destruct (available_providers self) as [|p ps]; [done|].
  unfold try_except, mbind, io_bind, lift, chat_create, mret, io_ret.
  destruct (ptype p); [|done].
  destruct (require_client p) as [e|c]; [done|].
  assert (Hcall : ∀ r, ∃ evs translated_item,
    (tr ++ [EvChat c r], @inr exn _ news_item) = (tr ++ evs, inr translated_item)
    ∧ (length evs ≤ 1)%nat
    ∧ (∀ key, key ≠ "title"%string → key ≠ "summary"%string →
         translated_item !! key = news_item !! key)
    ∧ (evs = [] → translated_item = news_item)).
  { intros r. exists [EvChat c r], news_item. by split_and!. }
  destruct (chat_completions_create _ _ _ _) as [e|content]; [apply Hcall|].
  destruct (require_str content) as [e|text]; [apply Hcall|].
  destruct (parse_translation _ _ text) as [tt ts].
  eexists [_], _. split_and!; [done|done| |done].
  intros key H1 H2. by rewrite !lookup_insert_ne.
Qed.
End Calls.

(** ** Stripping *)

Lemma lstrip_fixed c s : isspace c = false → lstrip (c :: s) = c :: s.
Proof. intros H. simpl. by rewrite H. Qed.

Lemma lstrip_cases s : lstrip s = [] ∨ ∃ c t, lstrip s = c :: t ∧ isspace c = false.
Proof.
  induction s as [|c s IH]; [by left|]. simpl.
  destruct (isspace c) eqn:E; [done|]. right. by exists c, s.
Qed.

Lemma lstrip_idempotent s : lstrip (lstrip s) = lstrip s.
Proof.
  destruct (lstrip_cases s) as [->|(c & t & -> & Hc)]; [done|]. by apply lstrip_fixed.
Qed.

Lemma lstrip_last a c : isspace c = false → ∃ a', lstrip (a ++ [c]) = a' ++ [c].
Proof.
  intros Hc. induction a as [|x a IH]; simpl.
  - rewrite Hc. by exists [].
  - destruct (isspace x); [done|]. by exists (x :: a).
Qed.

Lemma rstrip_idempotent s : rstrip (rstrip s) = rstrip s.
Proof. unfold rstrip. by rewrite rev_involutive, lstrip_idempotent. Qed.

Lemma lstrip_rstrip_lstrip s : lstrip (rstrip (lstrip s)) = rstrip (lstrip s).
Proof.
  destruct (lstrip_cases s) as [->|(c & t & -> & Hc)]; [done|].
  unfold rstrip. cbn [rev].
  destruct (lstrip_last (rev t) c Hc) as (a' & ->).
  rewrite rev_app_distr. cbn [rev app]. by apply lstrip_fixed.
Qed.

Lemma strip_idempotent s : strip (strip s) = strip s.
Proof. unfold strip. by rewrite lstrip_rstrip_lstrip, rstrip_idempotent. Qed.

Section ParserMore.
Variable str_upper : pystr → pystr.

(** X4.  The three sections the parser returns have no white space at
    either end: stripping them again changes nothing. *)
Theorem parse_sections_are_stripped text :
  strip <$> _parse_analysis_response str_upper text = _parse_analysis_response str_upper text.
Proof.
  unfold _parse_analysis_response. destruct (foldl _ _ _) as [cur secs].
  rewrite <- map_fmap_compose. apply map_fmap_ext. intros k v _. apply strip_idempotent.
Qed.

Lemma parse_line_plain key sections raw :
  is_heading_line str_upper (strip raw) = false →
  parse_line str_upper (Some key, sections) raw
  = (Some key,
     if kept_line raw then <[key := (sections !!! key) ++ strip raw ++ [LF]]> sections
     else sections).
Proof.
  intros Hh. unfold parse_line, kept_line. rewrite (heading_free_no_marker _ _ Hh).
  unfold is_heading_line in Hh.
  apply orb_false_elim in Hh as [Hh Hn]. apply orb_false_elim in Hh as [Hr Hp].
  rewrite Hr, Hp, Hn. cbn [negb].
  by destruct (negb (str_eqb (strip raw) []) && negb (startswith (strip raw) (py "##"))
               && negb (startswith (strip raw) (py "**"))).
Qed.

Lemma parse_line_idle sections raw :
  is_heading_line str_upper (strip raw) = false →
  parse_line str_upper (None, sections) raw = (None, sections).
Proof.
  intros Hh. unfold parse_line. unfold is_heading_line in Hh.
  apply orb_false_elim in Hh as [Hh Hn]. apply orb_false_elim in Hh as [Hr Hp].
  by rewrite Hr, Hp, Hn.
Qed.

Lemma scan_preamble lines : ∀ sections,
  Forall (λ l, is_heading_line str_upper (strip l) = false) lines →
  foldl (parse_line str_upper) (None, sections) lines = (None, sections).
Proof.
  induction lines as [|l lines IH]; intros sections Hl; [done|].
  inversion Hl as [|?? H1 H2]; subst. cbn [foldl]. rewrite parse_line_idle by done.
  by apply IH.
Qed.

Lemma scan_body lines : ∀ key sections,
  is_Some (sections !! key) →
  Forall (λ l, is_heading_line str_upper (strip l) = false) lines →
  foldl (parse_line str_upper) (Some key, sections) lines
  = (Some key, <[key := (sections !!! key) ++ section_body lines]> sections).
Proof.
  induction lines as [|l lines IH]; intros key sections [v Hv] Hl.
  - cbn [foldl]. unfold section_body. cbn [List.filter map concat].
    rewrite app_nil_r. f_equal. symmetry. apply insert_id.
    by rewrite (lookup_total_correct _ _ _ Hv).
  - inversion Hl as [|?? H1 H2]; subst. cbn [foldl]. rewrite parse_line_plain by done.
    unfold section_body. cbn [List.filter]. destruct (kept_line l).
    + rewrite IH; [|by rewrite lookup_insert_eq; eexists|done].
      rewrite lookup_total_insert_eq, insert_insert_eq. cbn [map concat].
      unfold section_body. by rewrite <- !app_assoc.
    + rewrite IH; [done|by eexists|done].
Qed.

(** X5.  On a text made of a preamble, a heading of the summary, a heading
    of the key points and a heading of the relevance, in this order, each
    followed by lines that are no headings, the parser returns for each
    section its lines, stripped, one per line, without the empty ones and
    those that start with [##] or [**]; the preamble is dropped. *)
Theorem parse_well_formed text pre h1 b1 h2 b2 h3 b3 :
  split_on LF text = pre ++ h1 :: b1 ++ h2 :: b2 ++ h3 :: b3 →
  Forall (λ l, is_heading_line str_upper (strip l) = false) (pre ++ b1 ++ b2 ++ b3) →
  is_resumo_heading (str_upper (strip h1)) = true →
  is_resumo_heading (str_upper (strip h2)) = false →
  is_pontos_heading (str_upper (strip h2)) = true →
  is_resumo_heading (str_upper (strip h3)) = false →
  is_pontos_heading (str_upper (strip h3)) = false →
  is_nivel_heading (str_upper (strip h3)) = true →
  _parse_analysis_response str_upper text
  = {[ "resumo_executivo"%string := strip (section_body b1);
       "pontos_chave"%string := strip (section_body b2);
       "nivel_relevancia"%string := strip (section_body b3) ]}.
Proof.
  intros Hsplit Hplain Hr1 Hr2 Hp2 Hr3 Hp3 Hn3.
  apply Forall_app in Hplain as [Hpre Hplain].
  apply Forall_app in Hplain as [Hb1 Hplain].
  apply Forall_app in Hplain as [Hb2 Hb3].
  unfold _parse_analysis_response. rewrite Hsplit.
  rewrite foldl_app, (scan_preamble _ _ Hpre). cbn [foldl].
  assert (E1 : ∀ cur s, parse_line str_upper (cur, s) h1 = (Some "resumo_executivo"%string, s)).
  { intros. unfold parse_line. by rewrite Hr1. }
  assert (E2 : ∀ cur s, parse_line str_upper (cur, s) h2 = (Some "pontos_chave"%string, s)).
  { intros. unfold parse_line. by rewrite Hr2, Hp2. }
  assert (E3 : ∀ cur s, parse_line str_upper (cur, s) h3 = (Some "nivel_relevancia"%string, s)).
  { intros. unfold parse_line. by rewrite Hr3, Hp3, Hn3. }
  rewrite E1, foldl_app, scan_body by (done || by eexists). cbn [foldl].
  rewrite E2, foldl_app, scan_body
    by (done || (rewrite lookup_insert_ne by done; by eexists)). cbn [foldl].
  rewrite E3, scan_body
    by (done || (rewrite !lookup_insert_ne by done; by eexists)).
  rewrite !lookup_total_insert_ne by done.
  apply map_eq. intros i. rewrite lookup_fmap.
  destruct (decide (i = "nivel_relevancia"%string)) as [->|Hn].
  { rewrite lookup_insert_eq. by rewrite !lookup_insert_ne, lookup_singleton_eq by done. }
  rewrite lookup_insert_ne by done.
  destruct (decide (i = "pontos_chave"%string)) as [->|Hp].
  { rewrite lookup_insert_eq. by rewrite lookup_insert_ne, lookup_insert_eq by done. }
  rewrite lookup_insert_ne by done.
  destruct (decide (i = "resumo_executivo"%string)) as [->|Hr].
  { by rewrite !lookup_insert_eq. }
  rewrite !lookup_insert_ne, lookup_singleton_ne by done.
  unfold empty_sections. by rewrite !lookup_insert_ne, lookup_singleton_ne by done.
Qed.
End ParserMore.

(** ** More on the local analysis *)

Lemma fired_bullets_sublist flags : ∀ bullets, fired_bullets flags bullets `sublist_of` bullets.
Proof.
  induction flags as [|[] flags IH]; intros [|b bullets]; cbn [fired_bullets];
    try apply sublist_nil_l.
  - by apply sublist_skip.
  - by apply sublist_cons.
Qed.

Lemma chosen_bullets_ok flags :
  let bullets := match fired_bullets flags trigger_bullets with
                 | [] => generic_bullets
                 | l => l
                 end in
  (1 ≤ length bullets ≤ 6)%nat ∧ Forall (λ b, startswith b (py "• ") = true) bullets.
Proof.
  pose proof (fired_bullets_sublist flags trigger_bullets) as Hsub.
  assert (Ht : Forall (λ b, startswith b (py "• ") = true) trigger_bullets).
  { repeat constructor. }
  destruct (fired_bullets flags trigger_bullets) as [|b l] eqn:E; cbv zeta.
  - split; [simpl; lia|]. repeat constructor.
  - split.
    + apply sublist_length in Hsub. simpl in *. lia.
    + apply Forall_forall. intros x Hx. rewrite Forall_forall in Ht. apply Ht.
      by eapply elem_of_sublist.
Qed.

Section LocalMore.
Variable str_lower : pystr → pystr.

Lemma local_pontos news_item :
  _local_analysis str_lower news_item !! "pontos_chave"%string
  = Some (JStr (join [LF]
       match fired_bullets (trigger_flags (text_lower_of str_lower news_item))
               trigger_bullets with
       | [] => generic_bullets
       | l => l
       end)).
Proof.
  unfold _local_analysis. cbv zeta. read_field.
  unfold trigger_flags, text_lower_of, trigger_bullets, generic_bullets.
  set (text := str_lower _).
  destruct (contains (py "openai") text || contains (py "chatgpt") text);
  destruct (contains (py "google") text || contains (py "gemini") text);
  destruct (contains (py "microsoft") text);
  destruct (contains (py "funding") text || contains (py "investment") text);
  destruct (contains (py "enterprise") text || contains (py "business") text);
  destruct (contains (py "developer") text || contains (py "api") text);
  reflexivity.
Qed.

(** X6.  The key points of the local analysis are the bullets of the
    triggers that fire, in the order of the checks, or the three generic
    bullets when none fires: between one and six lines, each starting with
    a bullet mark. *)
Theorem local_key_points news_item :
  ∃ bullets,
    _local_analysis str_lower news_item !! "pontos_chave"%string
      = Some (JStr (join [LF] bullets))
    ∧ bullets = match fired_bullets (trigger_flags (text_lower_of str_lower news_item))
                        trigger_bullets with
                | [] => generic_bullets
                | l => l
                end
    ∧ (1 ≤ length bullets ≤ 6)%nat
    ∧ Forall (λ b, startswith b (py "• ") = true) bullets.
Proof.
  eexists. split; [apply local_pontos|]. split; [done|]. apply chosen_bullets_ok.
Qed.
End LocalMore.

Lemma hf_resumo_length v s : hf_resumo v = inr (JStr s) → (length s ≤ 203)%nat.
Proof.
  unfold hf_resumo. destruct v as [| | |s0|l|d]; cbn [py_len]; try discriminate.
  - destruct (Nat.ltb_spec 200 (length s0)) as [Hlt|Hle]; intros H.
    + assert (s = slice_to 200 s0 ++ py "...") as -> by congruence.
      unfold slice_to. rewrite length_app. pose proof (firstn_le_length 200 s0).
      change (length (py "...")) with 3%nat. lia.
    + assert (s = s0) as -> by congruence. lia.
  - by destruct (200 <? length l)%nat.
  - by destruct (200 <? length d)%nat.
Qed.

Section SummaryAndHuggingFace.
Variables str_upper str_lower : pystr → pystr.
Variable world : backend.
Variable self : NewsAnalyzer.
Variable news_item : article.

Lemma classify_baixo h m : classify h m = Baixo ↔ h = 0%nat ∧ m = 0%nat.
Proof.
  unfold classify.
  destruct (Nat.leb_spec 2 h); [split; [done|lia]|].
  destruct (Nat.leb_spec 1 h); [split; [done|lia]|].
  destruct (Nat.leb_spec 3 m); [split; [done|lia]|].
  destruct (Nat.leb_spec 1 m); cbn [orb]; [split; [done|lia]|]. split; [lia|done].
Qed.

Lemma classify_alto h m : classify h m = Alto ↔ (2 ≤ h)%nat.
Proof.
  unfold classify.
  destruct (Nat.leb_spec 2 h); [done|].
  destruct (Nat.leb_spec 1 h); [split; [done|lia]|].
  destruct (Nat.leb_spec 3 m); [split; [done|lia]|].
  destruct (Nat.leb_spec 1 m); cbn [orb]; split; (done || lia).
Qed.

Lemma clauses_differ :
  clause_significant ≠ clause_connection ∧ clause_relevant ≠ clause_connection.
Proof.
  split; intros H; apply (f_equal (λ l, nth 14 l 0)) in H; vm_compute in H; discriminate.
Qed.

(** X7.  The executive summary of the local analysis is the title between
    fixed words, one of three sentences and the closing recommendation; the
    sentence agrees with the relevance level: it is the one about a
    connection with technology exactly when the level is Baixo, and the one
    about significant developments whenever the level is Alto. *)
Theorem local_summary_matches_level :
  let text := text_lower_of str_lower news_item in
  let high := keyword_count high_relevance_keywords text in
  let medium := keyword_count medium_relevance_keywords text in
  ∃ clause,
    _local_analysis str_lower news_item !! "resumo_executivo"%string
      = Some (JStr (py "Análise local da notícia: " ++ dict_get news_item "title" (py "N/A")
                    ++ py ". " ++ clause ++ closing_recommendation))
    ∧ (clause = clause_connection ↔ classify high medium = Baixo)
    ∧ (classify high medium = Alto → clause = clause_significant)
    ∧ (clause = clause_significant ∨ clause = clause_relevant ∨ clause = clause_connection).
Proof.
  intros text high medium.
  exists (if (0 <? high)%nat then clause_significant
          else if (0 <? medium)%nat then clause_relevant else clause_connection).
  split.
  { unfold _local_analysis. cbv zeta. read_field.
    fold (text_lower_of str_lower news_item). fold text.
    fold (keyword_count high_relevance_keywords text).
    fold (keyword_count medium_relevance_keywords text). fold high medium.
    unfold clause_significant, clause_relevant, clause_connection, closing_recommendation.
    destruct (0 <? high)%nat; [by rewrite <- !app_assoc|].
    destruct (0 <? medium)%nat; by rewrite <- !app_assoc. }
  rewrite classify_baixo, classify_alto. destruct clauses_differ as [D1 D2].
  destruct (Nat.ltb_spec 0 high) as [Hh|Hh].
  { split; [split; [intros H; by destruct D1|lia]|]. split; [done|]. by left. }
  destruct (Nat.ltb_spec 0 medium) as [Hm|Hm].
  { split; [split; [intros H; by destruct D2|lia]|]. split; [lia|]. right. by left. }
  split; [split; [lia|done]|]. split; [lia|]. right. by right.
Qed.

(** X8.  The Hugging Face path sends exactly one request and no generation
    call; the text it posts holds at most 500 characters of the content;
    a record it returns carries the title as it was, the fixed relevance
    Médio, and an executive summary of at most 203 characters when it is a
    string. *)
Theorem huggingface_path_bounds p tr :
  (_analyze_with_huggingface world news_item p tr).1
    = tr ++ [EvPost (base_url (config p) ++ py "/" ++ model (config p))
               (py "Bearer " ++ format_opt (api_key (config p)))
               (huggingface_inputs news_item)]
  ∧ (length (huggingface_inputs news_item)
     ≤ 30 + length (dict_get news_item "title" []) + 500)%nat
  ∧ ∀ r, (_analyze_with_huggingface world news_item p tr).2 = inr (Some r) →
      r !! "titulo_traduzido"%string = Some (JStr (dict_get news_item "title" []))
      ∧ r !! "nivel_relevancia"%string
        = Some (JStr (py "Médio - Análise automática via Hugging Face"))
      ∧ ∀ s, r !! "resumo_executivo"%string = Some (JStr s) → (length s ≤ 203)%nat.
Proof.
  split_and!.
  - unfold _analyze_with_huggingface, huggingface_inputs. cbv zeta.
    unfold mbind, io_bind, lift, http_post, mret, io_ret.
    destruct (requests_post _ _ _ _ _) as [e|resp]; [done|].
    destruct (_ =? _)%Z; [|done].
    destruct (response_json resp) as [e|[| | | |[|first l]|]]; try done.
    destruct (json_get first _ _) as [e|v]; [done|].
    by destruct (hf_resumo v) as [e|v'].
  - unfold huggingface_inputs, slice_to. rewrite !length_app.
    pose proof (firstn_le_length 500
                  (dict_get news_item "content" (dict_get news_item "summary" []))).
    change (length (py "Analise esta notícia de IA: ")) with 28%nat.
    change (length (py ". ")) with 2%nat. lia.
  - intros r. unfold _analyze_with_huggingface. cbv zeta.
    unfold mbind, io_bind, lift, http_post, mret, io_ret.
    destruct (requests_post _ _ _ _ _) as [e|resp]; [discriminate|].
    destruct (_ =? _)%Z; [|discriminate].
    destruct (response_json resp) as [e|[| | | |[|first l]|]]; try discriminate.
    destruct (json_get first _ _) as [e|v]; [discriminate|].
    destruct (hf_resumo v) as [e|v'] eqn:Hv; [discriminate|].
    cbn [snd]. intros [= <-]. split_and!; [by read_field..|].
    intros s. read_field. intros [= ->].
    by apply (hf_resumo_length v).
Qed.
End SummaryAndHuggingFace.

(** ** The markers of a record and the local back end *)

Section Markers.
Variables str_upper str_lower : pystr → pystr.
Variable world : backend.
Variable self : NewsAnalyzer.
Variable news_item : article.

Lemma openai_record p tr r :
  (_analyze_with_openai_compatible str_upper str_lower world self news_item p tr).2
    = inr (Some r) →
  has_translations r ∧ r !! "metodo_analise"%string = None.
Proof.
  unfold _analyze_with_openai_compatible. cbv zeta. unfold mbind, io_bind, lift, chat_create.
  destruct (if negb _ then _ else _) as [tr1 [e|item]]; [discriminate|].
  destruct (require_client p) as [e|c]; [discriminate|].
  destruct (chat_completions_create _ _ _ _) as [e|content]; [discriminate|].
  destruct (require_str content) as [e|text]; [discriminate|].
  cbn [snd]. intros [= <-]. unfold has_translations.
  split_and!; repeat (rewrite lookup_insert_ne by discriminate);
    [rewrite lookup_insert_eq; by eexists..|].
  rewrite lookup_fmap.
  assert (H : _parse_analysis_response str_upper text !! "metodo_analise"%string = None).
  { apply not_elem_of_dom. rewrite parse_sections_dom. unfold section_keys.
    rewrite elem_of_list_to_set. intros Hin.
    repeat (apply elem_of_cons in Hin as [Hin|Hin]; [discriminate|]).
    by apply elem_of_nil in Hin. }
  by rewrite H.
Qed.

Lemma huggingface_record p tr r :
  (_analyze_with_huggingface world news_item p tr).2 = inr (Some r) →
  has_translations r ∧ r !! "metodo_analise"%string = None.
Proof.
  unfold _analyze_with_huggingface. cbv zeta. unfold mbind, io_bind, lift, http_post.
  destruct (requests_post _ _ _ _ _) as [e|resp]; [discriminate|].
  destruct (_ =? _)%Z; [|discriminate].
  destruct (response_json resp) as [e|[| | | |[|first l]|]]; try discriminate.
  destruct (json_get first _ _) as [e|v]; [discriminate|].
  destruct (hf_resumo v) as [e|v']; [discriminate|].
  cbn [snd]. intros [= <-]. unfold has_translations.
  split_and!; read_field; by eauto.
Qed.

Lemma try_providers_markers ps : ∀ tr,
  ∃ tr' r, try_providers str_upper str_lower world self news_item ps tr = (tr', inr r)
    ∧ has_translations r
    ∧ (r = _local_analysis str_lower news_item
       ∨ (r !! "metodo_analise"%string = None
          ∧ (r !! "provedor_usado"%string = None
             ∨ ∃ p, p ∈ ps ∧ ptype p = openai_compatible
                    ∧ r !! "provedor_usado"%string = Some (JStr (name p))))).
Proof.
  induction ps as [|p ps IH]; intros tr; cbn [try_providers].
  - eexists _, _. split; [done|]. split; [|by left].
    unfold has_translations, _local_analysis. cbv zeta. split; read_field; by eauto.
  - unfold mbind, io_bind.
    destruct (fails_or_succeeds str_upper str_lower world self news_item p tr) as [Hf|[r Hs]].
    + rewrite (try_provider_fails _ _ _ _ _ _ _ Hf).
      destruct (IH (trace_after str_upper str_lower world self news_item p tr))
        as (tr' & r & Hrun & Htr & Hor).
      exists tr', r. split; [done|]. split; [done|].
      destruct Hor as [->|[Hm [Hp|(q & Hq & Hty & Hp)]]]; [by left|right..].
      * split; [done|by left].
      * split; [done|]. right. exists q. split; [by right|done].
    + rewrite (try_provider_succeeds _ _ _ _ _ _ _ _ Hs). eexists _, r. split; [done|].
      destruct Hs as [Hr _]. unfold analyze_with in Hr.
      destruct (ptype p) eqn:Hty.
      * destruct (openai_record _ _ _ Hr) as [Htr Hm].
        apply openai_result in Hr as [_ Hp].
        split; [done|]. right. split; [done|]. right. exists p. split; [by left|done].
      * destruct (huggingface_record _ _ _ Hr) as [Htr Hm].
        apply huggingface_result in Hr as [_ Hp].
        split; [done|]. right. split; [done|]. by left.
Qed.

(** X9.  The record [analyze_news] returns always carries a translated
    title and a translated summary, and it is either the local analysis of
    the item or a record without the local marker whose provider marker,
    when there is one, is the name of an OpenAI-compatible provider of the
    chain. *)
Theorem analyze_news_markers tr :
  ∃ tr' r, analyze_news str_upper str_lower world self news_item tr = (tr', inr r)
    ∧ has_translations r
    ∧ (r = _local_analysis str_lower news_item
       ∨ (r !! "metodo_analise"%string = None
          ∧ (r !! "provedor_usado"%string = None
             ∨ ∃ p, p ∈ available_providers self ∧ ptype p = openai_compatible
                    ∧ r !! "provedor_usado"%string = Some (JStr (name p))))).
Proof.
  unfold analyze_news. destruct (analysis_enabled self); cbn [negb].
  - apply try_providers_markers.
  - eexists _, _. split; [done|]. split; [|by left].
    unfold has_translations, _local_analysis. cbv zeta. split; read_field; by eauto.
Qed.

(** X10.  For the provider named ollama the analysis path sends one
    generation call only, for the prompt of the item as it is, with 1500
    tokens and temperature 0.5; on an answer the record carries the title
    and the summary of the item untranslated and the sections parsed from
    the answer. *)
Theorem ollama_attempt_skips_translation p c tr :
  name p = py "ollama" → client p = Some c →
  let request := {| req_model := model (config p);
                    req_system := analyst_persona;
                    req_user := _create_analysis_prompt news_item;
                    req_max_tokens := 1500;
                    req_temperature := 5 |} in
  (_analyze_with_openai_compatible str_upper str_lower world self news_item p tr).1
    = tr ++ [EvChat c request]
  ∧ ∀ text, chat_completions_create world tr c request = inr (Some text) →
      ∃ r, (_analyze_with_openai_compatible str_upper str_lower world self news_item p tr).2
             = inr (Some r)
        ∧ r !! "titulo_traduzido"%string = Some (JStr (dict_get news_item "title" []))
        ∧ r !! "resumo_traduzido"%string = Some (JStr (dict_get news_item "summary" []))
        ∧ ∀ key, key ∈ section_keys →
            r !! key = JStr <$> (_parse_analysis_response str_upper text !! key).
Proof.
  intros Hn Hc request. unfold _analyze_with_openai_compatible. cbv zeta.
  rewrite Hn. replace (str_eqb (py "ollama") (py "ollama")) with true by reflexivity.
  cbn [negb]. unfold mbind, io_bind, lift, chat_create, mret, io_ret, require_client.
  rewrite Hc. fold request. split.
  - destruct (chat_completions_create _ _ _ _) as [e|content]; [done|].
    by destruct (require_str content).
  - intros text ->. cbn [require_str snd]. eexists. split; [done|].
    split_and!.
    + rewrite lookup_insert_ne by discriminate. rewrite lookup_insert_ne by discriminate.
      rewrite lookup_insert_eq. unfold dict_get.
      by destruct (news_item !! "title"%string).
    + rewrite lookup_insert_ne by discriminate. rewrite lookup_insert_eq. unfold dict_get.
      by destruct (news_item !! "summary"%string).
    + intros key Hk. unfold section_keys in Hk.
      repeat (apply elem_of_cons in Hk as [->|Hk]); [..|by apply elem_of_nil in Hk];
        rewrite !lookup_insert_ne by discriminate; by rewrite lookup_fmap.
Qed.
End Markers.

(** ** The further properties on the scenarios *)

Lemma parse_well_formed_witness :
  _parse_analysis_response latin1_upper well_formed_answer
  = {[ "resumo_executivo"%string := strip (section_body [py "Um resumo."; []]);
       "pontos_chave"%string := strip (section_body [py "- um ponto"; py "- outro ponto"]);
       "nivel_relevancia"%string := strip (section_body [py "Alto - motivo"]) ]}.
Proof.
  apply (parse_well_formed latin1_upper well_formed_answer
           [py "Segue a análise:"] (py "## RESUMO EXECUTIVO") [py "Um resumo."; []]
           (py "## PONTOS-CHAVE") [py "- um ponto"; py "- outro ponto"]
           (py "## NÍVEL DE RELEVÂNCIA") [py "Alto - motivo"]).
  - vm_compute. reflexivity.
  - repeat (constructor; [vm_compute; reflexivity|]). constructor.
  - vm_compute. reflexivity.
  - vm_compute. reflexivity.
  - vm_compute. reflexivity.
  - vm_compute. reflexivity.
  - vm_compute. reflexivity.
  - vm_compute. reflexivity.
Defined.

Lemma local_summary_matches_level_witness :
  ∃ clause,
    _local_analysis latin1_lower article_two_labs !! "resumo_executivo"%string
      = Some (JStr (py "Análise local da notícia: "
                    ++ dict_get article_two_labs "title" (py "N/A")
                    ++ py ". " ++ clause ++ closing_recommendation))
    ∧ clause = clause_significant.
Proof.
  destruct (local_summary_matches_level latin1_lower article_two_labs)
    as (clause & Hr & _ & Halto & _).
  exists clause. split; [exact Hr|]. apply Halto. vm_compute. reflexivity.
Defined.

Lemma huggingface_path_bounds_witness :
  ∃ r, (_analyze_with_huggingface world_hf_answers article_english provider_huggingface []).2
       = inr (Some r)
    ∧ r !! "nivel_relevancia"%string
      = Some (JStr (py "Médio - Análise automática via Hugging Face")).
Proof.
  exists (record_of
            (analyze_news latin1_upper latin1_lower world_hf_answers
               {| available_providers := [provider_huggingface]; analysis_enabled := true |}
               article_english [])).
  assert (H : (_analyze_with_huggingface world_hf_answers article_english
                 provider_huggingface []).2
              = inr (Some (record_of
                  (analyze_news latin1_upper latin1_lower world_hf_answers
                     {| available_providers := [provider_huggingface];
                        analysis_enabled := true |}
                     article_english [])))).
  { vm_compute. reflexivity. }
  split; [exact H|].
  apply (proj2 (proj2 (huggingface_path_bounds world_hf_answers article_english
                          provider_huggingface [])) _ H).
Defined.

Lemma ollama_attempt_skips_translation_witness :
  (_analyze_with_openai_compatible latin1_upper latin1_lower world_translator
     analyzer_ollama_only article_english provider_ollama []).1
  = [] ++ [EvChat client_ollama
             {| req_model := model (config provider_ollama);
                req_system := analyst_persona;
                req_user := _create_analysis_prompt article_english;
                req_max_tokens := 1500;
                req_temperature := 5 |}].
Proof.
  apply (ollama_attempt_skips_translation latin1_upper latin1_lower world_translator
           analyzer_ollama_only article_english provider_ollama client_ollama []);
    reflexivity.
Defined.

(** ** The page generator and the main loop *)

Lemma split_str_from_no_sep sep s : ∀ cur,
  contains sep s = false → split_str_from sep 0 cur s = [rev cur ++ s].
Proof.
  induction s as [|c s IH]; intros cur Hc.
  - cbn [split_str_from]. by rewrite app_nil_r.
  - rewrite contains_unfold in Hc. apply orb_false_elim in Hc as [Hs Hc].
    cbn [split_str_from]. rewrite Hs, IH by done. cbn [rev].
    by rewrite <- app_assoc.
Qed.

Lemma split_str_no_sep s sep : contains sep s = false → split_str s sep = [s].
Proof. intros H. unfold split_str. by rewrite split_str_from_no_sep. Qed.

(** X11.  On a text that is not empty and holds no backslash followed by
    the letter n, the formatter makes no cut, even at the newlines: the
    whole text is one list item when, once stripped, it starts with a
    bullet mark or a hyphen, and a paragraph otherwise. *)
Theorem format_pontos_chave_without_separator pontos_chave :
  pontos_chave ≠ [] → contains backslash_n pontos_chave = false →
  _format_pontos_chave pontos_chave
  = if negb (str_eqb (strip pontos_chave) [])
       && (startswith (strip pontos_chave) (py "•")
           || startswith (strip pontos_chave) (py "-"))
    then py "<ul>" ++ (py "<li>" ++ strip (drop 1 (strip pontos_chave)) ++ py "</li>")
         ++ py "</ul>"
    else py "<p>" ++ pontos_chave ++ py "</p>".
Proof.
  intros Hne Hsep. unfold _format_pontos_chave, formatted_lines, str_eqb at 1.
  rewrite bool_decide_eq_false_2 by done. rewrite split_str_no_sep by done.
  cbn [foldl]. destruct (_ && _); [|done]. cbn [app concat]. by rewrite app_nil_r.
Qed.

Lemma contains_needs_first c sep s : c ∉ s → contains (c :: sep) s = false.
Proof.
  induction s as [|x s IH]; intros Hc; [done|].
  rewrite contains_unfold. cbn [startswith].
  destruct (N.eqb_spec c x) as [->|Hne]; [destruct Hc; by left|].
  cbn [andb orb]. apply IH. intros Hin. apply Hc. by right.
Qed.

Lemma join_elem c sep parts :
  c ∉ sep → Forall (λ p, c ∉ p) parts → c ∉ join sep parts.
Proof.
  intros Hsep. induction 1 as [|p parts Hp Hparts IH]; [by apply not_elem_of_nil|].
  cbn [join]. destruct parts as [|q parts]; [done|].
  rewrite !elem_of_app. intros [?|[?|?]]; [done|done|by apply IH].
Qed.

Lemma strip_keeps_first c s : isspace c = false → ∃ t, strip (c :: s) = c :: t.
Proof.
  intros Hc. unfold strip, rstrip. rewrite lstrip_fixed by done. cbn [rev].
  destruct (lstrip_last (rev s) c Hc) as (a & ->). rewrite rev_app_distr.
  by eexists.
Qed.

Lemma absent_by_scan (c : N) s : forallb (λ x, negb (x =? c)) s = true → c ∉ s.
Proof.
  intros Hall Hin. rewrite forallb_forall in Hall.
  apply list_elem_of_In, Hall in Hin. by rewrite N.eqb_refl in Hin.
Qed.

Lemma chosen_bullets_plain flags :
  Forall (λ b, (92 : N) ∉ b)
    match fired_bullets flags trigger_bullets with
    | [] => generic_bullets
    | l => l
    end.
Proof.
  assert (Ht : Forall (λ b, (92 : N) ∉ b) trigger_bullets).
  { repeat (constructor; [apply absent_by_scan; vm_compute; reflexivity|]). constructor. }
  pose proof (fired_bullets_sublist flags trigger_bullets) as Hsub.
  destruct (fired_bullets flags trigger_bullets) as [|b l] eqn:E.
  - repeat (constructor; [apply absent_by_scan; vm_compute; reflexivity|]). constructor.
  - apply Forall_forall. intros x Hx. rewrite Forall_forall in Ht. apply Ht.
    by eapply elem_of_sublist.
Qed.

Section Page.
Variable str_lower : pystr → pystr.

(** X12.  The newline-joined key points of the local analysis, up to six
    bullets, come out of the formatter as a list of one single item, which
    holds everything after the first bullet mark. *)
Theorem local_key_points_are_one_item news_item :
  ∃ pontos_chave,
    _local_analysis str_lower news_item !! "pontos_chave"%string = Some (JStr pontos_chave)
    ∧ length (formatted_lines pontos_chave) = 1%nat
    ∧ _format_pontos_chave pontos_chave
      = py "<ul>" ++ (py "<li>" ++ strip (drop 1 (strip pontos_chave)) ++ py "</li>")
        ++ py "</ul>".
Proof.
  pose proof (local_pontos str_lower news_item) as Hp.
  destruct (chosen_bullets_ok (trigger_flags (text_lower_of str_lower news_item)))
    as [Hlen Hstart].
  set (bullets := match fired_bullets _ trigger_bullets with
                  | [] => generic_bullets
                  | l => l
                  end) in *.
  assert (Hb : bullets = match fired_bullets
                                 (trigger_flags (text_lower_of str_lower news_item))
                                 trigger_bullets with
                         | [] => generic_bullets
                         | l => l
                         end) by done.
  clearbody bullets.
  exists (join [LF] bullets). split; [done|].
  assert (Hplain : (92 : N) ∉ join [LF] bullets).
  { apply join_elem; [apply absent_by_scan; reflexivity|].
    rewrite Hb. apply chosen_bullets_plain. }
  assert (Hsep : contains backslash_n (join [LF] bullets) = false).
  { by apply contains_needs_first. }
  destruct bullets as [|b bullets]; [simpl in Hlen; lia|].
  apply Forall_cons in Hstart as [Hb1 _].
  destruct b as [|c b]; [discriminate|].
  assert (c = 8226) as ->.
  { cbn [startswith] in Hb1. apply andb_true_iff in Hb1 as [Hc _].
    symmetry. by apply N.eqb_eq. }
  assert (Hjoin : ∃ t, join [LF] ((8226 :: b) :: bullets) = 8226 :: t).
  { cbn [join]. destruct bullets; by eexists. }
  destruct Hjoin as (t & Ht). rewrite Ht in *.
  destruct (strip_keeps_first 8226 t eq_refl) as (t' & Hs).
  assert (Hfmt : formatted_lines (8226 :: t)
                 = [py "<li>" ++ strip (drop 1 (strip (8226 :: t))) ++ py "</li>"]).
  { unfold formatted_lines. rewrite split_str_no_sep by done. cbn [foldl].
    rewrite Hs. replace (str_eqb (8226 :: t') []) with false by reflexivity.
    replace (startswith (8226 :: t') (py "•")) with true by reflexivity. done. }
  split; [by rewrite Hfmt|].
  unfold _format_pontos_chave. rewrite Hfmt.
  replace (str_eqb (8226 :: t) []) with false by reflexivity.
  cbn [concat]. by rewrite app_nil_r.
Qed.

(** X13.  On the page a locally analysed item gets the class of the level
    the analyzer gave it, alto, medio or baixo, provided [lower] acts on
    the three fixed relevance texts as it does on Latin-1. *)
Theorem card_class_of_local_analysis (lower_page : pystr → pystr) news_item :
  (∀ h m, lower_page (relevancia_text h m) = latin1_lower (relevancia_text h m)) →
  let text := text_lower_of str_lower news_item in
  ∃ icon colour,
    card_relevancia lower_page (_local_analysis str_lower news_item)
    = inr (class_of_level
             (classify (keyword_count high_relevance_keywords text)
                       (keyword_count medium_relevance_keywords text)),
           icon, colour).
Proof.
  intros Hlower text. unfold card_relevancia. rewrite local_nivel. cbn [from_option id].
  rewrite Hlower. fold text. unfold relevancia_text, classify.
  destruct (2 <=? _)%nat; [by eexists _, _|].
  destruct (_ || _); [by eexists _, _|].
  destruct (1 <=? _)%nat; by eexists _, _.
Qed.

End Page.

Section MainLoop.
Variables str_upper str_lower : pystr → pystr.
Variable world : backend.
Variable news_analyzer : NewsAnalyzer.

Lemma try_providers_relevance news_item ps : ∀ tr,
  ∃ tr' r, try_providers str_upper str_lower world news_analyzer news_item ps tr
           = (tr', inr r)
    ∧ has_sections r ∧ relevance_is_text r.
Proof.
  induction ps as [|p ps IH]; intros tr; cbn [try_providers].
  - eexists _, _. split; [done|]. split; [apply local_analysis_has_sections|].
    eexists. apply local_nivel.
  - unfold mbind, io_bind.
    destruct (fails_or_succeeds str_upper str_lower world news_analyzer news_item p tr)
      as [Hf|[r Hs]].
    + rewrite (try_provider_fails _ _ _ _ _ _ _ Hf). apply IH.
    + rewrite (try_provider_succeeds _ _ _ _ _ _ _ _ Hs). eexists _, r. split; [done|].
      split; [by eapply success_has_sections|].
      destruct Hs as [Hr _]. unfold analyze_with in Hr. destruct (ptype p).
      * revert Hr. unfold _analyze_with_openai_compatible. cbv zeta.
        unfold mbind, io_bind, lift, chat_create.
        destruct (if negb _ then _ else _) as [tr1 [e|item]]; [discriminate|].
        destruct (require_client p) as [e|c]; [discriminate|].
        destruct (chat_completions_create _ _ _ _) as [e|content]; [discriminate|].
        destruct (require_str content) as [e|text]; [discriminate|].
        cbn [snd]. intros [= <-]. unfold relevance_is_text.
        rewrite !lookup_insert_ne by discriminate. rewrite lookup_fmap.
        destruct (parse_has_section str_upper text "nivel_relevancia"%string) as [v ->];
          [unfold section_keys; set_solver|]. by eexists.
      * revert Hr. unfold _analyze_with_huggingface. cbv zeta.
        unfold mbind, io_bind, lift, http_post.
        destruct (requests_post _ _ _ _ _) as [e|resp]; [discriminate|].
        destruct (_ =? _)%Z; [|discriminate].
        destruct (response_json resp) as [e|[| | | |[|first l]|]]; try discriminate.
        destruct (json_get first _ _) as [e|v]; [discriminate|].
        destruct (hf_resumo v) as [e|v']; [discriminate|].
        cbn [snd]. intros [= <-]. eexists. by read_field.
Qed.

Lemma analyze_news_relevance news_item tr :
  ∃ tr' r, analyze_news str_upper str_lower world news_analyzer news_item tr = (tr', inr r)
    ∧ has_sections r ∧ relevance_is_text r.
Proof.
  unfold analyze_news. destruct (analysis_enabled news_analyzer); cbn [negb].
  - apply try_providers_relevance.
  - eexists _, _. split; [done|]. split; [apply local_analysis_has_sections|].
    eexists. apply local_nivel.
Qed.

Lemma has_sections_nonempty r : has_sections r → r ≠ ∅.
Proof. intros ([v Hv] & _) ->. by rewrite lookup_empty in Hv. Qed.

(** X14.  The loop of [main] keeps every item of the crawl, in order, each
    with a record that holds the three sections and a relevance that is a
    string, so that the page finds a class for each of them; no failure of
    a provider makes it drop an item. *)
Theorem main_analyzes_every_item news_data : ∀ analyzed_news tr,
  ∃ tr' out,
    analyze_all str_upper str_lower world news_analyzer news_data analyzed_news tr
      = (tr', inr (analyzed_news ++ out))
    ∧ map item_fields out = map (delete "analysis"%string) news_data
    ∧ Forall (λ a, has_sections (item_analysis a)
                   ∧ ∀ lower_page, ∃ c, card_relevancia lower_page (item_analysis a) = inr c)
        out.
Proof.
  induction news_data as [|news rest IH]; intros acc tr; cbn [analyze_all].
  - exists tr, []. rewrite app_nil_r. by split_and!.
  - unfold mbind at 1, io_bind at 1, try_except, mbind, io_bind.
    destruct (analyze_news_relevance news tr) as (tr1 & r & -> & Hsec & [s Hs]).
    rewrite bool_decide_eq_true_2 by (by apply has_sections_nonempty).
    unfold mret, io_ret.
    destruct (IH (acc ++ [with_analysis news r]) tr1) as (tr' & out & -> & Hf & Hall).
    exists tr', (with_analysis news r :: out). rewrite <- app_assoc.
    split; [done|]. split; [cbn [map item_fields with_analysis]; by rewrite Hf|].
    constructor; [|done]. split; [done|]. intros lower_page.
    unfold card_relevancia. cbn [item_analysis with_analysis]. rewrite Hs. cbn [from_option id].
    destruct (contains _ _); [by eexists|]. destruct (contains _ _); by eexists.
Qed.
End MainLoop.

Lemma format_pontos_chave_without_separator_witness :
  _format_pontos_chave (py "- um ponto
- outro ponto")
  = if negb (str_eqb (strip (py "- um ponto
- outro ponto")) [])
       && (startswith (strip (py "- um ponto
- outro ponto")) (py "•")
           || startswith (strip (py "- um ponto
- outro ponto")) (py "-"))
    then py "<ul>" ++ (py "<li>" ++ strip (drop 1 (strip (py "- um ponto
- outro ponto"))) ++ py "</li>")
         ++ py "</ul>"
    else py "<p>" ++ py "- um ponto
- outro ponto" ++ py "</p>".
Proof.
  apply format_pontos_chave_without_separator.
  - vm_compute. discriminate.
  - vm_compute. reflexivity.
Defined.

Lemma card_class_of_local_analysis_witness :
  ∃ icon colour,
    card_relevancia latin1_lower (_local_analysis latin1_lower article_two_labs)
    = inr (class_of_level
             (classify
                (keyword_count high_relevance_keywords
                   (text_lower_of latin1_lower article_two_labs))
                (keyword_count medium_relevance_keywords
                   (text_lower_of latin1_lower article_two_labs))),
           icon, colour).
Proof.
  apply (card_class_of_local_analysis latin1_lower latin1_lower article_two_labs).
  reflexivity.
Defined.

(** ** The crawlers *)

Lemma space_literal : py " " = [32].
Proof. reflexivity. Qed.

Lemma split_ws_aux_run w : ∀ cur rest,
  Forall (λ c, isspace c = false) w →
  split_ws_aux cur (w ++ rest) = split_ws_aux (rev w ++ cur) rest.
Proof.
  induction w as [|c w IH]; intros cur rest Hw; [done|].
  apply Forall_cons in Hw as [Hc Hw]. cbn [app split_ws_aux]. rewrite Hc.
  rewrite IH by done. cbn [rev]. by rewrite <- app_assoc.
Qed.

Lemma split_ws_aux_words s : ∀ cur,
  Forall (λ c, isspace c = false) cur → Forall word (split_ws_aux cur s).
Proof.
  assert (Hrev : ∀ cur, cur ≠ [] → Forall (λ c, isspace c = false) cur → word (rev cur)).
  { intros cur Hne Hcur. split.
    - intros Hr. apply Hne. by rewrite <- (rev_involutive cur), Hr.
    - by apply Forall_rev. }
  induction s as [|c s IH]; intros cur Hcur; cbn [split_ws_aux].
  - destruct cur as [|x cur]; [constructor|]. constructor; [|constructor].
    by apply Hrev.
  - destruct (isspace c) eqn:E.
    + destruct cur as [|x cur]; [by apply IH|].
      constructor; [by apply Hrev|]. by apply IH.
    + apply IH. by constructor.
Qed.

Lemma split_ws_words s : Forall word (split_ws s).
Proof. by apply split_ws_aux_words. Qed.

Lemma split_ws_join ws : Forall word ws → split_ws (join (py " ") ws) = ws.
Proof.
  rewrite space_literal. induction 1 as [|w ws [Hne Hw] Hws IH]; [done|].
  assert (Hrw : rev w ≠ []).
  { intros Hr. apply Hne. by rewrite <- (rev_involutive w), Hr. }
  cbn [join]. destruct ws as [|w' ws].
  - unfold split_ws. rewrite <- (app_nil_r w) at 1. rewrite split_ws_aux_run by done.
    rewrite app_nil_r. cbn [split_ws_aux].
    destruct (rev w) eqn:E; [done|]. by rewrite <- E, rev_involutive.
  - unfold split_ws. rewrite split_ws_aux_run by done. rewrite app_nil_r.
    cbn [app split_ws_aux]. replace (isspace 32) with true by reflexivity.
    destruct (rev w) eqn:E; [done|]. rewrite <- E, rev_involutive.
    f_equal. exact IH.
Qed.

Lemma join_words_head ws :
  Forall word ws → ws ≠ [] →
  ∃ c t, join (py " ") ws = c :: t ∧ isspace c = false.
Proof.
  intros Hws Hne. destruct Hws as [|w ws [Hw Hall] Hws]; [done|].
  destruct w as [|c w]; [done|]. apply Forall_cons in Hall as [Hc _].
  cbn [join]. destruct ws; by eexists _, _.
Qed.

Lemma join_words_last ws :
  Forall word ws → ws ≠ [] →
  ∃ c t, rev (join (py " ") ws) = c :: t ∧ isspace c = false.
Proof.
  induction 1 as [|w ws [Hw Hall] Hws IH]; intros Hne; [done|].
  cbn [join]. destruct ws as [|w' ws].
  - apply Forall_rev in Hall. destruct (rev w) as [|c t] eqn:E.
    + destruct Hw. by rewrite <- (rev_involutive w), E.
    + apply Forall_cons in Hall as [Hc _]. by eexists _, _.
  - destruct IH as (c & t & Ht & Hc); [done|].
    rewrite !rev_app_distr, Ht. by eexists _, _.
Qed.

Lemma strip_join_words ws : Forall word ws → strip (join (py " ") ws) = join (py " ") ws.
Proof.
  intros Hws. destruct ws as [|w ws]; [done|].
  destruct (join_words_head _ Hws) as (c & t & Hj & Hc); [done|].
  destruct (join_words_last _ Hws) as (c' & t' & Hr & Hc'); [done|].
  unfold strip, rstrip. rewrite Hj, (lstrip_fixed c t Hc), <- Hj, Hr.
  rewrite (lstrip_fixed c' t' Hc'), <- Hr. apply rev_involutive.
Qed.

Lemma clean_text_words text : clean_text text = join (py " ") (split_ws text).
Proof.
  unfold clean_text, str_eqb. case_bool_decide as H; [by subst|].
  apply strip_join_words, split_ws_words.
Qed.

Lemma join_words_spaces ws : Forall word ws → spaces_only (join (py " ") ws).
Proof.
  rewrite space_literal. unfold spaces_only.
  induction 1 as [|w ws [_ Hw] Hws IH]; [constructor|].
  assert (Hw' : Forall (λ c, isspace c = true → c = 32) w).
  { eapply Forall_impl; [exact Hw|]. intros c Hc Hs. congruence. }
  cbn [join]. destruct ws as [|w' ws]; [done|].
  apply Forall_app. split; [done|]. apply Forall_app. split; [|done].
  by constructor.
Qed.

(** X15.  [clean_text] returns the words of the text, in order, with one
    plain space between two of them: the last [strip] finds nothing to
    remove, the result has the words of the text, no whitespace other than
    the plain space, and cleaning it again changes nothing. *)
Theorem clean_text_normalises text :
  clean_text text = join (py " ") (split_ws text)
  ∧ split_ws (clean_text text) = split_ws text
  ∧ spaces_only (clean_text text)
  ∧ strip (clean_text text) = clean_text text
  ∧ clean_text (clean_text text) = clean_text text.
Proof.
  pose proof (split_ws_words text) as Hw.
  rewrite !clean_text_words, split_ws_join by done.
  split_and!; [done|done|by apply join_words_spaces|by apply strip_join_words|done].
Qed.

Lemma extracted_fields title content author published_date :
  ∃ stored summary,
    extracted title content author published_date !! "content"%string = Some stored
    ∧ extracted title content author published_date !! "summary"%string = Some summary
    ∧ (length stored ≤ 2000)%nat
    ∧ (length summary ≤ 303)%nat
    ∧ (summary = stored
       ∨ (300 < length stored)%nat ∧ summary = take 300 stored ++ py "...")
    ∧ dom (extracted title content author published_date)
      = {[ "title"; "content"; "author"; "published_date"; "summary" ]}%string.
Proof.
  unfold extracted, slice_to.
  exists (take 2000 content),
         (if (300 <? length content)%nat then take 300 content ++ py "..." else content).
  split; [by read_field|]. split; [by read_field|].
  split; [apply firstn_le_length|].
  split.
  { destruct (Nat.ltb_spec 300 (length content)) as [Hlt|Hle].
    - rewrite length_app. pose proof (firstn_le_length 300 content).
      replace (length (py "...")) with 3%nat by reflexivity. lia.
    - lia. }
  split.
  { destruct (Nat.ltb_spec 300 (length content)) as [Hlt|Hle].
    - right. split; [rewrite length_take; lia|].
      by rewrite take_take, Nat.min_l by lia.
    - left. by rewrite take_ge by lia. }
  rewrite !dom_insert_L, dom_singleton_L. set_solver.
Qed.

(** X16.  Whatever the page, an article a source extracts has exactly the
    five fields title, content, author, published_date and summary; its
    content has at most 2000 characters and its summary at most 303; the
    summary is the content itself, or, when the content has more than 300
    characters, its first 300 followed by three dots. *)
Theorem extracted_article_bounds (a : article) :
  (∃ response, techcrunch_extract_article_content response = Some a)
  ∨ (∃ response, feed_extract_article_content response = Some a) →
  ∃ content summary,
    a !! "content"%string = Some content
    ∧ a !! "summary"%string = Some summary
    ∧ (length content ≤ 2000)%nat
    ∧ (length summary ≤ 303)%nat
    ∧ (summary = content
       ∨ (300 < length content)%nat ∧ summary = take 300 content ++ py "...")
    ∧ dom a = {[ "title"; "content"; "author"; "published_date"; "summary" ]}%string.
Proof.
  intros [[[soup|] H]|[[soup|] H]]; try discriminate.
  - unfold techcrunch_extract_article_content in H. cbv zeta in H.
    injection H as <-. apply extracted_fields.
  - unfold feed_extract_article_content in H. cbv zeta in H.
    injection H as <-. apply extracted_fields.
Qed.

Lemma lstrip_nil s : lstrip s = [] ↔ Forall (λ c, isspace c = true) s.
Proof.
  induction s as [|c s IH]; cbn [lstrip]; [by split|].
  destruct (isspace c) eqn:E.
  - rewrite IH. split; [by constructor|]. by intros [_ ?]%Forall_cons.
  - split; [done|]. intros [? _]%Forall_cons. congruence.
Qed.

Lemma strip_nil s : strip s = [] ↔ Forall (λ c, isspace c = true) s.
Proof.
  unfold strip, rstrip. split.
  - intros H. apply (f_equal (@rev _)) in H. rewrite rev_involutive in H.
    cbn [rev] in H. apply lstrip_nil, Forall_rev in H. rewrite rev_involutive in H.
    destruct (lstrip_cases s) as [Hs|(c & t & Hs & Hc)]; [by apply lstrip_nil|].
    rewrite Hs in H. apply Forall_cons in H as [? _]. congruence.
  - intros H. apply lstrip_nil in H. by rewrite H.
Qed.

Lemma split_ws_aux_cons x cur s : split_ws_aux (x :: cur) s ≠ [].
Proof.
  revert x cur. induction s as [|c s IH]; intros x cur; cbn [split_ws_aux]; [done|].
  destruct (isspace c); [done|]. apply IH.
Qed.

Lemma split_ws_nil s : split_ws s = [] ↔ Forall (λ c, isspace c = true) s.
Proof.
  unfold split_ws. induction s as [|c s IH]; cbn [split_ws_aux]; [by split|].
  destruct (isspace c) eqn:E.
  - rewrite IH. split; [by constructor|]. by intros [_ ?]%Forall_cons.
  - split; [by intros ?%split_ws_aux_cons|]. intros [? _]%Forall_cons. congruence.
Qed.

Lemma nonblank_words t : nonblank t = negb (bool_decide (split_ws t = [])).
Proof.
  unfold nonblank, str_eqb. f_equal. apply bool_decide_ext.
  by rewrite strip_nil, split_ws_nil.
Qed.

Lemma join_app sep (a b : list pystr) :
  a ≠ [] → b ≠ [] → join sep (a ++ b) = join sep a ++ sep ++ join sep b.
Proof.
  intros Ha Hb. induction a as [|x a IH]; [done|].
  destruct a as [|y a].
  - cbn [app join]. by destruct b.
  - change ((x :: y :: a) ++ b) with (x :: (y :: a) ++ b).
    change (join sep (x :: (y :: a) ++ b))
      with (x ++ sep ++ join sep ((y :: a) ++ b)).
    rewrite IH by done. cbn [join]. by rewrite <- !app_assoc.
Qed.

Lemma join_join sep (wss : list (list pystr)) :
  Forall (λ ws, ws ≠ []) wss →
  join sep (map (join sep) wss) = join sep (concat wss).
Proof.
  induction 1 as [|ws wss Hws Hwss IH]; [done|].
  destruct wss as [|ws' wss].
  - cbn [map join concat]. by rewrite app_nil_r.
  - change (join sep (map (join sep) (ws :: ws' :: wss)))
      with (join sep ws ++ sep ++ join sep (map (join sep) (ws' :: wss))).
    rewrite IH. change (concat (ws :: ws' :: wss)) with (ws ++ concat (ws' :: wss)).
    rewrite join_app; [done|done|].
    apply Forall_cons in Hwss as [Hne _]. cbn [concat]. by destruct ws'.
Qed.

Lemma words_of_filter ps : words_of (List.filter nonblank ps) = words_of ps.
Proof.
  unfold words_of. induction ps as [|p ps IH]; [done|].
  cbn [List.filter]. rewrite nonblank_words. case_bool_decide as H; cbn [negb map concat].
  - by rewrite H, IH.
  - by rewrite IH.
Qed.

Lemma words_of_words ps : Forall word (words_of ps).
Proof.
  unfold words_of. induction ps as [|p ps IH]; [constructor|].
  cbn [map concat]. apply Forall_app. split; [apply split_ws_words|done].
Qed.

Lemma join_cleaned ps :
  join (py " ") (map clean_text (List.filter nonblank ps)) = join (py " ") (words_of ps).
Proof.
  rewrite <- words_of_filter. unfold words_of.
  rewrite <- join_join.
  - f_equal. rewrite map_map. apply map_ext. intros p. apply clean_text_words.
  - apply Forall_map, Forall_forall. intros p Hp.
    apply list_elem_of_In, filter_In in Hp as [_ Hp].
    rewrite nonblank_words in Hp. by case_bool_decide.
Qed.

(** X17.  The content a feed source reads off a page is the words of its
    paragraphs, in order, with one plain space between two of them, blank
    paragraphs leaving no trace; when the paragraphs hold no word at all it
    is the fixed text for a content not found.  It is never blank. *)
Theorem feed_content_words soup :
  feed_content soup
  = match words_of (feed_paragraphs soup) with
    | [] => py "Conteúdo não encontrado"
    | words => join (py " ") words
    end
  ∧ nonblank (feed_content soup) = true
  ∧ clean_text (feed_content soup) = feed_content soup.
Proof.
  unfold feed_content. cbv zeta. rewrite join_cleaned.
  pose proof (words_of_words (feed_paragraphs soup)) as Hw.
  destruct (words_of (feed_paragraphs soup)) as [|w ws] eqn:E.
  - split_and!; reflexivity.
  - assert (Hn : nonblank (join (py " ") (w :: ws)) = true).
    { unfold nonblank, str_eqb. rewrite strip_join_words by done.
      destruct (join_words_head _ Hw) as (c & t & -> & _); done. }
    rewrite Hn. cbn [negb]. split_and!; [done|done|].
    by rewrite clean_text_words, split_ws_join.
Qed.


Section SourcesFacts.
Variable str_lower : pystr → pystr.




Lemma related_links_cons keywords entry entries :
  related_links str_lower keywords (entry :: entries)
  = match entry_link entry, entry_title entry with
    | Some link, Some title =>
        if is_ai_related str_lower keywords title entry
        then link :: related_links str_lower keywords entries
        else related_links str_lower keywords entries
    | _, _ => related_links str_lower keywords entries
    end.
Proof.
  unfold related_links. change (omap ?f (?x :: ?l))
    with (match f x with Some y => y :: omap f l | None => omap f l end).
  destruct entry as [[title|] [link|] summary]; cbn [entry_link entry_title]; try done.
  by destruct (is_ai_related _ _ _ _).
Qed.

Lemma venturebeat_loop entries : ∀ urls,
  (length urls < 15)%nat →
  venturebeat_entries str_lower entries urls
  = take 15 (urls ++ related_links str_lower venturebeat_ai_keywords entries).
Proof.
  induction entries as [|entry entries IH]; intros urls Hlen;
    cbn [venturebeat_entries].
  - unfold related_links. cbn [omap list_omap]. rewrite app_nil_r, take_ge by lia. done.
  - rewrite related_links_cons.
    destruct (entry_link entry) as [link|]; [|by apply IH].
    destruct (entry_title entry) as [title|]; [|by apply IH].
    destruct (is_ai_related _ _ _ _); [|by apply IH].
    cbv zeta. destruct (Nat.leb_spec 15 (length (urls ++ [link]))) as [Hge|Hlt].
    + assert (Hlen' : length (urls ++ [link]) = 15%nat).
      { rewrite length_app in *. cbn [length] in *. lia. }
      rewrite (cons_middle link urls (related_links _ _ _)), (app_assoc urls [link]).
      rewrite take_app_le by lia. by rewrite take_ge by lia.
    + rewrite IH by done. by rewrite <- app_assoc.
Qed.

(** X19.  Stopping at the fifteenth address, as the loop of
    [VentureBeatCrawler.get_news_urls] does, returns the first fifteen of
    the links of the entries that have a link and a title and pass the
    keyword test on title or summary; entries without a link or a title are
    passed over, and a feed that fails to parse gives no address. *)
Theorem venturebeat_urls_spec feed :
  venturebeat_get_news_urls str_lower feed
  = match feed with
    | inr entries => take 15 (related_links str_lower venturebeat_ai_keywords entries)
    | inl _ => []
    end.
Proof.
  destruct feed as [e|[|entry entries]]; [done|done|].
  cbn [venturebeat_get_news_urls]. rewrite venturebeat_loop by (cbn; lia). done.
Qed.

Lemma mit_loop entries : ∀ ai_urls,
  mit_entries str_lower entries ai_urls
  = if existsb (unreadable str_lower) entries then inl AttributeError
    else inr (ai_urls ++ related_links str_lower mit_ai_keywords entries).
Proof.
  induction entries as [|entry entries IH]; intros ai_urls;
    cbn [mit_entries existsb].
  - unfold related_links. cbn [omap list_omap]. by rewrite app_nil_r.
  - rewrite related_links_cons. unfold unreadable at 1.
    destruct (entry_title entry) as [title|]; [|done].
    destruct (is_ai_related _ _ _ _); cbn [andb orb].
    + destruct (entry_link entry) as [link|].
      * rewrite bool_decide_eq_true_2 by done. cbn [negb orb].
        rewrite IH. destruct (existsb _ _); [done|]. by rewrite <- app_assoc.
      * rewrite bool_decide_eq_false_2 by (by intros [? ?]). done.
    + rewrite IH. by destruct (entry_link entry).
Qed.

(** X20.  [MITTechnologyReviewCrawler.get_news_urls] reads every entry of
    the feed before it cuts at fifteen: one entry without a title, or one
    that passes the keyword test and has no link, wherever it stands in the
    feed, leaves no address at all; otherwise the result is the first
    fifteen links of the entries that pass the test. *)
Theorem mit_urls_spec feed :
  mit_get_news_urls str_lower feed
  = match feed with
    | inr entries =>
        if existsb (unreadable str_lower) entries then []
        else take 15 (related_links str_lower mit_ai_keywords entries)
    | inl _ => []
    end.
Proof.
  destruct feed as [e|[|entry entries]]; [done|done|].
  cbn [mit_get_news_urls]. rewrite mit_loop. by destruct (existsb _ _).
Qed.

End SourcesFacts.

Section CrawlFacts.
Variable world_state : Type.
Variable source_name : pystr.
Variable get_news_urls : world_state → world_state * (exn + list pystr).
Variable extract_article_content :
  pystr → world_state → world_state * (exn + option article).
Variable now_isoformat : world_state → world_state * pystr.
Variable page : pystr → exn + option article.

Lemma crawl_articles_spec news_urls :
  (∀ url w', (extract_article_content url w').2 = page url) →
  ∀ articles w, ∃ new,
    (crawl_articles source_name extract_article_content now_isoformat
       news_urls articles w).2 = articles ++ new
    ∧ Forall2 (λ url (a : article),
                 a !! "url"%string = Some url
                 ∧ a !! "source"%string = Some source_name
                 ∧ is_Some (a !! "crawled_at"%string)
                 ∧ ∃ original now,
                     page url = inr (Some original)
                     ∧ a = <["crawled_at"%string := now]>
                             (<["url"%string := url]>
                                (<["source"%string := source_name]> original)))
        (List.filter (readable page) news_urls) new.
Proof.
  intros Hpage. induction news_urls as [|url rest IH]; intros articles w;
    cbn [crawl_articles List.filter].
  - exists []. by rewrite app_nil_r.
  - pose proof (Hpage url w) as Hurl. unfold readable at 1. rewrite <- Hurl.
    destruct (extract_article_content url w) as [w1 [e|[a|]]]; cbn [snd] in *;
      [apply IH| |apply IH].
    case_bool_decide; [|apply IH].
    destruct (now_isoformat w1) as [w2 now].
    destruct (IH (articles ++
                    [<["crawled_at"%string := now]>
                       (<["url"%string := url]> (<["source"%string := source_name]> a))])
                 w2) as (new & Hr & Hall).
    eexists (_ :: new). rewrite Hr, <- app_assoc. split; [done|].
    constructor; [|done]. split_and!; [by read_field|by read_field| |].
    + eexists. by read_field.
    + by exists a, now.
Qed.

(** X21.  On pages that answer the same whenever they are asked, and with a
    limit that is not negative, [crawl] returns exactly one article for
    each address that can be read among the first [max_articles] that
    [get_news_urls] gave, in their order: an address whose extraction
    raises, gives nothing or gives an empty dictionary is passed over, and
    the addresses after it are still read.  Each article is what its page
    gave, with its address as url, the name of the source and a time of
    crawl; there are at most [max_articles] of them. *)
Theorem crawl_collects (max_articles : Z) w :
  (0 ≤ max_articles)%Z →
  (∀ url w', (extract_article_content url w').2 = page url) →
  Forall2 (λ url (a : article),
             a !! "url"%string = Some url
             ∧ a !! "source"%string = Some source_name
             ∧ is_Some (a !! "crawled_at"%string)
             ∧ ∃ original now,
                 page url = inr (Some original)
                 ∧ a = <["crawled_at"%string := now]>
                         (<["url"%string := url]>
                            (<["source"%string := source_name]> original)))
    (List.filter (readable page)
       (take (Z.to_nat max_articles) (found_urls get_news_urls w)))
    (crawl source_name get_news_urls extract_article_content now_isoformat
       max_articles w).2
  ∧ (length (crawl source_name get_news_urls extract_article_content now_isoformat
               max_articles w).2 ≤ Z.to_nat max_articles)%nat.
Proof.
  intros Hmax Hpage. unfold crawl, found_urls.
  destruct (get_news_urls w) as [w1 [e|[|u urls]]]; cbn [snd].
  - rewrite take_nil. split; [constructor|cbn; lia].
  - rewrite take_nil. split; [constructor|cbn; lia].
  - unfold slice_to_int. destruct (Z.leb_spec 0 max_articles) as [_|?]; [|lia].
    destruct (crawl_articles_spec (take (Z.to_nat max_articles) (u :: urls)) Hpage [] w1)
      as (new & Hr & Hall).
    rewrite Hr. cbn [app]. split; [done|].
    apply Forall2_length in Hall. rewrite <- Hall.
    pose proof (filter_length_le (readable page)
                  (take (Z.to_nat max_articles) (u :: urls))) as Hle.
    rewrite length_take in Hle. lia.
Qed.

End CrawlFacts.

Lemma extracted_article_bounds_witness :
  ∃ content summary,
    article_of_page_techcrunch !! "content"%string = Some content
    ∧ article_of_page_techcrunch !! "summary"%string = Some summary
    ∧ (length content ≤ 2000)%nat
    ∧ (length summary ≤ 303)%nat
    ∧ (summary = content
       ∨ (300 < length content)%nat ∧ summary = take 300 content ++ py "...")
    ∧ dom article_of_page_techcrunch
      = {[ "title"; "content"; "author"; "published_date"; "summary" ]}%string.
Proof.
  apply extracted_article_bounds. left. exists (Some page_techcrunch). reflexivity.
Defined.

Lemma crawl_collects_witness :
  Forall2 (λ url (a : article),
             a !! "url"%string = Some url
             ∧ a !! "source"%string = Some (py "TechCrunch")
             ∧ is_Some (a !! "crawled_at"%string)
             ∧ ∃ original now,
                 page_but_second url = inr (Some original)
                 ∧ a = <["crawled_at"%string := now]>
                         (<["url"%string := url]>
                            (<["source"%string := py "TechCrunch"]> original)))
    (List.filter (readable page_but_second)
       (take (Z.to_nat 3) (found_urls source_three 0%nat)))
    (crawl (py "TechCrunch") source_three extract_but_second clock_fixed 3 0%nat).2
  ∧ (length (crawl (py "TechCrunch") source_three extract_but_second clock_fixed
               3 0%nat).2 ≤ Z.to_nat 3)%nat.
Proof.
  apply (crawl_collects nat (py "TechCrunch") source_three extract_but_second
           clock_fixed page_but_second 3 0%nat).
  - lia.
  - intros url w'. reflexivity.
Defined.

(** The crawl of three addresses whose second page cannot be read returns
    the first and the third. *)
Example crawl_passes_over_failure :
  map (λ a : article, a !! "url"%string)
    (crawl (py "TechCrunch") source_three extract_but_second clock_fixed 3 0%nat).2
  = [Some (py "https://techcrunch.com/2025/01/01/a");
     Some (py "https://techcrunch.com/2025/01/01/c")].
Proof. vm_compute. reflexivity. Qed.
